(** * HubSpot to BigQuery snapshot ETL (etl-pipeline/main.py)

    A shallow embedding of the deal snapshot pipeline: timestamp
    normalisation, reference-data loading, association fetching, the
    paginated deal fetcher, the record transformer, the snapshot loader and
    the orchestrator, followed by the properties established about them.

    Conventions.
    - Python [str] values are [string]s (one character per byte; the model
      covers ASCII text, on which [str.lower], [str.isdigit] and
      [str.strip] act as written below).
    - [None] is [None]; [Optional[T]] is [option T].
    - A call that can raise returns an [outcome]; [try/except] is [catch].
    - The remote API and the clock are oracles carried by the arguments:
      a function of the call number gives the response of each call. *)

From Stdlib Require Import ZArith Ascii String List Bool Lia.
From stdpp Require Import base option list strings gmap.

Local Open Scope string_scope.
Local Open Scope list_scope.
Local Open Scope Z_scope.

(** ** Python strings *)

Module PyStr.

Definition is_upper (c : ascii) : bool :=
  let n := N_of_ascii c in ((65 <=? n) && (n <=? 90))%N.

(** [str.lower] on one character: 'A'..'Z' move to 'a'..'z'. *)
Definition lower_char (c : ascii) : ascii :=
  if is_upper c then ascii_of_N (N_of_ascii c + 32) else c.

Fixpoint lower (s : string) : string :=
  match s with
  | EmptyString => EmptyString
  | String c t => String (lower_char c) (lower t)
  end.

(** [needle in hay]: [needle] occurs in [hay] as a contiguous run. *)
Fixpoint contains (needle hay : string) : bool :=
  String.prefix needle hay ||
  match hay with
  | EmptyString => false
  | String _ t => contains needle t
  end.

(** [any(s in hay for s in needles)] *)
Definition any_in (needles : list string) (hay : string) : bool :=
  existsb (fun s => contains s hay) needles.

Definition is_digit (c : ascii) : bool :=
  let n := N_of_ascii c in ((48 <=? n) && (n <=? 57))%N.

Fixpoint all_digits (s : string) : bool :=
  match s with
  | EmptyString => true
  | String c t => is_digit c && all_digits t
  end.

(** [str.isdigit]: non-empty and made of digits only. *)
Definition isdigit (s : string) : bool :=
  match s with
  | EmptyString => false
  | _ => all_digits s
  end.

Definition digit_val (c : ascii) : Z := Z.of_N (N_of_ascii c) - 48.

Fixpoint int_acc (acc : Z) (s : string) : Z :=
  match s with
  | EmptyString => acc
  | String c t => int_acc (10 * acc + digit_val c) t
  end.

(** [int(s)] on a string of digits. *)
Definition int_of_digits (s : string) : Z := int_acc 0 s.

(** [s.replace(old, new)]: every non-overlapping occurrence of the
    non-empty [old], scanning from the left.  [fuel] bounds the scan by
    the length of [s]. *)
Fixpoint drop (n : nat) (s : string) : string :=
  match n, s with
  | O, _ => s
  | S _, EmptyString => EmptyString
  | S k, String _ t => drop k t
  end.

Fixpoint replace_fuel (fuel : nat) (old new s : string) : string :=
  match fuel with
  | O => s
  | S k =>
      match s with
      | EmptyString => EmptyString
      | String c t =>
          if String.prefix old s
          then String.append new (replace_fuel k old new (drop (String.length old) s))
          else String c (replace_fuel k old new t)
      end
  end.

Definition replace (old new s : string) : string :=
  replace_fuel (String.length s) old new s.

(** Truthiness of a string: [bool(s)]. *)
Definition truthy (s : string) : bool :=
  match s with EmptyString => false | _ => true end.

(** The characters [str.strip] removes. *)
Definition is_space (c : ascii) : bool :=
  let n := N_of_ascii c in
  (((9 <=? n) && (n <=? 13)) || ((28 <=? n) && (n <=? 32)))%N.

Fixpoint lstrip (s : string) : string :=
  match s with
  | String c t => if is_space c then lstrip t else s
  | EmptyString => EmptyString
  end.

Fixpoint rstrip (s : string) : string :=
  match s with
  | EmptyString => EmptyString
  | String c t =>
      match rstrip t with
      | EmptyString => if is_space c then EmptyString else String c EmptyString
      | r => String c r
      end
  end.

Definition strip (s : string) : string := rstrip (lstrip s).

End PyStr.

(** ** Exceptions *)

(** The exception classes the handlers of main.py tell apart.  [OSError]
    stands for the tuple [(ConnectionError, TimeoutError, OSError)] of the
    network handlers; the [status] of an API exception is its HTTP status;
    the string is [str(e)]. *)
Inductive exn : Type :=
| ApiException (status : Z) (msg : string)
| OSError (msg : string)
| AttributeError (msg : string)
| ValueError (msg : string)
| OverflowError (msg : string)
| OtherError (msg : string).

Definition exn_str (e : exn) : string :=
  match e with
  | ApiException _ m | OSError m | AttributeError m
  | ValueError m | OverflowError m | OtherError m => m
  end.

Inductive outcome (A : Type) : Type :=
| Ret (a : A)
| Raise (e : exn).
Arguments Ret {A} a.
Arguments Raise {A} e.

Definition bind {A B} (m : outcome A) (k : A -> outcome B) : outcome B :=
  match m with
  | Ret a => k a
  | Raise e => Raise e
  end.

(** [try: m  except Exception as e: h e] *)
Definition catch {A} (m : outcome A) (h : exn -> outcome A) : outcome A :=
  match m with
  | Ret a => Ret a
  | Raise e => h e
  end.

Definition returns {A} (m : outcome A) : Prop := exists a, m = Ret a.

(** ** Deal age status *)

(** calculate_deal_age_status (main.py 941-996). *)
Definition calculate_deal_age_status (days_in_stage : option Z) (dealstage : string)
  : string :=
  match days_in_stage with
  | None => "Unknown"
  | Some days_in_stage =>
      let stage_lower := PyStr.lower dealstage in
      if PyStr.contains "stalled" stage_lower || PyStr.contains "delayed" stage_lower
      then
        if days_in_stage <=? 14 then "Yellow" else "Red"
      else if PyStr.any_in
                ["nbm"; "discovery"; "qualification"; "prospecting"; "lead"; "scheduled"]
                stage_lower
      then
        if days_in_stage <=? 14 then "Green"
        else if days_in_stage <=? 30 then "Yellow"
        else "Red"
      else if PyStr.any_in ["technical"; "evaluation"; "demo"; "proposal"] stage_lower
      then
        if days_in_stage <=? 30 then "Green"
        else if days_in_stage <=? 45 then "Yellow"
        else "Red"
      else if PyStr.any_in ["negotiation"; "contract"; "closing"; "final"] stage_lower
      then
        if days_in_stage <=? 45 then "Green"
        else if days_in_stage <=? 60 then "Yellow"
        else "Red"
      else
        if days_in_stage <=? 21 then "Green"
        else if days_in_stage <=? 45 then "Yellow"
        else "Red"
  end.

(** ** Deal status flags *)

(** The three flags of transform_deals (main.py 1098-1102), from the
    resolved stage label. *)
Record status_flags : Type := {
  flag_is_won : bool;
  flag_is_lost : bool;
  flag_is_open : bool
}.

Definition deal_status (dealstage_label : string) : status_flags :=
  let stage_lower :=
    if PyStr.truthy dealstage_label then PyStr.lower dealstage_label else "" in
  let is_won :=
    PyStr.contains "won" stage_lower || PyStr.contains "closed won" stage_lower in
  let is_lost :=
    PyStr.contains "lost" stage_lower || PyStr.contains "closed lost" stage_lower in
  let is_open := negb is_won && negb is_lost in
  {| flag_is_won := is_won; flag_is_lost := is_lost; flag_is_open := is_open |}.

Declare Scope outcome_scope.
Delimit Scope outcome_scope with outcome.
Notation "x <- m ;; k" := (bind m (fun x => k))
  (at level 100, m at next level, right associativity) : outcome_scope.
Local Open Scope outcome_scope.

(** ** Dates and times *)

(** A [datetime.datetime]: civil fields and [tzinfo], [None] for a naive
    value, [Some off] for a fixed offset of [off] minutes east of UTC
    ([timezone.utc] is [Some 0]). *)
Record datetime : Type := {
  year : Z; month : Z; day : Z;
  hour : Z; minute : Z; second : Z; microsecond : Z;
  tzinfo : option Z
}.

Definition utc : option Z := Some 0.

Module DateTime.

Definition is_leap (y : Z) : bool :=
  (y mod 4 =? 0) && (negb (y mod 100 =? 0) || (y mod 400 =? 0)).

Definition days_in_month (y m : Z) : Z :=
  if m =? 2 then (if is_leap y then 29 else 28)
  else if (m =? 4) || (m =? 6) || (m =? 9) || (m =? 11) then 30
  else 31.

Definition days_before_year (y : Z) : Z :=
  let p := y - 1 in p * 365 + p / 4 - p / 100 + p / 400.

Fixpoint days_before_month_nat (y : Z) (m : nat) : Z :=
  match m with
  | O => 0
  | S k => days_before_month_nat y k + days_in_month y (Z.of_nat (S k))
  end.

Definition days_before_month (y m : Z) : Z :=
  days_before_month_nat y (Z.to_nat (m - 1)).

(** [date.toordinal]: 1 for 0001-01-01. *)
Definition toordinal (dt : datetime) : Z :=
  days_before_year (year dt) + days_before_month (year dt) (month dt) + day dt.

(** The checks of the [datetime] constructor. *)
Definition valid_fields (y m d hh mi ss us : Z) : bool :=
  (1 <=? y) && (y <=? 9999) && (1 <=? m) && (m <=? 12) &&
  (1 <=? d) && (d <=? days_in_month y m) &&
  (0 <=? hh) && (hh <=? 23) && (0 <=? mi) && (mi <=? 59) &&
  (0 <=? ss) && (ss <=? 59) && (0 <=? us) && (us <=? 999999).

Definition valid (dt : datetime) : bool :=
  valid_fields (year dt) (month dt) (day dt)
               (hour dt) (minute dt) (second dt) (microsecond dt).

(** [datetime(y, m, d, H, M, S, us)]: a naive value, or ValueError. *)
Definition make (y m d hh mi ss us : Z) : outcome datetime :=
  if valid_fields y m d hh mi ss us
  then Ret {| year := y; month := m; day := d; hour := hh; minute := mi;
              second := ss; microsecond := us; tzinfo := None |}
  else Raise (ValueError "field out of range").

(** [dt.replace(tzinfo=tz)] *)
Definition replace_tzinfo (tz : option Z) (dt : datetime) : datetime :=
  {| year := year dt; month := month dt; day := day dt; hour := hour dt;
     minute := minute dt; second := second dt;
     microsecond := microsecond dt; tzinfo := tz |}.

(** Microseconds since 0001-01-01T00:00 of the civil fields. *)
Definition civil_micros (dt : datetime) : Z :=
  ((toordinal dt * 86400
    + hour dt * 3600 + minute dt * 60 + second dt) * 1000000)
  + microsecond dt.

(** [(a - b).days].  Mixing a naive and an aware value is a TypeError;
    two aware values are compared as instants; [timedelta.days] is the
    floor of the difference in days. *)
Definition sub_days (a b : datetime) : outcome Z :=
  match tzinfo a, tzinfo b with
  | None, None => Ret ((civil_micros a - civil_micros b) / 86400000000)
  | Some oa, Some ob =>
      Ret (((civil_micros a - oa * 60000000)
            - (civil_micros b - ob * 60000000)) / 86400000000)
  | _, _ => Raise (OtherError "can't subtract offset-naive and offset-aware datetimes")
  end.

(** *** Formatting *)

Definition digit_char (d : Z) : ascii := ascii_of_N (Z.to_N (48 + d)).

(** [n] digits of [v], most significant first, zero padded. *)
Fixpoint fmt_digits (n : nat) (v : Z) : string :=
  match n with
  | O => EmptyString
  | S k => String (digit_char ((v / 10 ^ Z.of_nat k) mod 10)) (fmt_digits k v)
  end.

Definition fmt_offset (off : Z) : string :=
  let sign := if off <? 0 then "-" else "+" in
  let a := Z.abs off in
  String.append sign
    (String.append (fmt_digits 2 (a / 60))
       (String.append ":" (fmt_digits 2 (a mod 60)))).

(** [dt.isoformat()] *)
Definition isoformat (dt : datetime) : string :=
  String.append (fmt_digits 4 (year dt))
 (String.append "-" (String.append (fmt_digits 2 (month dt))
 (String.append "-" (String.append (fmt_digits 2 (day dt))
 (String.append "T" (String.append (fmt_digits 2 (hour dt))
 (String.append ":" (String.append (fmt_digits 2 (minute dt))
 (String.append ":" (String.append (fmt_digits 2 (second dt))
 (String.append
    (if microsecond dt =? 0 then ""
     else String.append "." (fmt_digits 6 (microsecond dt)))
    (match tzinfo dt with
     | None => ""
     | Some off => fmt_offset off
     end)))))))))))).

(** *** Parsing *)

(** Exactly [n] digits, read as a number. *)
Fixpoint take_digits (n : nat) (acc : Z) (s : string) : option (Z * string) :=
  match n with
  | O => Some (acc, s)
  | S k =>
      match s with
      | String c t =>
          if PyStr.is_digit c
          then take_digits k (10 * acc + PyStr.digit_val c) t
          else None
      | EmptyString => None
      end
  end.

Definition expect (c : ascii) (s : string) : option string :=
  match s with
  | String a t => if Ascii.eqb a c then Some t else None
  | EmptyString => None
  end.

Definition skip_char (s : string) : option string :=
  match s with
  | String _ t => Some t
  | EmptyString => None
  end.

(** The fraction of [fromisoformat]: absent, or a dot and three or six
    digits. *)
Definition parse_fraction (s : string) : option (Z * string) :=
  match s with
  | String "." t =>
      match take_digits 6 0 t with
      | Some r => Some r
      | None =>
          match take_digits 3 0 t with
          | Some (v, rest) => Some (v * 1000, rest)
          | None => None
          end
      end
  | _ => Some (0, s)
  end.

(** The offset of [fromisoformat]: absent, or a sign and HH:MM. *)
Definition parse_offset (s : string) : option (option Z) :=
  match s with
  | EmptyString => Some None
  | String c t =>
      if Ascii.eqb c "+" || Ascii.eqb c "-" then
        '(hh, t1) ← take_digits 2 0 t;
        t2 ← expect ":" t1;
        '(mm, t3) ← take_digits 2 0 t2;
        match t3 with
        | EmptyString =>
            if (hh <=? 23) && (mm <=? 59)
            then Some (Some ((if Ascii.eqb c "-" then -1 else 1) * (hh * 60 + mm)))
            else None
        | _ => None
        end
      else None
  end.

Definition parse_iso (s : string) : option datetime :=
  '(y, s1) ← take_digits 4 0 s;
  s2 ← expect "-" s1;
  '(m, s3) ← take_digits 2 0 s2;
  s4 ← expect "-" s3;
  '(d, s5) ← take_digits 2 0 s4;
  s6 ← skip_char s5;
  '(hh, s7) ← take_digits 2 0 s6;
  s8 ← expect ":" s7;
  '(mi, s9) ← take_digits 2 0 s8;
  s10 ← expect ":" s9;
  '(ss, s11) ← take_digits 2 0 s10;
  '(us, s12) ← parse_fraction s11;
  tz ← parse_offset s12;
  if valid_fields y m d hh mi ss us
  then Some {| year := y; month := m; day := d; hour := hh; minute := mi;
               second := ss; microsecond := us; tzinfo := tz |}
  else None.

(** [datetime.fromisoformat(s)] on the strings [isoformat] writes
    (date, separator, full time, optional fraction, optional offset);
    ValueError otherwise. *)
Definition fromisoformat (s : string) : outcome datetime :=
  match parse_iso s with
  | Some dt => Ret dt
  | None => Raise (ValueError "Invalid isoformat string")
  end.

End DateTime.

(** *** strptime *)

Module Strptime.

Inductive directive : Type :=
| DY | Dm | Dd | DH | DM | DS | Df
| DLit (c : ascii).

(** The directives of a format string: [%X] is a field, any other
    character stands for itself. *)
Fixpoint directives (fmt : string) : list directive :=
  match fmt with
  | EmptyString => []
  | String "%" (String c t) =>
      (if Ascii.eqb c "Y" then DY
       else if Ascii.eqb c "m" then Dm
       else if Ascii.eqb c "d" then Dd
       else if Ascii.eqb c "H" then DH
       else if Ascii.eqb c "M" then DM
       else if Ascii.eqb c "S" then DS
       else if Ascii.eqb c "f" then Df
       else DLit c) :: directives t
  | String c t => DLit c :: directives t
  end.

Definition between (lo hi : ascii) (c : ascii) : bool :=
  ((N_of_ascii lo <=? N_of_ascii c) && (N_of_ascii c <=? N_of_ascii hi))%N.

Definition exactly (x : ascii) (c : ascii) : bool := Ascii.eqb x c.

(** Two characters, the first in [p1] and the second in [p2]. *)
Definition two (p1 p2 : ascii -> bool) (s : string) : option (Z * string) :=
  match s with
  | String a (String b t) =>
      if p1 a && p2 b
      then Some (10 * PyStr.digit_val a + PyStr.digit_val b, t)
      else None
  | _ => None
  end.

Definition one (p : ascii -> bool) (s : string) : option (Z * string) :=
  match s with
  | String a t => if p a then Some (PyStr.digit_val a, t) else None
  | EmptyString => None
  end.

(** A blank and one character in [p]: the last alternative of [%d]. *)
Definition blank_one (p : ascii -> bool) (s : string) : option (Z * string) :=
  match s with
  | String " " (String b t) => if p b then Some (PyStr.digit_val b, t) else None
  | _ => None
  end.

(** [a | b]: the first alternative that matches. *)
Definition alt (p q : string -> option (Z * string)) (s : string)
  : option (Z * string) :=
  match p s with
  | Some r => Some r
  | None => q s
  end.

(** Up to [n] further digits: the greedy [[0-9]{1,6}] of [%f].  Returns
    the digits read, as a number, and how many there were. *)
Fixpoint digits_upto (n : nat) (acc : Z) (cnt : nat) (s : string)
  : Z * nat * string :=
  match n with
  | O => (acc, cnt, s)
  | S k =>
      match s with
      | String c t =>
          if PyStr.is_digit c
          then digits_upto k (10 * acc + PyStr.digit_val c) (S cnt) t
          else (acc, cnt, s)
      | EmptyString => (acc, cnt, s)
      end
  end.

(** The regular expressions of [_strptime.TimeRE]:
    %Y \d\d\d\d;  %m 1[0-2]|0[1-9]|[1-9];
    %d 3[0-1]|[1-2]\d|0[1-9]|[1-9]| [1-9];
    %H 2[0-3]|[0-1]\d|\d;  %M [0-5]\d|\d;  %S 6[0-1]|[0-5]\d|\d;
    %f [0-9]{1,6}, right padded with zeros to microseconds. *)
Definition field (d : directive) (s : string) : option (Z * string) :=
  match d with
  | DY => DateTime.take_digits 4 0 s
  | Dm => alt (two (exactly "1") (between "0" "2"))
          (alt (two (exactly "0") (between "1" "9")) (one (between "1" "9"))) s
  | Dd => alt (two (exactly "3") (between "0" "1"))
          (alt (two (between "1" "2") PyStr.is_digit)
          (alt (two (exactly "0") (between "1" "9"))
          (alt (one (between "1" "9")) (blank_one (between "1" "9"))))) s
  | DH => alt (two (exactly "2") (between "0" "3"))
          (alt (two (between "0" "1") PyStr.is_digit) (one PyStr.is_digit)) s
  | DM => alt (two (between "0" "5") PyStr.is_digit) (one PyStr.is_digit) s
  | DS => alt (two (exactly "6") (between "0" "1"))
          (alt (two (between "0" "5") PyStr.is_digit) (one PyStr.is_digit)) s
  | Df => match digits_upto 6 0 0 s with
          | (_, O, _) => None
          | (v, cnt, rest) => Some (v * 10 ^ Z.of_nat (6 - cnt), rest)
          end
  | DLit c =>
      (* literals match without regard to case *)
      match s with
      | String a t =>
          if Ascii.eqb (PyStr.lower_char a) (PyStr.lower_char c)
          then Some (0, t) else None
      | EmptyString => None
      end
  end.

(** The fields found so far; the defaults are those of [_strptime]. *)
Record found : Type := {
  f_year : Z; f_month : Z; f_day : Z;
  f_hour : Z; f_minute : Z; f_second : Z; f_fraction : Z
}.

Definition found0 : found :=
  {| f_year := 1900; f_month := 1; f_day := 1;
     f_hour := 0; f_minute := 0; f_second := 0; f_fraction := 0 |}.

Definition store (d : directive) (v : Z) (r : found) : found :=
  match d with
  | DY => {| f_year := v; f_month := f_month r; f_day := f_day r; f_hour := f_hour r;
             f_minute := f_minute r; f_second := f_second r; f_fraction := f_fraction r |}
  | Dm => {| f_year := f_year r; f_month := v; f_day := f_day r; f_hour := f_hour r;
             f_minute := f_minute r; f_second := f_second r; f_fraction := f_fraction r |}
  | Dd => {| f_year := f_year r; f_month := f_month r; f_day := v; f_hour := f_hour r;
             f_minute := f_minute r; f_second := f_second r; f_fraction := f_fraction r |}
  | DH => {| f_year := f_year r; f_month := f_month r; f_day := f_day r; f_hour := v;
             f_minute := f_minute r; f_second := f_second r; f_fraction := f_fraction r |}
  | DM => {| f_year := f_year r; f_month := f_month r; f_day := f_day r; f_hour := f_hour r;
             f_minute := v; f_second := f_second r; f_fraction := f_fraction r |}
  | DS => {| f_year := f_year r; f_month := f_month r; f_day := f_day r; f_hour := f_hour r;
             f_minute := f_minute r; f_second := v; f_fraction := f_fraction r |}
  | Df => {| f_year := f_year r; f_month := f_month r; f_day := f_day r; f_hour := f_hour r;
             f_minute := f_minute r; f_second := f_second r; f_fraction := v |}
  | DLit _ => r
  end.

(** Match the directives from the left; the whole string must be used. *)
Fixpoint scan (ds : list directive) (r : found) (s : string) : option found :=
  match ds with
  | [] => match s with EmptyString => Some r | _ => None end
  | d :: ds' =>
      match field d s with
      | Some (v, rest) => scan ds' (store d v r) rest
      | None => None
      end
  end.

(** [datetime.strptime(s, fmt)]: a naive value, or ValueError when the
    text does not match, data remains, or a field is out of range. *)
Definition strptime (s fmt : string) : outcome datetime :=
  match scan (directives fmt) found0 s with
  | None => Raise (ValueError "time data does not match format")
  | Some r =>
      DateTime.make (f_year r) (f_month r) (f_day r)
                    (f_hour r) (f_minute r) (f_second r) (f_fraction r)
  end.

End Strptime.

(** ** The Python runtime *)

(** What the program takes from the interpreter's binary64 arithmetic:
    the float type with [float(s)] on a str ([None] when it raises
    ValueError, the one exception it has for a str) and [*], and the civil
    fields that [datetime.fromtimestamp(ms / 1000, tz=timezone.utc)]
    computes from the float quotient (a naive record; the zone is attached
    below). *)
Class PyRuntime : Type := {
  pyfloat : Type;
  float_of_str : string -> option pyfloat;
  float_mul : pyfloat -> pyfloat -> pyfloat;
  utc_fields_of_ms : Z -> outcome datetime
}.

Section Timestamps.
Context `{RT : PyRuntime}.

(** [datetime.fromtimestamp(timestamp_ms / 1000, tz=timezone.utc)] *)
Definition fromtimestamp_utc (timestamp_ms : Z) : outcome datetime :=
  dt <- utc_fields_of_ms timestamp_ms ;;
  Ret (DateTime.replace_tzinfo utc dt).

(** The candidate formats of convert_hubspot_timestamp, in order. *)
Definition timestamp_formats : list string :=
  [ "%Y-%m-%dT%H:%M:%S.%fZ";
    "%Y-%m-%dT%H:%M:%SZ";
    "%Y-%m-%dT%H:%M:%S.%f";
    "%Y-%m-%dT%H:%M:%S";
    "%Y-%m-%d" ].

(** One pass of the loop body (main.py 236-242): strip the zone suffix,
    parse, attach UTC, format. *)
Definition try_format (timestamp_str fmt : string) : outcome string :=
  let ts := PyStr.replace "Z" "" (PyStr.replace "+00:00" "Z" timestamp_str) in
  dt <- Strptime.strptime ts (PyStr.replace "Z" "" fmt) ;;
  let dt := DateTime.replace_tzinfo utc dt in
  Ret (DateTime.isoformat dt).

(** The [for fmt in ...] loop: a ValueError moves on to the next format,
    any other exception leaves the loop; after the last format the
    function returns None. *)
Fixpoint try_formats (timestamp_str : string) (fmts : list string)
  : outcome (option string) :=
  match fmts with
  | [] => Ret None
  | fmt :: rest =>
      match try_format timestamp_str fmt with
      | Ret iso => Ret (Some iso)
      | Raise (ValueError _) => try_formats timestamp_str rest
      | Raise e => Raise e
      end
  end.

(** convert_hubspot_timestamp (main.py 217-247). *)
Definition convert_hubspot_timestamp (timestamp_str : option string)
  : outcome (option string) :=
  match timestamp_str with
  | None => Ret None
  | Some s =>
      if negb (PyStr.truthy s) then Ret None
      else
        catch
          (if PyStr.isdigit s then
             let timestamp_ms := PyStr.int_of_digits s in
             dt <- fromtimestamp_utc timestamp_ms ;;
             Ret (Some (DateTime.isoformat dt))
           else if PyStr.contains "T" s || PyStr.contains "-" s then
             try_formats s timestamp_formats
           else Ret None)
          (fun _ => Ret None)
  end.

(** parse_timestamp_to_datetime (main.py 250-262). *)
Definition parse_timestamp_to_datetime (timestamp_str : option string)
  : outcome (option datetime) :=
  match timestamp_str with
  | None => Ret None
  | Some s =>
      if negb (PyStr.truthy s) then Ret None
      else
        iso_str <- convert_hubspot_timestamp (Some s) ;;
        match iso_str with
        | None => Ret None
        | Some iso =>
            if negb (PyStr.truthy iso) then Ret None
            else
              catch
                (dt <- DateTime.fromisoformat (PyStr.replace "Z" "+00:00" iso) ;;
                 Ret (Some dt))
                (fun _ => Ret None)
        end
  end.

End Timestamps.

(** ** A reference runtime

    An instance of [PyRuntime] on which the model runs.  Floats stay
    symbolic: [FloatLit s] is the binary64 value [float(s)] of an accepted
    literal and [FloatMul a b] the product [a * b]; [float_syntax] is the
    grammar [float()] accepts.  The epoch conversion is done in exact
    integer arithmetic; [fromtimestamp] agrees with it on present-day
    timestamps, and far in the future the rounding of the float quotient
    [ms / 1000] can move its result by some microseconds. *)

Module Reference.

Inductive symfloat : Type :=
| FloatLit (s : string)
| FloatMul (a b : symfloat).

(** digit (["_"] digit)*, after its first digit: the rest of the text. *)
Fixpoint digitpart_tail (s : string) : string :=
  match s with
  | String c t =>
      if PyStr.is_digit c then digitpart_tail t
      else if Ascii.eqb c "_" then
        match t with
        | String d t' => if PyStr.is_digit d then digitpart_tail t' else s
        | EmptyString => s
        end
      else s
  | EmptyString => EmptyString
  end.

Definition digitpart (s : string) : option string :=
  match s with
  | String c t => if PyStr.is_digit c then Some (digitpart_tail t) else None
  | EmptyString => None
  end.

(** [digitpart] "." digitpart | digitpart ["."] *)
Definition number (s : string) : option string :=
  match digitpart s with
  | Some r =>
      match r with
      | String "." r' =>
          match digitpart r' with
          | Some r'' => Some r''
          | None => Some r'
          end
      | _ => Some r
      end
  | None =>
      match s with
      | String "." r' => digitpart r'
      | _ => None
      end
  end.

(** ("e" | "E") ["+" | "-"] digitpart, or nothing. *)
Definition exponent (s : string) : option string :=
  match s with
  | EmptyString => Some EmptyString
  | String c t =>
      if Ascii.eqb c "e" || Ascii.eqb c "E" then
        match t with
        | String sg t' =>
            if Ascii.eqb sg "+" || Ascii.eqb sg "-" then digitpart t'
            else digitpart t
        | EmptyString => None
        end
      else Some s
  end.

Definition unsigned_float (s : string) : bool :=
  let l := PyStr.lower s in
  if String.eqb l "inf" || String.eqb l "infinity" || String.eqb l "nan" then true
  else
    match number s with
    | Some r =>
        match exponent r with
        | Some EmptyString => true
        | _ => false
        end
    | None => false
    end.

(** The padding [float()] skips at both ends of an ASCII text: the
    blank and the control characters 9 to 13. *)
Definition is_padding (c : ascii) : bool :=
  let n := N_of_ascii c in (((9 <=? n) && (n <=? 13)) || (n =? 32))%N.

Fixpoint skip_padding (s : string) : string :=
  match s with
  | String c t => if is_padding c then skip_padding t else s
  | EmptyString => EmptyString
  end.

Fixpoint drop_padding (s : string) : string :=
  match s with
  | EmptyString => EmptyString
  | String c t =>
      match drop_padding t with
      | EmptyString => if is_padding c then EmptyString else String c EmptyString
      | r => String c r
      end
  end.

Definition float_syntax (s : string) : bool :=
  match drop_padding (skip_padding s) with
  | String c t =>
      if Ascii.eqb c "+" || Ascii.eqb c "-" then unsigned_float t
      else unsigned_float (String c t)
  | EmptyString => false
  end.

Definition parse_float (s : string) : option symfloat :=
  if float_syntax s then Some (FloatLit s) else None.

(** Civil date of a day count from 1970-01-01. *)
Definition civil_from_days (days : Z) : Z * Z * Z :=
  let z := days + 719468 in
  let era := z / 146097 in
  let doe := z - era * 146097 in
  let yoe := (doe - doe / 1460 + doe / 36524 - doe / 146096) / 365 in
  let y := yoe + era * 400 in
  let doy := doe - (365 * yoe + yoe / 4 - yoe / 100) in
  let mp := (5 * doy + 2) / 153 in
  let d := doy - (153 * mp + 2) / 5 + 1 in
  let m := if mp <? 10 then mp + 3 else mp - 9 in
  (if m <=? 2 then y + 1 else y, m, d).

(** [civil_from_days] names a date of the calendar whose ordinal is
    that of the day. *)
Definition civil_date_ok (days : Z) : bool :=
  let '(y, m, d) := civil_from_days days in
  (1 <=? y) && (y <=? 9999) && (1 <=? m) && (m <=? 12) &&
  (1 <=? d) && (d <=? DateTime.days_in_month y m) &&
  (DateTime.days_before_year y + DateTime.days_before_month y m + d
   =? days + 719163).

(** The same of [n] days in a row, from [days] on. *)
Fixpoint civil_dates_ok (n : nat) (days : Z) : bool :=
  match n with
  | O => true
  | S k => civil_date_ok days && civil_dates_ok k (days + 1)
  end.

Definition exact_utc_fields (ms : Z) : outcome datetime :=
  let secs := ms / 1000 in
  let '(y, m, d) := civil_from_days (secs / 86400) in
  let sod := secs mod 86400 in
  if y <=? 9999 then
    DateTime.make y m d (sod / 3600) ((sod mod 3600) / 60) (sod mod 60)
                  ((ms mod 1000) * 1000)
  else Raise (ValueError "year is out of range").

#[export] Instance runtime : PyRuntime := {|
  pyfloat := symfloat;
  float_of_str := parse_float;
  float_mul := FloatMul;
  utc_fields_of_ms := exact_utc_fields
|}.

End Reference.

(** ** Records, dictionaries and logs *)

(** [deal.properties]: property name to value, where a value may be
    [None]. *)
Abbreviation props := (gmap string (option string)).

(** [props.get(key)] *)
Definition props_get (p : props) (key : string) : option string :=
  match p !! key with
  | Some v => v
  | None => None
  end.

(** [str(props.get(key, ''))] *)
Definition props_get_str (p : props) (key : string) : string :=
  match p !! key with
  | Some (Some v) => v
  | Some None => "None"
  | None => ""
  end.

(** [props.get(key) or ''] *)
Definition props_get_or_empty (p : props) (key : string) : string :=
  match props_get p key with
  | Some v => v
  | None => ""
  end.

Record deal : Type := { properties : props }.

(** A dict whose iteration order is observed: keys in insertion order,
    assignment to a present key keeps its place. *)
Module ODict.

Definition t (V : Type) : Type := list (string * V).

Fixpoint get {V} (d : t V) (k : string) : option V :=
  match d with
  | [] => None
  | (k', v) :: rest => if String.eqb k' k then Some v else get rest k
  end.

Fixpoint set {V} (k : string) (v : V) (d : t V) : t V :=
  match d with
  | [] => [(k, v)]
  | (k', v') :: rest =>
      if String.eqb k' k then (k', v) :: rest else (k', v') :: set k v rest
  end.

Definition alter {V} (f : V -> V) (k : string) (d : t V) : t V :=
  map (fun kv => if String.eqb (fst kv) k then (fst kv, f (snd kv)) else kv) d.

Definition values {V} (d : t V) : list V := map snd d.

Definition mem {V} (d : t V) (k : string) : bool :=
  match get d k with Some _ => true | None => false end.

End ODict.

Inductive level : Type := DEBUG | INFO | WARNING | ERROR.

(** The log lines of the modelled functions, by what they report. *)
Inductive log_message : Type :=
| MsgFetchingPipelines
| MsgFoundTargetPipeline (name id : string)
| MsgFetchedPipelines (count : nat)
| MsgTargetPipelineNotFound (name : string) (available : list string)
| MsgCouldNotFetchPipelines (error : string)
| MsgPermissionError (what : string)
| MsgHttpStatus (status : Z)
| MsgCouldNotFetch (what : string) (error : string)
| MsgRetrying (what : string) (wait_time : Z)
| MsgGaveUp (what : string) (attempts : nat)
| MsgRateLimited (wait_time : Z) (retry_count max_retries : Z)
| MsgApiError (retry_count max_retries : Z)
| MsgFailedAfterRetries (max_retries : Z)
| MsgUnexpectedError (error : string)
| MsgPage (page_count : Z) (fetched kept total : nat)
| MsgCompleted (total : nat).

(** What a function does besides returning: API calls, waits, log lines. *)
Inductive event : Type :=
| Call (endpoint : string) (arg : string)
| Sleep (seconds : Z)
| Log (lvl : level) (msg : log_message).

(** ** Numeric coercions *)

Section Coercions.
Context `{RT : PyRuntime}.

(** safe_float (main.py 921-928) on a property value: [None] and the
    empty string give None, and so does a ValueError of [float]. *)
Definition safe_float (value : option string) : option pyfloat :=
  match value with
  | None => None
  | Some s => if String.eqb s "" then None else float_of_str s
  end.

End Coercions.

(** ** Reference data: pipelines and stages *)

Definition TARGET_PIPELINE_NAME : string := "3PL New Business".

Record api_stage : Type := { s_id : string; s_label : string }.

Record api_pipeline : Type := {
  p_id : string;
  p_label : string;
  p_stages : list api_stage
}.

(** A value of pipelines_dict. *)
Record pipeline_entry : Type := {
  pe_label : string;
  pe_stages : gmap string string;
  pe_stage_order : gmap string nat
}.

(** A value of stages_dict. *)
Record stage_entry : Type := {
  se_label : string;
  se_pipeline_id : string;
  se_order : nat
}.

Abbreviation pipelines_dict_t := (ODict.t pipeline_entry).
Abbreviation stages_dict_t := (gmap string stage_entry).

Record pipelines_state : Type := {
  ps_pipelines : pipelines_dict_t;
  ps_stages : stages_dict_t;
  ps_target : option string;
  ps_log : list event
}.

Definition add_stage (pid : string) (idx : nat) (stage : api_stage)
    (st : pipelines_state) : pipelines_state :=
  {| ps_pipelines :=
       ODict.alter
         (fun e => {| pe_label := pe_label e;
                      pe_stages := <[s_id stage := s_label stage]> (pe_stages e);
                      pe_stage_order := <[s_id stage := idx]> (pe_stage_order e) |})
         pid (ps_pipelines st);
     ps_stages :=
       <[s_id stage := {| se_label := s_label stage;
                              se_pipeline_id := pid;
                              se_order := idx |}]> (ps_stages st);
     ps_target := ps_target st;
     ps_log := ps_log st |}.

(** [for idx, stage in enumerate(pipeline.stages)] *)
Fixpoint add_stages (pid : string) (idx : nat) (stages : list api_stage)
    (st : pipelines_state) : pipelines_state :=
  match stages with
  | [] => st
  | stage :: rest => add_stages pid (S idx) rest (add_stage pid idx stage st)
  end.

(** The body of [for pipeline in pipelines.results] (main.py 303-327). *)
Definition add_pipeline (pipeline : api_pipeline) (st : pipelines_state)
  : pipelines_state :=
  let pid := p_id pipeline in
  let label := p_label pipeline in
  let is_target := String.eqb label TARGET_PIPELINE_NAME in
  let st1 :=
    {| ps_pipelines :=
         ODict.set pid {| pe_label := label; pe_stages := ∅; pe_stage_order := ∅ |}
                   (ps_pipelines st);
       ps_stages := ps_stages st;
       ps_target := if is_target then Some pid else ps_target st;
       ps_log :=
         if is_target
         then ps_log st ++ [Log INFO (MsgFoundTargetPipeline TARGET_PIPELINE_NAME pid)]
         else ps_log st |} in
  add_stages pid 0 (p_stages pipeline) st1.

Definition add_pipelines (results : list api_pipeline) (st : pipelines_state)
  : pipelines_state :=
  fold_left (fun st p => add_pipeline p st) results st.

(** [not target_pipeline_id] *)
Definition target_missing (target : option string) : bool :=
  match target with
  | None => true
  | Some id => negb (PyStr.truthy id)
  end.

(** fetch_pipelines (main.py 293-338).  [get_all] is the outcome of the
    pipelines listing call. *)
Definition fetch_pipelines (get_all : outcome (list api_pipeline))
  : pipelines_dict_t * stages_dict_t * option string * list event :=
  let st0 := {| ps_pipelines := []; ps_stages := ∅; ps_target := None;
                ps_log := [Log INFO MsgFetchingPipelines] |} in
  match get_all with
  | Ret results =>
      let st := add_pipelines results st0 in
      let log1 := ps_log st ++ [Log INFO (MsgFetchedPipelines (length (ps_pipelines st)))] in
      let log2 :=
        if target_missing (ps_target st)
        then log1 ++ [Log WARNING
                        (MsgTargetPipelineNotFound TARGET_PIPELINE_NAME
                           (map pe_label (ODict.values (ps_pipelines st))))]
        else log1 in
      (ps_pipelines st, ps_stages st, ps_target st, log2)
  | Raise e =>
      ([], ∅, None, ps_log st0 ++ [Log WARNING (MsgCouldNotFetchPipelines (exn_str e))])
  end.

(** ** Associated contacts *)

(** One entry of the contacts list of fetch_associated_contacts. *)
Record contact : Type := {
  c_id : string;
  c_firstname : option string;
  c_lastname : option string;
  c_name : string;
  c_email : option string;
  c_phone : option string;
  c_jobtitle : option string;
  c_company : option string;
  c_lifecyclestage : option string;
  c_country : option string;
  c_city : option string
}.

(** [props.get(key, '')] *)
Definition props_get_default (p : props) (key : string) : option string :=
  match p !! key with
  | Some v => v
  | None => Some ""
  end.

(** [str(v)] inside an f-string *)
Definition str_of (v : option string) : string :=
  match v with
  | Some s => s
  | None => "None"
  end.

Definition option_truthy (v : option string) : bool :=
  match v with
  | Some s => PyStr.truthy s
  | None => false
  end.

Definition make_contact (contact_id : string) (p : props) : contact :=
  {| c_id := contact_id;
     c_firstname := props_get_default p "firstname";
     c_lastname := props_get_default p "lastname";
     c_name :=
       PyStr.strip
         (String.append (str_of (props_get_default p "firstname"))
            (String.append " " (str_of (props_get_default p "lastname"))));
     c_email := props_get_default p "email";
     c_phone :=
       if option_truthy (props_get p "phone") then props_get p "phone"
       else props_get_default p "mobilephone";
     c_jobtitle := props_get_default p "jobtitle";
     c_company := props_get_default p "company";
     c_lifecyclestage := props_get_default p "lifecyclestage";
     c_country := props_get_default p "country";
     c_city := props_get_default p "city" |}.

(** The answer of the direct HTTP call: status and the ids of
    [data.get('results', [])]. *)
Record http_response : Type := { http_status : Z; http_ids : list string }.

(** The remote calls of fetch_associated_contacts for one deal.  Each
    takes the number of calls of its kind made so far, so that a call may
    fail and later succeed.  [v4_get_page] gives the ids of
    [associations.results] (empty when there are none). *)
Record contacts_api : Type := {
  v4_get_page : nat -> outcome (list string);
  http_get : nat -> outcome http_response;
  get_by_id : nat -> string -> outcome props
}.

Record cstate : Type := {
  calls_v4 : nat;
  calls_http : nat;
  calls_get : nat;
  trace : list event
}.

Definition cstate0 : cstate :=
  {| calls_v4 := 0; calls_http := 0; calls_get := 0; trace := [] |}.

Definition emit (evs : list event) (st : cstate) : cstate :=
  {| calls_v4 := calls_v4 st; calls_http := calls_http st;
     calls_get := calls_get st; trace := trace st ++ evs |}.

Definition count_v4 (deal_id : string) (st : cstate) : cstate :=
  {| calls_v4 := S (calls_v4 st); calls_http := calls_http st;
     calls_get := calls_get st;
     trace := trace st ++ [Call "associations.v4.get_page" deal_id] |}.

Definition count_http (deal_id : string) (st : cstate) : cstate :=
  {| calls_v4 := calls_v4 st; calls_http := S (calls_http st);
     calls_get := calls_get st;
     trace := trace st ++ [Call "requests.get" deal_id] |}.

Definition count_get (contact_id : string) (st : cstate) : cstate :=
  {| calls_v4 := calls_v4 st; calls_http := calls_http st;
     calls_get := S (calls_get st);
     trace := trace st ++ [Call "contacts.get_by_id" contact_id] |}.

(** ['SSL' in m or 'EOF' in m or 'connection' in m.lower()] *)
Definition connection_message (m : string) : bool :=
  PyStr.contains "SSL" m || PyStr.contains "EOF" m ||
  PyStr.contains "connection" (PyStr.lower m).

(** ['403' in m or 'Forbidden' in m] *)
Definition forbidden_message (m : string) : bool :=
  PyStr.contains "403" m || PyStr.contains "Forbidden" m.

Section Contacts.
Variable api : contacts_api.
Variable deal_id : string.
Variable max_retries : nat.

(** The handler of a network or connection error at attempt [i]: wait
    [2 ** i] seconds when attempts remain, otherwise only log. *)
Definition backoff (what : string) (i : nat) (st : cstate) : cstate :=
  if Z.of_nat i <? Z.of_nat max_retries - 1
  then emit [Log WARNING (MsgRetrying what (2 ^ Z.of_nat i)); Sleep (2 ^ Z.of_nat i)] st
  else emit [Log WARNING (MsgGaveUp what max_retries)] st.

(** [for contact_attempt in range(max_retries)] for one contact id
    (main.py 444-490): the hydrated contact, or nothing when the loop is
    left or runs out. *)
Fixpoint contact_loop (contact_id : string) (attempts : list nat) (st : cstate)
  : option contact * cstate :=
  match attempts with
  | [] => (None, st)
  | contact_attempt :: rest =>
      let st1 := count_get contact_id st in
      match get_by_id api (calls_get st) contact_id with
      | Ret p => (Some (make_contact contact_id p), st1)
      | Raise (ApiException status m) =>
          if status =? 403
          then (None, emit [Log ERROR (MsgPermissionError contact_id)] st1)
          else (None, emit [Log WARNING (MsgCouldNotFetch contact_id m)] st1)
      | Raise (OSError m) =>
          contact_loop contact_id rest (backoff contact_id contact_attempt st1)
      | Raise e =>
          if connection_message (exn_str e)
          then contact_loop contact_id rest (backoff contact_id contact_attempt st1)
          else (None, emit [Log WARNING (MsgCouldNotFetch contact_id (exn_str e))] st1)
      end
  end.

(** [for contact_id in contact_ids] (main.py 443) *)
Fixpoint fetch_contacts (contact_ids : list string) (contacts : list contact)
    (st : cstate) : list contact * cstate :=
  match contact_ids with
  | [] => (contacts, st)
  | contact_id :: rest =>
      match contact_loop contact_id (seq 0 max_retries) st with
      | (Some c, st1) => fetch_contacts rest (contacts ++ [c]) st1
      | (None, st1) => fetch_contacts rest contacts st1
      end
  end.

(** The association listing (main.py 414-435): the v4 client, or the
    direct HTTP call when the client has no v4 API.  Gives the new value
    of [contact_ids]. *)
Definition list_associations (contact_ids : list string) (st : cstate)
  : outcome (list string) * cstate :=
  let st1 := count_v4 deal_id st in
  match v4_get_page api (calls_v4 st) with
  | Ret ids =>
      (Ret (match ids with [] => contact_ids | _ => ids end), st1)
  | Raise (AttributeError _) =>
      let st2 := count_http deal_id st1 in
      match http_get api (calls_http st1) with
      | Ret r =>
          if http_status r =? 200 then (Ret (firstn 10 (http_ids r)), st2)
          else if http_status r =? 403
          then (Ret contact_ids, emit [Log ERROR (MsgPermissionError deal_id)] st2)
          else (Ret contact_ids, emit [Log WARNING (MsgHttpStatus (http_status r))] st2)
      | Raise e => (Raise e, st2)
      end
  | Raise e => (Raise e, st1)
  end.

(** [for attempt in range(max_retries)] (main.py 411-517). *)
Fixpoint association_loop (attempts : list nat) (contacts : list contact)
    (contact_ids : list string) (st : cstate) : outcome (list contact) * cstate :=
  match attempts with
  | [] => (Ret contacts, st)
  | attempt :: rest =>
      match list_associations contact_ids st with
      | (Ret [], st1) => (Ret [], st1)
      | (Ret ids, st1) =>
          let '(contacts', st2) := fetch_contacts ids contacts st1 in
          (Ret contacts', st2)
      | (Raise (OSError m), st1) =>
          association_loop rest contacts contact_ids (backoff deal_id attempt st1)
      | (Raise e, st1) =>
          if forbidden_message (exn_str e)
          then (Ret contacts, emit [Log ERROR (MsgPermissionError deal_id)] st1)
          else if connection_message (exn_str e)
          then association_loop rest contacts contact_ids (backoff deal_id attempt st1)
          else (Ret contacts,
                emit [Log WARNING (MsgCouldNotFetch deal_id (exn_str e))] st1)
      end
  end.

(** fetch_associated_contacts (main.py 406-517). *)
Definition fetch_associated_contacts : outcome (list contact) * cstate :=
  association_loop (seq 0 max_retries) [] [] cstate0.

End Contacts.

(** ** The paginated deal fetcher *)

(** A page of the deals listing: its records and the cursor of
    [response.paging.next.after], when there is a next page. *)
Record page : Type := {
  results : list deal;
  paging_next : option string
}.

(** The deals listing call, by the number of calls made so far and the
    cursor passed as [after]. *)
Abbreviation deals_api := (nat -> option string -> outcome page).

Record dstate : Type := {
  all_deals : list deal;
  after : option string;
  page_count : Z;
  calls : nat;
  dtrace : list event
}.

Definition dstate0 : dstate :=
  {| all_deals := []; after := None; page_count := 0; calls := 0; dtrace := [] |}.

Definition demit (evs : list event) (st : dstate) : dstate :=
  {| all_deals := all_deals st; after := after st; page_count := page_count st;
     calls := calls st; dtrace := dtrace st ++ evs |}.

Definition dcall (st : dstate) : dstate :=
  {| all_deals := all_deals st; after := after st; page_count := page_count st;
     calls := S (calls st);
     dtrace := dtrace st ++ [Call "deals.get_page" (default "" (after st))] |}.

(** How one pass of the inner [while] ends. *)
Inductive attempt_result : Type :=
| Returned (deals : list deal)   (* return all_deals *)
| Break                          (* break: on to the next page *)
| Exhausted                      (* the loop condition failed *)
| Raised (e : exn).              (* raise *)

(** [d.properties.get('pipeline') == target_pipeline_id] *)
Definition in_pipeline (target_pipeline_id : string) (d : deal) : bool :=
  match props_get (properties d) "pipeline" with
  | Some p => String.eqb p target_pipeline_id
  | None => false
  end.

(** The page filter (main.py 597-599): applied when the target id is
    truthy. *)
Definition filter_page (target_pipeline_id : option string) (deals : list deal)
  : list deal :=
  match target_pipeline_id with
  | Some t => if PyStr.truthy t then List.filter (in_pipeline t) deals else deals
  | None => deals
  end.

Section FetchDeals.
Variable get_page : deals_api.
Variable target_pipeline_id : option string.

Definition max_retries : Z := 5.

(** [while retry_count < max_retries] (main.py 587-631).  [gas] bounds
    the number of passes; [max_retries] passes are enough, since every
    pass that stays in the loop adds one to [retry_count]. *)
Fixpoint page_attempts (gas : nat) (retry_count : Z) (st : dstate)
  : attempt_result * dstate :=
  if retry_count <? max_retries then
    match gas with
    | O => (Exhausted, st)
    | S gas' =>
        let st1 := dcall st in
        match get_page (calls st) (after st) with
        | Ret response =>
            let deals := filter_page target_pipeline_id (results response) in
            let total := all_deals st1 ++ deals in
            let st2 :=
              {| all_deals := total; after := after st1;
                 page_count := page_count st1; calls := calls st1;
                 dtrace := dtrace st1 ++
                   [Log INFO (MsgPage (page_count st1) (length (results response))
                                      (length deals) (length total))] |} in
            match paging_next response with
            | Some a =>
                (Break,
                 {| all_deals := all_deals st2; after := Some a;
                    page_count := page_count st2; calls := calls st2;
                    dtrace := dtrace st2 |})
            | None =>
                (Returned total, demit [Log INFO (MsgCompleted (length total))] st2)
            end
        | Raise (ApiException status m) =>
            let retry_count := retry_count + 1 in
            if status =? 429 then
              let wait_time := Z.min 60 (10 * 2 ^ retry_count) in
              page_attempts gas' retry_count
                (demit [Log WARNING (MsgRateLimited wait_time retry_count max_retries);
                        Sleep wait_time] st1)
            else if retry_count >=? max_retries then
              (Raised (ApiException status m),
               demit [Log ERROR (MsgFailedAfterRetries max_retries)] st1)
            else
              page_attempts gas' retry_count
                (demit [Log WARNING (MsgApiError retry_count max_retries); Sleep 5] st1)
        | Raise e =>
            let retry_count := retry_count + 1 in
            if retry_count >=? max_retries then
              (Raised e, demit [Log ERROR (MsgUnexpectedError (exn_str e))] st1)
            else
              page_attempts gas' retry_count (demit [Sleep 5] st1)
        end
    end
  else (Exhausted, st).

(** [while True] (main.py 583-631).  The loop need not end; [fuel]
    bounds its passes and [None] means that they were all used. *)
Fixpoint pages (fuel : nat) (st : dstate) : option (outcome (list deal) * dstate) :=
  match fuel with
  | O => None
  | S fuel' =>
      let st1 :=
        {| all_deals := all_deals st; after := after st;
           page_count := page_count st + 1; calls := calls st;
           dtrace := dtrace st |} in
      match page_attempts (Z.to_nat max_retries) 0 st1 with
      | (Returned deals, st2) => Some (Ret deals, st2)
      | (Raised e, st2) => Some (Raise e, st2)
      | (Break, st2) => pages fuel' st2
      | (Exhausted, st2) => pages fuel' st2
      end
  end.

(** fetch_all_deals (main.py 572-633). *)
Definition fetch_all_deals (fuel : nat) : option (outcome (list deal) * dstate) :=
  pages fuel dstate0.

End FetchDeals.

(** ** The record transformer *)

Record owner_entry : Type := { o_name : string; o_email : string }.

Abbreviation owners_dict_t := (gmap string owner_entry).

(** [snapshot_timestamp.date().isoformat()] *)
Definition date_isoformat (dt : datetime) : string :=
  String.append (DateTime.fmt_digits 4 (year dt))
    (String.append "-" (String.append (DateTime.fmt_digits 2 (month dt))
    (String.append "-" (DateTime.fmt_digits 2 (day dt))))).

Section Transform.
Context `{RT : PyRuntime}.

(** The columns of a deal snapshot row that the model follows.  The
    remaining columns of the source are copies of single properties. *)
Record deal_row : Type := {
  hs_object_id : string;
  amount : option pyfloat;
  dealstage : string;
  dealstage_label : string;
  pipeline : string;
  pipeline_label : string;
  hs_deal_stage_probability : option pyfloat;
  closedate : option string;
  createdate : option string;
  hubspot_owner_id : string;
  owner_name : string;
  owner_email : string;
  contact_count : nat;
  primary_contact_id : string;
  days_in_current_stage : option Z;
  days_since_created : option Z;
  days_to_close : option Z;
  weighted_amount : option pyfloat;
  is_open : bool;
  is_won : bool;
  is_lost : bool;
  deal_age_status : string;
  snapshot_timestamp : string;
  snapshot_date : string
}.

(** The pipeline and stage labels of a deal (main.py 1026-1038). *)
Definition resolve_labels (pipelines_dict : pipelines_dict_t)
    (stages_dict : stages_dict_t) (pipeline_id dealstage_id : string)
  : string * string :=
  let '(pipeline_label, dealstage_label) :=
    if PyStr.truthy pipeline_id then
      match ODict.get pipelines_dict pipeline_id with
      | Some entry =>
          (pe_label entry,
           match pe_stages entry !! dealstage_id with
           | Some l => l
           | None => ""
           end)
      | None => ("", "")
      end
    else ("", "") in
  let dealstage_label :=
    if negb (PyStr.truthy dealstage_label) then
      match stages_dict !! dealstage_id with
      | Some entry => se_label entry
      | None => dealstage_label
      end
    else dealstage_label in
  (pipeline_label, dealstage_label).

(** [(snapshot_timestamp - dt).days] when [dt] was parsed, else None. *)
Definition days_since (snapshot_timestamp : datetime) (dt : option datetime)
  : outcome (option Z) :=
  match dt with
  | Some d => n <- DateTime.sub_days snapshot_timestamp d ;; Ret (Some n)
  | None => Ret None
  end.

(** The stage-entry part of the stage duration (main.py 1075-1087). *)
Definition stage_entry_days (p : props) (dealstage_id : string)
    (snapshot_timestamp : datetime) : outcome (option Z) :=
  if PyStr.truthy dealstage_id then
    let stage_date_prop := String.append "hs_date_entered_" dealstage_id in
    let stage_entered_str := props_get p stage_date_prop in
    if option_truthy stage_entered_str then
      stage_entered_date <- parse_timestamp_to_datetime stage_entered_str ;;
      days_since snapshot_timestamp stage_entered_date
    else Ret None
  else Ret None.

(** The body of the loop of transform_deals (main.py 1022-1210) for one
    deal, given the contacts fetched for it. *)
Definition transform_deal (d : deal) (contacts : list contact)
    (snapshot_timestamp : datetime)
    (pipelines_dict : pipelines_dict_t) (stages_dict : stages_dict_t)
    (owners_dict : owners_dict_t) : outcome deal_row :=
  let p := properties d in
  let deal_id := props_get_str p "hs_object_id" in
  let pipeline_id := props_get_or_empty p "pipeline" in
  let dealstage_id := props_get_or_empty p "dealstage" in
  let '(pipeline_label, dealstage_label) :=
    resolve_labels pipelines_dict stages_dict pipeline_id dealstage_id in
  let owner_id := props_get_or_empty p "hubspot_owner_id" in
  let '(owner_name, owner_email) :=
    if PyStr.truthy owner_id then
      match owners_dict !! owner_id with
      | Some o => (o_name o, o_email o)
      | None => ("", "")
      end
    else ("", "") in
  let primary_contact_id :=
    match contacts with
    | c :: _ => c_id c
    | [] => ""
    end in
  createdate_dt <- parse_timestamp_to_datetime (props_get p "createdate") ;;
  closedate_dt <- parse_timestamp_to_datetime (props_get p "closedate") ;;
  lastmodified_dt <- parse_timestamp_to_datetime (props_get p "hs_lastmodifieddate") ;;
  days_since_created <- days_since snapshot_timestamp createdate_dt ;;
  entered_days <- stage_entry_days p dealstage_id snapshot_timestamp ;;
  let days_in_current_stage :=
    match entered_days with
    | None => days_since_created
    | Some n => Some n
    end in
  days_to_close <-
    match closedate_dt with
    | Some c => n <- DateTime.sub_days c snapshot_timestamp ;; Ret (Some n)
    | None => Ret None
    end ;;
  let flags := deal_status dealstage_label in
  let amount := safe_float (props_get p "amount") in
  let probability := safe_float (props_get p "hs_deal_stage_probability") in
  let weighted_amount :=
    match amount, probability with
    | Some a, Some pr => Some (float_mul a pr)
    | _, _ => None
    end in
  let deal_age_status :=
    calculate_deal_age_status days_in_current_stage dealstage_label in
  closedate_iso <- convert_hubspot_timestamp (props_get p "closedate") ;;
  createdate_iso <- convert_hubspot_timestamp (props_get p "createdate") ;;
  Ret {| hs_object_id := deal_id;
         amount := amount;
         dealstage := dealstage_id;
         dealstage_label := dealstage_label;
         pipeline := pipeline_id;
         pipeline_label := pipeline_label;
         hs_deal_stage_probability := probability;
         closedate := closedate_iso;
         createdate := createdate_iso;
         hubspot_owner_id := owner_id;
         owner_name := owner_name;
         owner_email := owner_email;
         contact_count := length contacts;
         primary_contact_id := primary_contact_id;
         days_in_current_stage := days_in_current_stage;
         days_since_created := days_since_created;
         days_to_close := days_to_close;
         weighted_amount := weighted_amount;
         is_open := flag_is_open flags;
         is_won := flag_is_won flags;
         is_lost := flag_is_lost flags;
         deal_age_status := deal_age_status;
         snapshot_timestamp := DateTime.isoformat snapshot_timestamp;
         snapshot_date := date_isoformat snapshot_timestamp |}.

(** transform_deals (main.py 999-1224): one row per deal, in order.
    [contacts_of] gives the association calls answered for each deal
    id. *)
Fixpoint transform_deals (contacts_of : string -> contacts_api)
    (deals : list deal) (snapshot_timestamp : datetime)
    (pipelines_dict : pipelines_dict_t) (stages_dict : stages_dict_t)
    (owners_dict : owners_dict_t) : outcome (list deal_row) :=
  match deals with
  | [] => Ret []
  | d :: rest =>
      let deal_id := props_get_str (properties d) "hs_object_id" in
      contacts <- fst (fetch_associated_contacts (contacts_of deal_id) deal_id 3) ;;
      row <- transform_deal d contacts snapshot_timestamp
               pipelines_dict stages_dict owners_dict ;;
      rows <- transform_deals contacts_of rest snapshot_timestamp
                pipelines_dict stages_dict owners_dict ;;
      Ret (row :: rows)
  end.

(** ** The snapshot loader *)

(** The destination table: [None] while it does not exist. *)
Definition warehouse : Type := option (list deal_row).

(** ensure_table_exists (main.py 1271-1297) *)
Definition ensure_table_exists (wh : warehouse) : warehouse :=
  match wh with
  | Some t => Some t
  | None => Some []
  end.

(** DELETE FROM table WHERE snapshot_date = 'date' *)
Definition delete_snapshot (date : string) (wh : warehouse) : warehouse :=
  match wh with
  | Some t =>
      Some (List.filter (fun r => negb (String.eqb (snapshot_date r) date)) t)
  | None => None
  end.

(** A load job with WRITE_APPEND *)
Definition append_rows (df : list deal_row) (wh : warehouse) : warehouse :=
  match wh with
  | Some t => Some (t ++ df)
  | None => Some df
  end.

(** load_to_bigquery (main.py 1227-1268), on a warehouse whose calls
    succeed: the number of rows written and the new table. *)
Definition load_to_bigquery (df : list deal_row) (wh : warehouse) : Z * warehouse :=
  match df with
  | [] => (0, wh)
  | first :: _ =>
      let wh1 := ensure_table_exists wh in
      let snapshot_date := snapshot_date first in
      let wh2 :=
        if PyStr.truthy snapshot_date then delete_snapshot snapshot_date wh1
        else wh1 in
      (Z.of_nat (length df), append_rows df wh2)
  end.

(** The rows of the table stored for a date. *)
Definition rows_for (date : string) (wh : warehouse) : list deal_row :=
  match wh with
  | Some t => List.filter (fun r => String.eqb (snapshot_date r) date) t
  | None => []
  end.

(** The rows of the table stored for other dates. *)
Definition rows_not_for (date : string) (wh : warehouse) : list deal_row :=
  match wh with
  | Some t => List.filter (fun r => negb (String.eqb (snapshot_date r) date)) t
  | None => []
  end.

End Transform.

(** ** The orchestrator *)

(** The configuration read at start-up. *)
Record config : Type := {
  PROJECT_ID : option string;
  DATASET_ID : option string;
  TABLE_ID : option string;
  HUBSPOT_ACCESS_TOKEN : option string
}.

(** validate_environment (main.py 1300-1313) *)
Definition validate_environment (cfg : config) : outcome unit :=
  if option_truthy (PROJECT_ID cfg) && option_truthy (DATASET_ID cfg) &&
     option_truthy (TABLE_ID cfg) && option_truthy (HUBSPOT_ACCESS_TOKEN cfg)
  then Ret tt
  else Raise (ValueError "Missing required environment variables").

(** What one run meets outside the process: the answers of the CRM, the
    clock, and the meetings branch of the run taken as a whole (the number
    of meetings it loads, or the exception it lets through).  [owners] is
    the dictionary fetch_owners returns. *)
Record world : Type := {
  pipelines_get_all : outcome (list api_pipeline);
  owners : owners_dict_t;
  deals_get_page : deals_api;
  contacts_of : string -> contacts_api;
  clock : datetime;
  meetings_etl : outcome Z
}.

(** The dictionary the entry point returns: its [status] and [message],
    and the two counts when the run reports them. *)
Record run_result : Type := {
  status : string;
  message : string;
  deals_extracted : option Z;
  rows_loaded : option Z
}.

Definition error_result (e : exn) : run_result :=
  {| status := "error"; message := exn_str e;
     deals_extracted := None; rows_loaded := None |}.

Definition no_deals_result : run_result :=
  {| status := "success";
     message := String.append "No deals found in pipeline " TARGET_PIPELINE_NAME;
     deals_extracted := Some 0; rows_loaded := Some 0 |}.

Section Orchestrator.
Context `{RT : PyRuntime}.

(** hubspot_to_bigquery_etl (main.py 1316-1410).  [fuel] bounds the
    passes of the deal fetcher; [None] means the fetch did not end within
    it. *)
Definition hubspot_to_bigquery_etl (fuel : nat) (cfg : config) (w : world)
    (wh : warehouse) : option (run_result * warehouse) :=
  let start_time := DateTime.replace_tzinfo utc (clock w) in
  match validate_environment cfg with
  | Raise e => Some (error_result e, wh)
  | Ret _ =>
      let '(pipelines_dict, stages_dict, target_pipeline_id, _) :=
        fetch_pipelines (pipelines_get_all w) in
      let owners_dict := owners w in
      match fetch_all_deals (deals_get_page w) target_pipeline_id fuel with
      | None => None
      | Some (Raise e, _) => Some (error_result e, wh)
      | Some (Ret [], _) => Some (no_deals_result, wh)
      | Some (Ret deals, _) =>
          match transform_deals (contacts_of w) deals start_time
                  pipelines_dict stages_dict owners_dict with
          | Raise e => Some (error_result e, wh)
          | Ret df =>
              let '(rows_loaded, wh') := load_to_bigquery df wh in
              match meetings_etl w with
              | Raise e => Some (error_result e, wh')
              | Ret meetings_loaded =>
                  Some ({| status := "success";
                           message := String.append "ETL pipeline completed for "
                                        TARGET_PIPELINE_NAME;
                           deals_extracted := Some (Z.of_nat (length deals));
                           rows_loaded := Some rows_loaded |}, wh')
              end
          end
      end
  end.

End Orchestrator.

(** ** Vocabulary of the properties *)

(** Exactly one of three flags. *)
Definition exactly_one (a b c : bool) : bool :=
  (a && negb b && negb c) || (negb a && b && negb c) || (negb a && negb b && c).

(** Case-insensitive substring match: some run of [label] equals
    [needle] once both are lower-cased. *)
Definition ci_substring (needle label : string) : Prop :=
  exists pre mid post,
    label = String.append pre (String.append mid post) /\
    PyStr.lower mid = PyStr.lower needle.

(** The stage categories of the age classifier, in the order in which the
    keywords are looked for. *)
Inductive bucket : Type := Stalled | Early | Mid | Late | UnknownStage.

Definition stage_bucket (label : string) : bucket :=
  let l := PyStr.lower label in
  if PyStr.any_in ["stalled"; "delayed"] l then Stalled
  else if PyStr.any_in
            ["nbm"; "discovery"; "qualification"; "prospecting"; "lead"; "scheduled"] l
  then Early
  else if PyStr.any_in ["technical"; "evaluation"; "demo"; "proposal"] l then Mid
  else if PyStr.any_in ["negotiation"; "contract"; "closing"; "final"] l then Late
  else UnknownStage.

(** A Green/Yellow boundary pair: Green up to [green], Yellow up to
    [yellow] (without end when [yellow] is [None]), Red beyond. *)
Definition by_boundaries (green : Z) (yellow : option Z) (days : Z) : string :=
  if days <=? green then "Green"
  else
    match yellow with
    | None => "Yellow"
    | Some y => if days <=? y then "Yellow" else "Red"
    end.

(** The boundary pairs as documented: stalled/delayed 14/∞, early 14/30,
    mid 30/45, late 45/60, unknown 21/45. *)
Definition documented_boundaries (b : bucket) : Z * option Z :=
  match b with
  | Stalled => (14, None)
  | Early => (14, Some 30)
  | Mid => (30, Some 45)
  | Late => (45, Some 60)
  | UnknownStage => (21, Some 45)
  end.

(** The classifier read off the documented pairs. *)
Definition documented_age_status (days : Z) (label : string) : string :=
  let '(green, yellow) := documented_boundaries (stage_bucket label) in
  by_boundaries green yellow days.

(** The classifier of the code, by bucket: a stalled or delayed stage is
    Yellow up to 14 days and Red beyond, never Green. *)
Definition bucket_age_status (b : bucket) (days : Z) : string :=
  match b with
  | Stalled => if days <=? 14 then "Yellow" else "Red"
  | Early => by_boundaries 14 (Some 30) days
  | Mid => by_boundaries 30 (Some 45) days
  | Late => by_boundaries 45 (Some 60) days
  | UnknownStage => by_boundaries 21 (Some 45) days
  end.

(** The Sleep events of a trace, in order. *)
Definition sleeps (tr : list event) : list Z :=
  flat_map (fun ev => match ev with Sleep s => [s] | _ => [] end) tr.

(** The arguments of the calls of a trace to one endpoint, in order. *)
Definition calls_to (endpoint : string) (tr : list event) : list string :=
  flat_map (fun ev => match ev with
                      | Call ep arg => if String.eqb ep endpoint then [arg] else []
                      | _ => []
                      end) tr.

(** An aware datetime as an instant: microseconds on the UTC time line. *)
Definition instant_micros (dt : datetime) : Z :=
  DateTime.civil_micros dt - default 0 (tzinfo dt) * 60000000.

(** Whole days from [b] to [a]. *)
Definition whole_days (a b : datetime) : Z :=
  (instant_micros a - instant_micros b) / 86400000000.

(** A text that ends with the UTC offset. *)
Definition utc_suffixed (iso : string) : Prop :=
  exists body, iso = String.append body "+00:00".

(** A text without the character [c]. *)
Fixpoint lacks (c : ascii) (s : string) : bool :=
  match s with
  | EmptyString => true
  | String a t => negb (Ascii.eqb a c) && lacks c t
  end.

(** The first candidate format, in the order given, under which the text
    parses: its result, or [None] when every format fails. *)
Fixpoint first_success (timestamp_str : string) (fmts : list string) : option string :=
  match fmts with
  | [] => None
  | fmt :: rest =>
      match try_format timestamp_str fmt with
      | Ret iso => Some iso
      | Raise _ => first_success timestamp_str rest
      end
  end.

Section NumericVocabulary.
Context `{RT : PyRuntime}.

(** A property value that is missing, empty, or not numeric. *)
Definition not_numeric (v : option string) : Prop :=
  v = None \/ v = Some "" \/ exists s, v = Some s /\ float_of_str s = None.

(** A property value that coerces to the number [x]. *)
Definition coerces_to (v : option string) (x : pyfloat) : Prop :=
  exists s, v = Some s /\ s <> "" /\ float_of_str s = Some x.

End NumericVocabulary.

(** A listing that answers its [n]-th call with the [n]-th of the given
    pages. *)
Definition serve (pages : list page) : deals_api :=
  fun n _ =>
    match nth_error pages n with
    | Some pg => Ret pg
    | None => Raise (OtherError "no such page")
    end.

(** Pages chained by cursors: all but the last name a next page. *)
Fixpoint chained (pages : list page) : Prop :=
  match pages with
  | [] => False
  | [last] => paging_next last = None
  | pg :: rest => paging_next pg <> None /\ chained rest
  end.

(** ** Sample inputs *)

Module Sample.

Definition snapshot : datetime :=
  {| year := 2024; month := 3; day := 1; hour := 6; minute := 0; second := 0;
     microsecond := 0; tzinfo := utc |}.

Definition sales_pipeline : api_pipeline :=
  {| p_id := "p1"; p_label := "3PL New Business";
     p_stages := [ {| s_id := "s1"; s_label := "Technical Evaluation" |};
                   {| s_id := "s2"; s_label := "Closed Won" |};
                   {| s_id := "s3"; s_label := "Lost to Won-back" |} ] |}.

Definition other_pipeline : api_pipeline :=
  {| p_id := "p9"; p_label := "Renewals";
     p_stages := [ {| s_id := "r1"; s_label := "Negotiation" |} ] |}.

Definition pipelines_dict : pipelines_dict_t :=
  fst (fst (fst (fetch_pipelines (Ret [sales_pipeline])))).

Definition stages_dict : stages_dict_t :=
  snd (fst (fst (fetch_pipelines (Ret [sales_pipeline])))).

(** A deal in the evaluation stage, entered on 2024-01-31 (epoch
    milliseconds), created on 2024-01-01. *)
Definition deal_in_evaluation : deal :=
  {| properties :=
       {[ "hs_object_id" := Some "101";
          "pipeline" := Some "p1";
          "dealstage" := Some "s1";
          "amount" := Some "1000.50";
          "hs_deal_stage_probability" := Some "0.4";
          "createdate" := Some "2024-01-01T09:00:00.000Z";
          "hs_date_entered_s1" := Some "1706691600000" ]} |}.

(** A deal whose stage label holds both "won" and "lost", with no
    amount and no stage-entry date. *)
Definition deal_won_back : deal :=
  {| properties :=
       {[ "hs_object_id" := Some "102";
          "pipeline" := Some "p1";
          "dealstage" := Some "s3";
          "amount" := Some "";
          "createdate" := Some "2024-02-20" ]} |}.

(** A deal of another pipeline. *)
Definition deal_elsewhere : deal :=
  {| properties :=
       {[ "hs_object_id" := Some "103";
          "pipeline" := Some "p9";
          "dealstage" := Some "r1" ]} |}.

(** A deal without associated contacts. *)
Definition no_associations : contacts_api :=
  {| v4_get_page := fun _ => Ret [];
     http_get := fun _ => Ret {| http_status := 200; http_ids := [] |};
     get_by_id := fun _ _ => Raise (ApiException 404 "Not Found") |}.

(** The rows of the two deals of the tracked pipeline. *)
Definition rows : list (deal_row (RT := Reference.runtime)) :=
  match transform_deals (fun _ => no_associations)
          [deal_in_evaluation; deal_won_back] snapshot pipelines_dict stages_dict ∅ with
  | Ret df => df
  | Raise _ => []
  end.

(** Five rate-limit answers, then the single page of the listing. *)
Definition rate_limited_five_times : deals_api :=
  fun n _ =>
    if (n <? 5)%nat then Raise (ApiException 429 "Too Many Requests")
    else Ret {| results := [deal_in_evaluation]; paging_next := None |}.

(** Contacts whose hydration always fails: a permission error for
    "c1", a network error for "c2", a malformed answer for any other
    id. *)
Definition failing_contacts : contacts_api :=
  {| v4_get_page := fun _ => Ret ["c1"; "c2"; "c3"];
     http_get := fun _ => Ret {| http_status := 200; http_ids := [] |};
     get_by_id := fun _ id =>
       if String.eqb id "c1" then Raise (ApiException 403 "Forbidden")
       else if String.eqb id "c2" then Raise (OSError "timed out")
       else Raise (ValueError "malformed answer") |}.

Definition cfg : config :=
  {| PROJECT_ID := Some "project"; DATASET_ID := Some "crm";
     TABLE_ID := Some "deals_snapshots"; HUBSPOT_ACCESS_TOKEN := Some "token" |}.

(** A portal without the tracked pipeline: one other pipeline, one
    deal in it. *)
Definition world_without_target : world :=
  {| pipelines_get_all := Ret [other_pipeline];
     owners := ∅;
     deals_get_page := serve [ {| results := [deal_elsewhere]; paging_next := None |} ];
     contacts_of := fun _ => no_associations;
     clock := snapshot;
     meetings_etl := Ret 0 |}.

(** The same portal with no deal at all. *)
Definition world_without_deals : world :=
  {| pipelines_get_all := Ret [other_pipeline];
     owners := ∅;
     deals_get_page := serve [ {| results := []; paging_next := None |} ];
     contacts_of := fun _ => no_associations;
     clock := snapshot;
     meetings_etl := Ret 0 |}.

(** A portal whose pipelines listing fails; its deals come in two
    pages. *)
Definition world_without_pipelines : world :=
  {| pipelines_get_all := Raise (ApiException 500 "Internal Server Error");
     owners := ∅;
     deals_get_page :=
       serve [ {| results := [deal_in_evaluation]; paging_next := Some "1" |};
               {| results := [deal_elsewhere]; paging_next := None |} ];
     contacts_of := fun _ => no_associations;
     clock := snapshot;
     meetings_etl := Ret 0 |}.

End Sample.

(** The errors the contact loop retries: a network error, or any other
    exception whose text names SSL, EOF or a connection.  An API exception
    is never retried. *)
Definition transient (e : exn) : Prop :=
  match e with
  | OSError _ => True
  | ApiException _ _ => False
  | _ => connection_message (exn_str e) = true
  end.

(** ** Vocabulary of the further properties *)

(** How concerning an age status is: Green, Yellow, Red in rising order. *)
Definition severity (status : string) : Z :=
  if String.eqb status "Green" then 0
  else if String.eqb status "Yellow" then 1
  else if String.eqb status "Red" then 2
  else 3.

(** The ISO text of a datetime without its offset: date, "T", time and,
    when there are microseconds, the six-digit fraction. *)
Definition iso_body (dt : datetime) : string :=
  String.append (DateTime.fmt_digits 4 (year dt))
 (String.append "-" (String.append (DateTime.fmt_digits 2 (month dt))
 (String.append "-" (String.append (DateTime.fmt_digits 2 (day dt))
 (String.append "T" (String.append (DateTime.fmt_digits 2 (hour dt))
 (String.append ":" (String.append (DateTime.fmt_digits 2 (minute dt))
 (String.append ":" (String.append (DateTime.fmt_digits 2 (second dt))
    (if microsecond dt =? 0 then ""
     else String.append "." (DateTime.fmt_digits 6 (microsecond dt))))))))))))).

(** A listing that answers its first calls with the given pages and every
    later call with the exception [e]. *)
Definition serve_then_fail (pages : list page) (e : exn) : deals_api :=
  fun n _ =>
    match nth_error pages n with
    | Some pg => Ret pg
    | None => Raise e
    end.

(** A portal whose listing mixes the deals of two pipelines on two pages. *)
Definition mixed_listing : deals_api :=
  serve [ {| results := [Sample.deal_in_evaluation; Sample.deal_elsewhere];
             paging_next := Some "2" |};
          {| results := [Sample.deal_elsewhere; Sample.deal_won_back];
             paging_next := None |} ].

Section Restamp.
Context `{RT : PyRuntime}.

(** A row as a run of another instant would stamp it. *)
Definition restamp (timestamp date : string) (r : deal_row) : deal_row :=
  {| hs_object_id := hs_object_id r; amount := amount r;
     dealstage := dealstage r; dealstage_label := dealstage_label r;
     pipeline := pipeline r; pipeline_label := pipeline_label r;
     hs_deal_stage_probability := hs_deal_stage_probability r;
     closedate := closedate r; createdate := createdate r;
     hubspot_owner_id := hubspot_owner_id r;
     owner_name := owner_name r; owner_email := owner_email r;
     contact_count := contact_count r;
     primary_contact_id := primary_contact_id r;
     days_in_current_stage := days_in_current_stage r;
     days_since_created := days_since_created r;
     days_to_close := days_to_close r;
     weighted_amount := weighted_amount r;
     is_open := is_open r; is_won := is_won r; is_lost := is_lost r;
     deal_age_status := deal_age_status r;
     snapshot_timestamp := timestamp;
     snapshot_date := date |}.

End Restamp.

(** A portal with the tracked pipeline whose meetings cannot be loaded:
    the meetings branch of the run raises. *)
Definition world_with_failing_meetings : world :=
  {| pipelines_get_all := Ret [Sample.sales_pipeline];
     owners := ∅;
     deals_get_page := mixed_listing;
     contacts_of := fun _ => Sample.no_associations;
     clock := Sample.snapshot;
     meetings_etl := Raise (OtherError "BigQuery API error loading meetings") |}.

(** A deal with three associated contacts, the second of which cannot be
    hydrated. *)
Definition three_contacts : contacts_api :=
  {| v4_get_page := fun _ => Ret ["c1"; "c2"; "c3"];
     http_get := fun _ => Ret {| http_status := 200; http_ids := [] |};
     get_by_id := fun _ id =>
       if String.eqb id "c2" then Raise (ApiException 404 "Not Found")
       else Ret {[ "firstname" := Some "Ada"; "lastname" := Some "Lovelace" ]} |}.

(** A client without the v4 associations API, whose direct listing names
    twelve contacts. *)
Definition twelve_contacts : contacts_api :=
  {| v4_get_page := fun _ => Raise (AttributeError "no attribute 'v4'");
     http_get := fun _ =>
       Ret {| http_status := 200;
              http_ids := ["1"; "2"; "3"; "4"; "5"; "6"; "7"; "8"; "9"; "10"; "11"; "12"] |};
     get_by_id := fun _ _ => Ret ∅ |}.

(** A listing whose first calls raise the given exceptions, one per call,
    and whose next call answers with [pg]. *)
Definition flaky (errors : list exn) (pg : page) : deals_api :=
  fun n _ =>
    match nth_error errors n with
    | Some e => Raise e
    | None => Ret pg
    end.

(** The wait that follows a failed call, by the number of failures of the
    page so far: capped doubling after a rate limit, 5 seconds after any
    other error. *)
Definition wait_after (e : exn) (retry_count : Z) : Z :=
  match e with
  | ApiException status _ =>
      if status =? 429 then Z.min 60 (10 * 2 ^ retry_count) else 5
  | _ => 5
  end.

(** The waits that follow a run of failures, the first of which is the
    [retry_count + 1]-th of the page. *)
Fixpoint waits_from (retry_count : Z) (errors : list exn) : list Z :=
  match errors with
  | [] => []
  | e :: rest => wait_after e (retry_count + 1) :: waits_from (retry_count + 1) rest
  end.

(** The text "YYYY-MM-DDTHH:MM:SS" of the civil fields of a datetime. *)
Definition iso_seconds (dt : datetime) : string :=
  String.append (DateTime.fmt_digits 4 (year dt))
 (String.append "-" (String.append (DateTime.fmt_digits 2 (month dt))
 (String.append "-" (String.append (DateTime.fmt_digits 2 (day dt))
 (String.append "T" (String.append (DateTime.fmt_digits 2 (hour dt))
 (String.append ":" (String.append (DateTime.fmt_digits 2 (minute dt))
 (String.append ":" (DateTime.fmt_digits 2 (second dt))))))))))).

(** The CRM's own text of an instant: seconds, a three-digit fraction of
    milliseconds, and "Z". *)
Definition iso_millis_z (dt : datetime) (millis : Z) : string :=
  String.append (iso_seconds dt)
    (String.append "." (String.append (DateTime.fmt_digits 3 millis) "Z")).

(** A deal with the one associated contact [contact_id], whose hydration
    raises the given exceptions, one per call, and then answers with
    [p]. *)
Definition flaky_contact (contact_id : string) (errors : list exn) (p : props)
  : contacts_api :=
  {| v4_get_page := fun _ => Ret [contact_id];
     http_get := fun _ => Ret {| http_status := 200; http_ids := [] |};
     get_by_id := fun n _ =>
       match nth_error errors n with
       | Some e => Raise e
       | None => Ret p
       end |}.

(** The cursor a page names, as it is passed to the next call. *)
Definition cursor (pg : page) : string := default "" (paging_next pg).

(** ** Reference data: owners *)

(** fetch_owners is followed for the dictionary it builds and the listing
    calls it makes; its log lines are left out. *)

(** An owner of the owners listing: [str(owner.id)] and the three
    attributes read, each of which may be null. *)
Record api_owner : Type := {
  ow_id : string;
  ow_first_name : option string;
  ow_last_name : option string;
  ow_email : option string
}.

(** A page of the owners listing: its owners and the cursor of
    [owners.paging.next.after], when there is a next page (a null cursor
    counts as the empty one). *)
Record owners_page : Type := {
  ow_results : list api_owner;
  ow_next : option string
}.

(** The owners listing call, by the number of calls made so far, the
    [archived] flag and the cursor passed as [after] ([None] when the
    argument is not passed). *)
Abbreviation owners_api := (nat -> bool -> option string -> outcome owners_page).

(** [f"{owner.first_name or ''} {owner.last_name or ''}".strip()] *)
Definition full_name (o : api_owner) : string :=
  PyStr.strip
    (String.append (default "" (ow_first_name o))
       (String.append " " (default "" (ow_last_name o)))).

(** [s or d] on strings *)
Definition or_else (s d : string) : string := if PyStr.truthy s then s else d.

(** The entry stored for an active owner (main.py 357-361). *)
Definition active_entry (o : api_owner) : owner_entry :=
  {| o_name := or_else (full_name o) "Unknown";
     o_email := default "" (ow_email o) |}.

(** The entry stored for an archived owner (main.py 385-389). *)
Definition archived_entry (o : api_owner) : owner_entry :=
  {| o_name := String.append (or_else (full_name o) "Unknown (Archived)") " (Archived)";
     o_email := default "" (ow_email o) |}.

Record ostate : Type := {
  owners_dict : owners_dict_t;
  archived_count : Z;
  owner_calls : nat
}.

(** The body of the first [for owner in owners.results]. *)
Definition add_active (o : api_owner) (st : ostate) : ostate :=
  {| owners_dict := <[ow_id o := active_entry o]> (owners_dict st);
     archived_count := archived_count st;
     owner_calls := owner_calls st |}.

(** The body of the second: only ids not yet in the dictionary. *)
Definition add_archived (o : api_owner) (st : ostate) : ostate :=
  match owners_dict st !! ow_id o with
  | Some _ => st
  | None =>
      {| owners_dict := <[ow_id o := archived_entry o]> (owners_dict st);
         archived_count := archived_count st + 1;
         owner_calls := owner_calls st |}
  end.

(** How a listing loop is left: by [break], or by an exception that the
    enclosing handler logs. *)
Inductive listing_end : Type :=
| Listed
| Failed (e : exn).

Section Owners.
Variable get_page : owners_api.

(** One of the two [while True] loops (main.py 349-366 and 376-395).
    The entries added before an exception stay in the dictionary.
    [fuel] bounds the number of pages; [None] means that it ran out. *)
Fixpoint owners_loop (archived : bool) (add : api_owner -> ostate -> ostate)
    (fuel : nat) (after : option string) (st : ostate)
  : option (listing_end * ostate) :=
  match fuel with
  | O => None
  | S fuel' =>
      let st1 := {| owners_dict := owners_dict st;
                    archived_count := archived_count st;
                    owner_calls := S (owner_calls st) |} in
      match get_page (owner_calls st) archived
              (if option_truthy after then after else None) with
      | Raise e => Some (Failed e, st1)
      | Ret owners =>
          let st2 := fold_left (fun st o => add o st) (ow_results owners) st1 in
          match ow_next owners with
          | Some a => owners_loop archived add fuel' (Some a) st2
          | None => Some (Listed, st2)
          end
      end
  end.

(** fetch_owners (main.py 341-403): the dictionary and the number of
    listing calls made. *)
Definition fetch_owners (fuel : nat) : option (owners_dict_t * nat) :=
  match owners_loop false add_active fuel None
          {| owners_dict := ∅; archived_count := 0; owner_calls := 0 |} with
  | None => None
  | Some (_, st1) =>
      match owners_loop true add_archived fuel None
              {| owners_dict := owners_dict st1; archived_count := 0;
                 owner_calls := owner_calls st1 |} with
      | None => None
      | Some (_, st2) => Some (owners_dict st2, owner_calls st2)
      end
  end.

End Owners.

(** The owners of the pages of a listing, in order. *)
Definition listed_owners (pages : list owners_page) : list api_owner :=
  flat_map ow_results pages.

(** Pages linked by cursors: all but the last name a next page.  The last
    may name one too: the call for it then fails. *)
Fixpoint linked (pages : list owners_page) : Prop :=
  match pages with
  | [] => True
  | [last] => True
  | pg :: rest => ow_next pg <> None /\ linked rest
  end.

(** The number of calls a listing loop makes on linked pages: one per
    page, and one more, which fails, when there is no page or the last
    page names a next one. *)
Definition calls_for (pages : list owners_page) : nat :=
  match List.last (map ow_next pages) (Some "") with
  | Some _ => S (length pages)
  | None => length pages
  end.

(** A portal whose active listing answers with the pages [active] and
    whose archived listing, called after it, answers with the pages
    [archived], one page per call; a call beyond the pages given fails. *)
Definition serve_owners (active archived : list owners_page) : owners_api :=
  fun n is_archived _ =>
    match nth_error (if is_archived then archived else active)
                    (if is_archived then n - calls_for active else n) with
    | Some pg => Ret pg
    | None => Raise (ApiException 500 "Internal Server Error")
    end.

(** The owner entry a dictionary lookup finds for [id] after the two
    listings: the last active owner of that id, else the first archived
    one. *)
Definition expected_owner (active archived : list api_owner) (id : string)
  : option owner_entry :=
  match find (fun o => String.eqb (ow_id o) id) (rev active) with
  | Some o => Some (active_entry o)
  | None =>
      match find (fun o => String.eqb (ow_id o) id) archived with
      | Some o => Some (archived_entry o)
      | None => None
      end
  end.

(** Every entry of the dictionary has a name. *)
Definition all_named (d : owners_dict_t) : Prop :=
  forall id v, d !! id = Some v -> o_name v <> "".

Module OwnerSample.

Definition ada : api_owner :=
  {| ow_id := "7"; ow_first_name := Some "Ada"; ow_last_name := Some "Lovelace";
     ow_email := Some "ada@example.com" |}.

(** The same id, as the archived listing still has it. *)
Definition ada_archived : api_owner :=
  {| ow_id := "7"; ow_first_name := Some "A."; ow_last_name := Some "Byron";
     ow_email := None |}.

(** An archived owner without a name. *)
Definition nameless : api_owner :=
  {| ow_id := "9"; ow_first_name := None; ow_last_name := Some "";
     ow_email := None |}.

Definition active_pages : list owners_page :=
  [ {| ow_results := [ada]; ow_next := None |} ].

Definition archived_pages : list owners_page :=
  [ {| ow_results := [ada_archived]; ow_next := Some "p2" |};
    {| ow_results := [nameless]; ow_next := None |} ].

(** A deal owned by id "7". *)
Definition deal_of_ada : deal :=
  {| properties :=
       {[ "hs_object_id" := Some "201";
          "hubspot_owner_id" := Some "7" ]} |}.

End OwnerSample.

(** ** Meetings *)

(** The meetings functions are followed for what they return and, for the
    listing, the calls they make; their log lines and the short pauses
    between the association calls are left out. *)

(** A meeting of the meetings listing: [meeting.get('id', '')] and
    [meeting.get('properties', {})]. *)
Record api_meeting : Type := {
  mt_id : string;
  mt_properties : props
}.

(** The answer of one listing call: the status, [data.get('results', [])]
    and the cursor [paging['next'].get('after')] when the page names a next
    one (a null cursor counts as the empty one). *)
Record meetings_response : Type := {
  mr_status : Z;
  mr_results : list api_meeting;
  mr_next : option string
}.

(** The meetings listing call, by the number of calls made so far and the
    [after] parameter ([None] when it is not sent). *)
Abbreviation meetings_api := (nat -> option string -> outcome meetings_response).

(** An entry of the list fetch_all_meetings returns (main.py 720-741). *)
Record meeting : Type := {
  meeting_id : string;
  title : option string;
  meeting_type : string;
  meeting_outcome : option string;
  start_time : option string;
  end_time : option string;
  created_at : option string;
  updated_at : option string;
  duration_minutes : option Z;
  owner_id : string;
  m_owner_name : string;
  m_owner_email : string;
  created_by_user_id : string;
  created_by_name : string;
  created_by_email : string;
  meeting_source : option string;
  body : option string;
  internal_notes : option string;
  location : option string;
  meeting_link : option string
}.

(** [(a - b)] as microseconds.  Mixing a naive and an aware value is a
    TypeError; two aware values are compared as instants. *)
Definition sub_micros (a b : datetime) : outcome Z :=
  match tzinfo a, tzinfo b with
  | None, None => Ret (DateTime.civil_micros a - DateTime.civil_micros b)
  | Some oa, Some ob =>
      Ret ((DateTime.civil_micros a - oa * 60000000)
           - (DateTime.civil_micros b - ob * 60000000))
  | _, _ => Raise (OtherError "can't subtract offset-naive and offset-aware datetimes")
  end.

(** The name and email of [id] in the owners dictionary, when [id] is
    non-empty and present (main.py 693-697 and 701-705). *)
Definition owner_of (owners_dict : owners_dict_t) (id : string) : string * string :=
  if PyStr.truthy id then
    match owners_dict !! id with
    | Some o => (o_name o, o_email o)
    | None => ("", "")
    end
  else ("", "").

Section Meetings.
Context `{RT : PyRuntime}.

(** [int(td.total_seconds() / 60)] for a timedelta of the given number
    of microseconds: the two float quotients and the truncation are the
    runtime's. *)
Variable minutes_of_micros : Z -> Z.

Variable get : meetings_api.
Variable owners_dict : owners_dict_t.

(** The duration of a meeting (main.py 711-718). *)
Definition meeting_duration (start_time end_time : option string)
  : outcome (option Z) :=
  if option_truthy start_time && option_truthy end_time then
    start_dt <- parse_timestamp_to_datetime start_time ;;
    end_dt <- parse_timestamp_to_datetime end_time ;;
    match start_dt, end_dt with
    | Some s, Some e => us <- sub_micros e s ;; Ret (Some (minutes_of_micros us))
    | _, _ => Ret None
    end
  else Ret None.

(** The body of [for meeting in meetings] (main.py 688-741). *)
Definition make_meeting (m : api_meeting) : outcome meeting :=
  let p := mt_properties m in
  let owner_id := props_get_or_empty p "hubspot_owner_id" in
  let '(owner_name, owner_email) := owner_of owners_dict owner_id in
  let created_by_user_id := props_get_or_empty p "hs_created_by_user_id" in
  let '(created_by_name, created_by_email) := owner_of owners_dict created_by_user_id in
  let start_time := props_get p "hs_meeting_start_time" in
  let end_time := props_get p "hs_meeting_end_time" in
  duration_minutes <- meeting_duration start_time end_time ;;
  start_iso <- convert_hubspot_timestamp start_time ;;
  end_iso <- convert_hubspot_timestamp end_time ;;
  created_iso <- convert_hubspot_timestamp (props_get p "hs_createdate") ;;
  updated_iso <- convert_hubspot_timestamp (props_get p "hs_lastmodifieddate") ;;
  Ret {| meeting_id := mt_id m;
         title := props_get_default p "hs_meeting_title";
         meeting_type := "MEETING";
         meeting_outcome := props_get_default p "hs_meeting_outcome";
         start_time := start_iso;
         end_time := end_iso;
         created_at := created_iso;
         updated_at := updated_iso;
         duration_minutes := duration_minutes;
         owner_id := owner_id;
         m_owner_name := owner_name;
         m_owner_email := owner_email;
         created_by_user_id := created_by_user_id;
         created_by_name := created_by_name;
         created_by_email := created_by_email;
         meeting_source := props_get_default p "hs_meeting_source";
         body := props_get_default p "hs_meeting_body";
         internal_notes := props_get_default p "hs_internal_meeting_notes";
         location := props_get_default p "hs_meeting_location";
         meeting_link := props_get_default p "hs_meeting_external_url" |}.

(** [for meeting in meetings: ... all_meetings.append(...)]: the list
    as the loop leaves it, and the exception that ended it, if any. *)
Fixpoint add_meetings (meetings : list api_meeting) (all_meetings : list meeting)
  : list meeting * option exn :=
  match meetings with
  | [] => (all_meetings, None)
  | m :: rest =>
      match make_meeting m with
      | Ret r => add_meetings rest (all_meetings ++ [r])
      | Raise e => (all_meetings, Some e)
      end
  end.

(** [while True] (main.py 665-759): every way out is a [break].  The
    result is the list gathered and the number of calls made; [fuel]
    bounds the number of pages and [None] means that it ran out. *)
Fixpoint meeting_pages (fuel : nat) (after : option string) (calls : nat)
    (all_meetings : list meeting) : option (list meeting * nat) :=
  match fuel with
  | O => None
  | S fuel' =>
      match get calls (if option_truthy after then after else None) with
      | Raise _ => Some (all_meetings, S calls)
      | Ret response =>
          if mr_status response =? 200 then
            match add_meetings (mr_results response) all_meetings with
            | (all_meetings', Some _) => Some (all_meetings', S calls)
            | (all_meetings', None) =>
                match mr_next response with
                | Some a => meeting_pages fuel' (Some a) (S calls) all_meetings'
                | None => Some (all_meetings', S calls)
                end
            end
          else Some (all_meetings, S calls)
      end
  end.

(** fetch_all_meetings (main.py 636-762). *)
Definition fetch_all_meetings (fuel : nat) : option (list meeting * nat) :=
  meeting_pages fuel None 0 [].

End Meetings.

(** The three association listings of one meeting, each called once. *)
Record associations_api : Type := {
  list_deals : outcome http_response;
  list_contacts : outcome http_response;
  list_companies : outcome http_response
}.

Record associations : Type := {
  deal_ids : list string;
  contact_ids : list string;
  company_ids : list string
}.

(** One of the three blocks of fetch_meeting_associations: the ids on
    status 200, the empty list on any other status or exception. *)
Definition listed_ids (answer : outcome http_response) : list string :=
  match answer with
  | Ret r => if http_status r =? 200 then http_ids r else []
  | Raise _ => []
  end.

(** fetch_meeting_associations (main.py 765-807). *)
Definition fetch_meeting_associations (api : associations_api) : associations :=
  {| deal_ids := listed_ids (list_deals api);
     contact_ids := listed_ids (list_contacts api);
     company_ids := listed_ids (list_companies api) |}.

(** A row of the meetings table: the twenty columns copied from the
    meeting, the three association columns and the two snapshot
    columns. *)
Record meeting_row : Type := {
  copied : meeting;
  associated_deal_ids : option string;
  associated_contact_ids : option string;
  associated_company_ids : option string;
  m_snapshot_timestamp : string;
  m_snapshot_date : string
}.

(** [','.join(ids) if ids else None] *)
Definition joined (ids : list string) : option string :=
  match ids with
  | [] => None
  | _ => Some (String.concat "," ids)
  end.

(** transform_meetings (main.py 810-861): one row per meeting, in order.
    [associations_of] gives the association listings answered for each
    meeting id. *)
Definition transform_meetings (associations_of : string -> associations_api)
    (meetings : list meeting) (snapshot_timestamp : datetime) : list meeting_row :=
  map (fun m =>
         let associations := fetch_meeting_associations (associations_of (meeting_id m)) in
         {| copied := m;
            associated_deal_ids := joined (deal_ids associations);
            associated_contact_ids := joined (contact_ids associations);
            associated_company_ids := joined (company_ids associations);
            m_snapshot_timestamp := DateTime.isoformat snapshot_timestamp;
            m_snapshot_date := date_isoformat snapshot_timestamp |})
      meetings.

(** The meetings table: [None] while it does not exist. *)
Definition meetings_table : Type := option (list meeting_row).

(** load_meetings_to_bigquery (main.py 864-918), on a warehouse whose
    calls succeed: the number of rows written and the new table. *)
Definition load_meetings_to_bigquery (df : list meeting_row) (tbl : meetings_table)
  : Z * meetings_table :=
  match df with
  | [] => (0, tbl)
  | first :: _ =>
      let existing := match tbl with Some t => t | None => [] end in
      let snapshot_date := m_snapshot_date first in
      let kept :=
        if PyStr.truthy snapshot_date
        then List.filter (fun r => negb (String.eqb (m_snapshot_date r) snapshot_date))
                         existing
        else existing in
      (Z.of_nat (length df), Some (kept ++ df))
  end.

(** The rows of the meetings table stored for a date. *)
Definition meetings_for (date : string) (tbl : meetings_table) : list meeting_row :=
  match tbl with
  | Some t => List.filter (fun r => String.eqb (m_snapshot_date r) date) t
  | None => []
  end.

Section MeetingsBranch.
Context `{RT : PyRuntime}.
Variable minutes_of_micros : Z -> Z.

(** The meetings branch of the run (main.py 1360-1365): the number of
    meetings loaded and the new table. *)
Definition meetings_branch (get : meetings_api) (owners_dict : owners_dict_t)
    (associations_of : string -> associations_api) (start_time : datetime)
    (fuel : nat) (tbl : meetings_table) : option (Z * meetings_table) :=
  match fetch_all_meetings minutes_of_micros get owners_dict fuel with
  | None => None
  | Some ([], _) => Some (0, tbl)
  | Some (meetings, _) =>
      Some (load_meetings_to_bigquery
              (transform_meetings associations_of meetings start_time) tbl)
  end.

End MeetingsBranch.

(** The meetings a listing call contributes: its results on status 200,
    nothing on any other status or exception. *)
Definition contribution (answer : outcome meetings_response) : list api_meeting :=
  match answer with
  | Ret r => if mr_status r =? 200 then mr_results r else []
  | Raise _ => []
  end.

(** An answer after which the loop ends: an exception, a status other
    than 200, or a page that names no next one. *)
Definition final_answer (answer : outcome meetings_response) : Prop :=
  match answer with
  | Ret r => mr_status r = 200 -> mr_next r = None
  | Raise _ => True
  end.

(** A listing that answers its first calls with the given pages and the
    call after them with [last]. *)
Definition serve_meetings (pages : list meetings_response)
    (last : outcome meetings_response) : meetings_api :=
  fun n _ =>
    match nth_error pages n with
    | Some pg => Ret pg
    | None => last
    end.

Module MeetingSample.

(** A one-hour meeting of owner "7". *)
Definition kickoff : api_meeting :=
  {| mt_id := "m1";
     mt_properties :=
       {[ "hs_meeting_title" := Some "Kick-off";
          "hubspot_owner_id" := Some "7";
          "hs_meeting_start_time" := Some "2024-02-01T10:00:00Z";
          "hs_meeting_end_time" := Some "2024-02-01T11:00:00Z" ]} |}.

(** A meeting without times. *)
Definition untimed : api_meeting :=
  {| mt_id := "m2"; mt_properties := {[ "hs_meeting_title" := None ]} |}.

Definition first_page : meetings_response :=
  {| mr_status := 200; mr_results := [kickoff]; mr_next := Some "2" |}.

Definition last_page : meetings_response :=
  {| mr_status := 200; mr_results := [untimed]; mr_next := None |}.

(** Whole minutes of a span, as the runtime computes them for spans of
    everyday length. *)
Definition whole_minutes (us : Z) : Z := Z.quot us 60000000.

Definition no_associations : associations_api :=
  {| list_deals := Ret {| http_status := 200; http_ids := ["101"; "102"] |};
     list_contacts := Ret {| http_status := 403; http_ids := [] |};
     list_companies := Raise (OSError "timed out") |}.

End MeetingSample.

(** ** Vocabulary of the contact policy *)

(** [transient] as a test. *)
Definition transientb (e : exn) : bool :=
  match e with
  | OSError _ => true
  | ApiException _ _ => false
  | _ => connection_message (exn_str e)
  end.

(** The hydration calls spent on one contact id whose call is answered
    alike every time: one for an answer, one for a permission failure or
    any other error that is not transient, three (the ceiling) for a
    transient failure. *)
Definition attempts_of (answer : outcome props) : nat :=
  match answer with
  | Ret _ => 1
  | Raise e => if transientb e then 3 else 1
  end.

(** The waits, in seconds, spent on such an id: 1 and then 2 between the
    three attempts of a transient failure, none otherwise. *)
Definition waits_of (answer : outcome props) : list Z :=
  match answer with
  | Ret _ => []
  | Raise e => if transientb e then [1; 2] else []
  end.

(** The contacts of the ids that are answered, in the order of the ids;
    an id whose call fails contributes nothing. *)
Definition hydrated (answer : string -> outcome props) (contact_ids : list string)
  : list contact :=
  flat_map (fun contact_id =>
              match answer contact_id with
              | Ret p => [make_contact contact_id p]
              | Raise _ => []
              end) contact_ids.

(** Answers of every kind: a permission error for "c1", a network error
    for "c2", a malformed answer for "c4", the properties of the contact
    for any other id. *)
Definition mixed_answer (contact_id : string) : outcome props :=
  if String.eqb contact_id "c1" then Raise (ApiException 403 "Forbidden")
  else if String.eqb contact_id "c2" then Raise (OSError "timed out")
  else if String.eqb contact_id "c4" then Raise (ValueError "malformed answer")
  else Ret {[ "firstname" := Some "Ada"; "lastname" := Some "Lovelace" ]}.

(** A deal with five associated contacts, answered as above. *)
Definition mixed_contacts : contacts_api :=
  {| v4_get_page := fun _ => Ret ["c1"; "c2"; "c3"; "c4"; "c5"];
     http_get := fun _ => Ret {| http_status := 200; http_ids := [] |};
     get_by_id := fun _ contact_id => mixed_answer contact_id |}.

(** ** Vocabulary of the epoch conversion *)

(** The Unix epoch, 1970-01-01T00:00 (ordinal 719163), in the
    microseconds of [DateTime.civil_micros]. *)
Definition unix_epoch_micros : Z := 719163 * 86400 * 1000000.

(** 2100-01-01T00:00 UTC in epoch milliseconds.  Below it the float
    quotient [ms / 1000] lies within a quarter of a microsecond of the
    exact one, and [fromtimestamp] rounds it to the exact microsecond. *)
Definition year_2100_ms : Z := 4102444800000.

Section EpochVocabulary.
Context `{RT : PyRuntime}.

(** The runtime converts [ms] exactly: it gives the civil fields of a
    valid date and time, [ms] milliseconds after the epoch. *)
Definition exact_at (ms : Z) : Prop :=
  exists dt,
    utc_fields_of_ms ms = Ret dt /\
    DateTime.valid dt = true /\
    DateTime.civil_micros dt = unix_epoch_micros + ms * 1000.

End EpochVocabulary.

(** * Properties *)

(** ** Strings *)

Section StringFacts.

Lemma append_nil_l (b : string) : String.append EmptyString b = b.
Proof. reflexivity. Qed.

Lemma append_cons (x : ascii) (a b : string) :
  String.append (String x a) b = String x (String.append a b).
Proof. reflexivity. Qed.

Lemma append_assoc (a b c : string) :
  String.append (String.append a b) c = String.append a (String.append b c).
Proof.
  induction a as [|x a IH]; [reflexivity|].
  rewrite !append_cons. now rewrite IH.
Qed.

Lemma append_nil_r (a : string) : String.append a EmptyString = a.
Proof.
  induction a as [|x a IH]; [reflexivity|].
  rewrite append_cons. now rewrite IH.
Qed.

Lemma lower_append (a b : string) :
  PyStr.lower (String.append a b) = String.append (PyStr.lower a) (PyStr.lower b).
Proof.
  induction a as [|c a IH]; [reflexivity|].
  rewrite append_cons. simpl. now rewrite IH, append_cons.
Qed.

Lemma lower_length (s : string) : String.length (PyStr.lower s) = String.length s.
Proof. induction s as [|c s IH]; simpl; [reflexivity | now rewrite IH]. Qed.

Lemma prefix_split (p s : string) :
  String.prefix p s = true <-> exists rest, s = String.append p rest.
Proof.
  revert s. induction p as [|c p IH]; intros s; simpl.
  - split; [intros _; now exists s | intros _; now destruct s].
  - destruct s as [|d s]; simpl.
    + split; [discriminate | intros [r Hr]; discriminate].
    + destruct (Ascii.ascii_dec c d) as [->|Hne].
      * rewrite IH. split; intros [r Hr]; exists r; [now rewrite Hr | now inversion Hr].
      * split; [discriminate | intros [r Hr]; inversion Hr; congruence].
Qed.

Lemma contains_nil (needle : string) :
  PyStr.contains needle EmptyString = String.prefix needle EmptyString || false.
Proof. reflexivity. Qed.

Lemma contains_cons (needle : string) (c : ascii) (hay : string) :
  PyStr.contains needle (String c hay) =
  String.prefix needle (String c hay) || PyStr.contains needle hay.
Proof. reflexivity. Qed.

Lemma contains_split (needle hay : string) :
  PyStr.contains needle hay = true <->
  exists pre post, hay = String.append pre (String.append needle post).
Proof.
  induction hay as [|c hay IH]; [rewrite contains_nil | rewrite contains_cons].
  - rewrite orb_false_r, prefix_split. split.
    + intros [r Hr]. now exists EmptyString, r.
    + intros [[|d pre] [post H]]; simpl in H; [now exists post | discriminate].
  - rewrite orb_true_iff, prefix_split, IH. split.
    + intros [[r Hr] | [pre [post H]]].
      * now exists EmptyString, r.
      * exists (String c pre), post. simpl. now rewrite H.
    + intros [[|d pre] [post H]]; simpl in H.
      * left. now exists post.
      * right. inversion H. now exists pre, post.
Qed.

(** Splitting a lower-cased text splits the text. *)
Lemma lower_split (s a b : string) :
  PyStr.lower s = String.append a b ->
  exists a' b', s = String.append a' b' /\ PyStr.lower a' = a /\ PyStr.lower b' = b.
Proof.
  revert s. induction a as [|c a IH]; intros s H; simpl in H.
  - exists EmptyString, s. now repeat split.
  - destruct s as [|d s]; simpl in H; [discriminate|].
    inversion H as [[Hc Hs]]. destruct (IH _ Hs) as (a' & b' & -> & Ha & Hb).
    exists (String d a'), b'. simpl. now rewrite Ha, Hb.
Qed.

(** [needle in label.lower()] is the case-insensitive match, for a
    needle written in lower case. *)
Lemma contains_lower_ci (needle label : string) :
  PyStr.lower needle = needle ->
  (PyStr.contains needle (PyStr.lower label) = true <-> ci_substring needle label).
Proof.
  intros Hn. rewrite contains_split. unfold ci_substring. split.
  - intros (pre & post & H).
    destruct (lower_split _ _ _ H) as (pre' & r & -> & Hpre & Hr).
    destruct (lower_split _ _ _ Hr) as (mid & post' & -> & Hmid & Hpost).
    exists pre', mid, post'. split; [reflexivity | congruence].
  - intros (pre & mid & post & -> & Hmid).
    exists (PyStr.lower pre), (PyStr.lower post).
    rewrite !lower_append. congruence.
Qed.

(** A text that holds the longer needle holds the shorter one. *)
Lemma contains_weaken (a b hay : string) :
  PyStr.contains b a = true ->
  PyStr.contains a hay = true -> PyStr.contains b hay = true.
Proof.
  rewrite !contains_split. intros (p1 & q1 & ->) (p2 & q2 & ->).
  exists (String.append p2 p1), (String.append q1 q2).
  now rewrite !append_assoc.
Qed.

End StringFacts.

(** ** Outcomes *)

(** Closes [X = v] by running [X]. *)
Ltac evaluate :=
  lazymatch goal with
  | |- ?X = _ => let v := eval vm_compute in X in exact (@eq_refl _ v <: X = v)
  end.

(** Replaces the closed term [t] of the goal by its value. *)
Ltac value_of t := let v := eval vm_compute in t in change t with v.

Lemma bind_ret_inv {A B} (m : outcome A) (k : A -> outcome B) (b : B) :
  bind m k = Ret b -> exists a, m = Ret a /\ k a = Ret b.
Proof. destruct m as [a|e]; simpl; [eauto | discriminate]. Qed.

Lemma bind_ret {A B} (m : outcome A) (k : A -> outcome B) (a : A) :
  m = Ret a -> bind m k = k a.
Proof. now intros ->. Qed.

Lemma catch_returns {A} (m : outcome A) (h : exn -> outcome A) :
  (forall e, returns (h e)) -> returns (catch m h).
Proof. intros Hh. destruct m as [a|e]; simpl; [now exists a | apply Hh]. Qed.

(** ** The age classifier *)

Lemma any_in_2 (a b l : string) :
  PyStr.any_in [a; b] l = PyStr.contains a l || PyStr.contains b l.
Proof. unfold PyStr.any_in. simpl. now rewrite orb_false_r. Qed.

Lemma age_status_by_bucket (days : Z) (label : string) :
  calculate_deal_age_status (Some days) label =
  bucket_age_status (stage_bucket label) days.
Proof.
  unfold calculate_deal_age_status, stage_bucket. rewrite any_in_2.
  destruct (PyStr.contains "stalled" _ || PyStr.contains "delayed" _); [reflexivity|].
  destruct (PyStr.any_in ["nbm"; _; _; _; _; _] _); [reflexivity|].
  destruct (PyStr.any_in ["technical"; _; _; _] _); [reflexivity|].
  destruct (PyStr.any_in ["negotiation"; _; _; _] _); reflexivity.
Qed.

(** C4, as stated: the stalled/delayed pair 14/∞ read as a Green/Yellow
    pair gives Green at 10 days and Yellow at 20, where the code gives
    Yellow and Red. *)
Lemma age_status_stalled_counterexample :
  calculate_deal_age_status (Some 10) "Stalled" = "Yellow" /\
  documented_age_status 10 "Stalled" = "Green" /\
  calculate_deal_age_status (Some 20) "Delayed - legal" = "Red" /\
  documented_age_status 20 "Delayed - legal" = "Yellow".
Proof. repeat split; reflexivity. Qed.

(** C4, amended: for every day count and label the classifier is the
    bucket's rule with inclusive bounds; outside the stalled/delayed bucket
    it is the documented Green/Yellow pair, in that bucket it is Yellow up
    to 14 days and Red beyond; a label of the mid bucket gives Green at 30,
    Yellow at 31 and 45, Red at 46. *)
Theorem age_status_boundaries (days : Z) (label : string) :
  calculate_deal_age_status (Some days) label =
    bucket_age_status (stage_bucket label) days /\
  (stage_bucket label <> Stalled ->
   calculate_deal_age_status (Some days) label = documented_age_status days label) /\
  (stage_bucket label = Stalled ->
   calculate_deal_age_status (Some days) label =
     if days <=? 14 then "Yellow" else "Red") /\
  (stage_bucket label = Mid ->
   calculate_deal_age_status (Some 30) label = "Green" /\
   calculate_deal_age_status (Some 31) label = "Yellow" /\
   calculate_deal_age_status (Some 45) label = "Yellow" /\
   calculate_deal_age_status (Some 46) label = "Red").
Proof.
  split; [apply age_status_by_bucket|]. split; [|split].
  - intros Hb. rewrite age_status_by_bucket. unfold documented_age_status.
    destruct (stage_bucket label); try reflexivity. now contradiction Hb.
  - intros Hb. now rewrite age_status_by_bucket, Hb.
  - intros Hb. rewrite !age_status_by_bucket, Hb. repeat split; reflexivity.
Qed.

Lemma age_status_boundaries_witness :
  stage_bucket "Technical Evaluation" = Mid /\
  stage_bucket "Technical Evaluation" <> Stalled /\
  stage_bucket "Stalled" = Stalled /\
  calculate_deal_age_status (Some 30) "Technical Evaluation" = "Green" /\
  calculate_deal_age_status (Some 30) "Technical Evaluation" =
    documented_age_status 30 "Technical Evaluation" /\
  calculate_deal_age_status (Some 30) "Stalled" = "Red".
Proof.
  split; [reflexivity|]. split; [discriminate|]. split; [reflexivity|].
  split; [|split].
  - apply (proj1 (proj2 (proj2 (proj2 (age_status_boundaries 30 "Technical Evaluation"))) eq_refl)).
  - apply (proj1 (proj2 (age_status_boundaries 30 "Technical Evaluation"))). discriminate.
  - apply (proj1 (proj2 (proj2 (age_status_boundaries 30 "Stalled"))) eq_refl).
Defined.

(** ** Formatting and parsing dates *)

Section DateFacts.

Lemma digit_cases (d : Z) :
  0 <= d <= 9 ->
  d = 0 \/ d = 1 \/ d = 2 \/ d = 3 \/ d = 4 \/ d = 5 \/ d = 6 \/ d = 7 \/ d = 8 \/ d = 9.
Proof. lia. Qed.

Lemma digit_char_spec (d : Z) :
  0 <= d <= 9 ->
  PyStr.is_digit (DateTime.digit_char d) = true /\
  PyStr.digit_val (DateTime.digit_char d) = d /\
  Ascii.eqb (DateTime.digit_char d) "Z" = false.
Proof.
  intros H. destruct (digit_cases d H) as [->|[->|[->|[->|[->|[->|[->|[->|[->| ->]]]]]]]]];
    repeat split; reflexivity.
Qed.

Lemma mod10_digit (v : Z) : 0 <= v mod 10 <= 9.
Proof. pose proof (Z.mod_pos_bound v 10). lia. Qed.

Lemma pow10_pos (k : nat) : 0 < 10 ^ Z.of_nat k.
Proof. apply Z.pow_pos_nonneg; lia. Qed.

Lemma mod_pow10_succ (v : Z) (k : nat) :
  ((v / 10 ^ Z.of_nat k) mod 10) * 10 ^ Z.of_nat k + v mod 10 ^ Z.of_nat k =
  v mod 10 ^ Z.of_nat (S k).
Proof.
  pose proof (pow10_pos k) as Hp.
  rewrite Nat2Z.inj_succ, Z.pow_succ_r by lia.
  rewrite (Z.mul_comm 10), Z.rem_mul_r by lia. lia.
Qed.

(** Reading back [n] formatted digits. *)
Lemma take_fmt_digits (n : nat) (v acc : Z) (rest : string) :
  DateTime.take_digits n acc (String.append (DateTime.fmt_digits n v) rest) =
  Some (acc * 10 ^ Z.of_nat n + v mod 10 ^ Z.of_nat n, rest).
Proof.
  revert acc. induction n as [|k IH]; intros acc.
  - simpl. rewrite append_nil_l. f_equal. f_equal. rewrite Z.mod_1_r. lia.
  - cbn [DateTime.fmt_digits]. rewrite append_cons. cbn [DateTime.take_digits].
    destruct (digit_char_spec _ (mod10_digit (v / 10 ^ Z.of_nat k))) as (Hd & Hv & _).
    rewrite Hd, Hv, IH. f_equal. f_equal.
    rewrite <- mod_pow10_succ.
    rewrite (Nat2Z.inj_succ k), Z.pow_succ_r by lia. ring.
Qed.

Lemma lacks_append (c : ascii) (a b : string) :
  lacks c (String.append a b) = lacks c a && lacks c b.
Proof.
  induction a as [|x a IH]; [reflexivity|].
  rewrite append_cons. simpl. now rewrite IH, andb_assoc.
Qed.

Lemma lacks_fmt_digits (n : nat) (v : Z) : lacks "Z" (DateTime.fmt_digits n v) = true.
Proof.
  induction n as [|k IH]; [reflexivity|].
  cbn [DateTime.fmt_digits lacks].
  destruct (digit_char_spec _ (mod10_digit (v / 10 ^ Z.of_nat k))) as (_ & _ & Hz).
  now rewrite Hz, IH.
Qed.

Lemma replace_fuel_lacks (c : ascii) (new s : string) (fuel : nat) :
  lacks c s = true ->
  PyStr.replace_fuel fuel (String c EmptyString) new s = s.
Proof.
  revert s. induction fuel as [|k IH]; intros s H; [reflexivity|].
  destruct s as [|a t]; [reflexivity|].
  simpl in H. apply andb_true_iff in H as [Ha Ht].
  cbn [PyStr.replace_fuel].
  replace (String.prefix (String c EmptyString) (String a t)) with false.
  - now rewrite IH.
  - simpl. destruct (Ascii.ascii_dec c a) as [->|Hne]; [|reflexivity].
    now rewrite Ascii.eqb_refl in Ha.
Qed.

Lemma replace_lacks (c : ascii) (new s : string) :
  lacks c s = true -> PyStr.replace (String c EmptyString) new s = s.
Proof. apply replace_fuel_lacks. Qed.

Lemma lacks_fmt_offset (off : Z) : lacks "Z" (DateTime.fmt_offset off) = true.
Proof.
  unfold DateTime.fmt_offset. rewrite !lacks_append, !lacks_fmt_digits.
  now destruct (off <? 0).
Qed.

Lemma lacks_isoformat (dt : datetime) : lacks "Z" (DateTime.isoformat dt) = true.
Proof.
  unfold DateTime.isoformat. rewrite !lacks_append, !lacks_fmt_digits.
  destruct (microsecond dt =? 0), (tzinfo dt) as [off|];
    rewrite ?lacks_append, ?lacks_fmt_digits, ?lacks_fmt_offset; reflexivity.
Qed.

Lemma isoformat_truthy (dt : datetime) : PyStr.truthy (DateTime.isoformat dt) = true.
Proof. reflexivity. Qed.

Lemma take_fmt2 (v : Z) (rest : string) :
  DateTime.take_digits 2 0 (String.append (DateTime.fmt_digits 2 v) rest) =
  Some (v mod 100, rest).
Proof. rewrite take_fmt_digits. reflexivity. Qed.

Lemma take_fmt4 (v : Z) (rest : string) :
  DateTime.take_digits 4 0 (String.append (DateTime.fmt_digits 4 v) rest) =
  Some (v mod 10000, rest).
Proof. rewrite take_fmt_digits. reflexivity. Qed.

Lemma take_fmt6 (v : Z) (rest : string) :
  DateTime.take_digits 6 0 (String.append (DateTime.fmt_digits 6 v) rest) =
  Some (v mod 1000000, rest).
Proof. rewrite take_fmt_digits. reflexivity. Qed.

Lemma expect_literal (c : ascii) (rest : string) :
  DateTime.expect c (String.append (String c EmptyString) rest) = Some rest.
Proof. rewrite append_cons, append_nil_l. simpl. now rewrite Ascii.eqb_refl. Qed.

Lemma skip_literal (c : ascii) (rest : string) :
  DateTime.skip_char (String.append (String c EmptyString) rest) = Some rest.
Proof. now rewrite append_cons, append_nil_l. Qed.

Lemma parse_fraction_utc (us : Z) :
  DateTime.parse_fraction
    (String.append
       (if us =? 0 then "" else String.append "." (DateTime.fmt_digits 6 us))
       "+00:00") =
  Some (us mod 1000000, "+00:00").
Proof.
  destruct (Z.eqb_spec us 0) as [->|Hne]; [reflexivity|].
  rewrite append_assoc, append_cons, append_nil_l.
  cbn [DateTime.parse_fraction]. now rewrite take_fmt6.
Qed.

(** Reading back the text of a datetime in UTC: the fields come back
    reduced to their printed digits. *)
Lemma parse_isoformat_utc (dt : datetime) :
  tzinfo dt = Some 0 ->
  DateTime.parse_iso (DateTime.isoformat dt) =
  let y := year dt mod 10000 in
  let m := month dt mod 100 in
  let d := day dt mod 100 in
  let hh := hour dt mod 100 in
  let mi := minute dt mod 100 in
  let ss := second dt mod 100 in
  let us := microsecond dt mod 1000000 in
  if DateTime.valid_fields y m d hh mi ss us
  then Some {| year := y; month := m; day := d; hour := hh; minute := mi;
               second := ss; microsecond := us; tzinfo := Some 0 |}
  else None.
Proof.
  intros Htz. unfold DateTime.isoformat, DateTime.parse_iso. rewrite Htz.
  change (DateTime.fmt_offset 0) with "+00:00".
  rewrite take_fmt4. cbn [mbind option_bind].
  rewrite expect_literal. cbn [mbind option_bind].
  rewrite take_fmt2. cbn [mbind option_bind].
  rewrite expect_literal. cbn [mbind option_bind].
  rewrite take_fmt2. cbn [mbind option_bind].
  rewrite skip_literal. cbn [mbind option_bind].
  rewrite take_fmt2. cbn [mbind option_bind].
  rewrite expect_literal. cbn [mbind option_bind].
  rewrite take_fmt2. cbn [mbind option_bind].
  rewrite expect_literal. cbn [mbind option_bind].
  rewrite take_fmt2. cbn [mbind option_bind].
  rewrite parse_fraction_utc. cbn [mbind option_bind].
  change (DateTime.parse_offset "+00:00") with (Some (Some 0)).
  reflexivity.
Qed.

Lemma small_mod (v m : Z) : 0 <= v < m -> v mod m = v.
Proof. intros H. now apply Z.mod_small. Qed.

(** Round trip: a valid datetime in UTC is read back from its text. *)
Lemma fromisoformat_isoformat (dt : datetime) :
  DateTime.valid dt = true -> tzinfo dt = Some 0 ->
  DateTime.fromisoformat (PyStr.replace "Z" "+00:00" (DateTime.isoformat dt)) = Ret dt.
Proof.
  intros Hv Htz. rewrite replace_lacks by apply lacks_isoformat.
  unfold DateTime.fromisoformat. rewrite parse_isoformat_utc by exact Htz.
  cbv zeta. unfold DateTime.valid in Hv.
  assert (Hr := Hv). unfold DateTime.valid_fields in Hr.
  repeat (apply andb_true_iff in Hr as [Hr ?]).
  assert (Hdm : DateTime.days_in_month (year dt) (month dt) <= 31).
  { unfold DateTime.days_in_month.
    destruct (month dt =? 2); [destruct (DateTime.is_leap _); lia|].
    destruct (_ || _); lia. }
  rewrite (small_mod (year dt)), (small_mod (month dt)), (small_mod (day dt)),
    (small_mod (hour dt)), (small_mod (minute dt)), (small_mod (second dt)),
    (small_mod (microsecond dt)) by lia.
  rewrite Hv. destruct dt; simpl in *. now subst.
Qed.

End DateFacts.

(** ** The timestamp normaliser *)

Section ConvertFacts.
Context `{RT : PyRuntime}.

Lemma make_value_error (y m d hh mi ss us : Z) :
  (exists dt, DateTime.make y m d hh mi ss us = Ret dt /\ tzinfo dt = None) \/
  (exists msg, DateTime.make y m d hh mi ss us = Raise (ValueError msg)).
Proof.
  unfold DateTime.make. destruct (DateTime.valid_fields _ _ _ _ _ _ _); eauto.
Qed.

(** [strptime] returns or raises ValueError. *)
Lemma strptime_value_error (s fmt : string) :
  (exists dt, Strptime.strptime s fmt = Ret dt) \/
  (exists msg, Strptime.strptime s fmt = Raise (ValueError msg)).
Proof.
  unfold Strptime.strptime. destruct (Strptime.scan _ _ _) as [r|]; [|eauto].
  destruct (make_value_error (Strptime.f_year r) (Strptime.f_month r) (Strptime.f_day r)
              (Strptime.f_hour r) (Strptime.f_minute r) (Strptime.f_second r)
              (Strptime.f_fraction r)) as [(dt & -> & _)|(msg & ->)]; eauto.
Qed.

Lemma try_format_cases (s fmt : string) :
  (exists dt, try_format s fmt = Ret (DateTime.isoformat dt) /\ tzinfo dt = Some 0) \/
  (exists msg, try_format s fmt = Raise (ValueError msg)).
Proof.
  unfold try_format.
  destruct (strptime_value_error
              (PyStr.replace "Z" "" (PyStr.replace "+00:00" "Z" s))
              (PyStr.replace "Z" "" fmt)) as [(dt & ->)|(msg & ->)]; simpl.
  - left. now exists (DateTime.replace_tzinfo utc dt).
  - right. now exists msg.
Qed.

(** The loop over the formats returns the first success. *)
Lemma try_formats_first_success (s : string) (fmts : list string) :
  try_formats s fmts = Ret (first_success s fmts).
Proof.
  induction fmts as [|fmt rest IH]; [reflexivity|].
  simpl. destruct (try_format_cases s fmt) as [(dt & -> & _)|(msg & ->)];
    [reflexivity | exact IH].
Qed.

Lemma first_success_shape (s : string) (fmts : list string) (iso : string) :
  first_success s fmts = Some iso ->
  exists dt, iso = DateTime.isoformat dt /\ tzinfo dt = Some 0.
Proof.
  induction fmts as [|fmt rest IH]; [discriminate|].
  simpl. destruct (try_format_cases s fmt) as [(dt & -> & Htz)|(msg & ->)].
  - intros [= <-]. now exists dt.
  - exact IH.
Qed.

Lemma first_success_none (s : string) (fmts : list string) :
  (forall fmt, In fmt fmts -> exists e, try_format s fmt = Raise e) ->
  first_success s fmts = None.
Proof.
  induction fmts as [|fmt rest IH]; intros H; [reflexivity|].
  simpl. destruct (H fmt (or_introl eq_refl)) as [e ->].
  apply IH. intros f Hf. apply H. now right.
Qed.

(** The normaliser never raises. *)
Lemma convert_returns (ts : option string) : returns (convert_hubspot_timestamp ts).
Proof.
  unfold convert_hubspot_timestamp. destruct ts as [s|]; [|now exists None].
  destruct (negb (PyStr.truthy s)); [now exists None|].
  apply catch_returns. intros _. now exists None.
Qed.

(** Every text it returns is the text of a datetime in UTC. *)
Lemma convert_shape (ts : option string) (iso : string) :
  convert_hubspot_timestamp ts = Ret (Some iso) ->
  exists dt, iso = DateTime.isoformat dt /\ tzinfo dt = Some 0.
Proof.
  unfold convert_hubspot_timestamp. destruct ts as [s|]; [|discriminate].
  destruct (negb (PyStr.truthy s)); [discriminate|].
  destruct (PyStr.isdigit s).
  - unfold fromtimestamp_utc. destruct (utc_fields_of_ms _) as [dt|e]; simpl;
      [|discriminate].
    intros [= <-]. now exists (DateTime.replace_tzinfo utc dt).
  - destruct (_ || _); [|discriminate].
    rewrite try_formats_first_success. cbn [catch]. intros [= H].
    exact (first_success_shape s timestamp_formats iso H).
Qed.

Lemma utc_suffixed_append (a t : string) :
  utc_suffixed t -> utc_suffixed (String.append a t).
Proof.
  intros [body ->]. exists (String.append a body). now rewrite append_assoc.
Qed.

Lemma isoformat_utc_suffixed (dt : datetime) :
  tzinfo dt = Some 0 -> utc_suffixed (DateTime.isoformat dt).
Proof.
  intros Htz. unfold DateTime.isoformat. rewrite Htz.
  do 12 apply utc_suffixed_append.
  exists EmptyString. reflexivity.
Qed.

End ConvertFacts.

Section GuardFacts.

Lemma lacks_drop (c : ascii) (n : nat) (s : string) :
  lacks c s = true -> lacks c (PyStr.drop n s) = true.
Proof.
  revert s. induction n as [|k IH]; intros s H; [exact H|].
  destruct s as [|a t]; [reflexivity|].
  simpl in H. apply andb_true_iff in H as [_ Ht]. now apply IH.
Qed.

Lemma lacks_replace_fuel (c : ascii) (old new s : string) (fuel : nat) :
  lacks c s = true -> lacks c new = true ->
  lacks c (PyStr.replace_fuel fuel old new s) = true.
Proof.
  intros Hs Hnew. revert s Hs. induction fuel as [|k IH]; intros s Hs; [exact Hs|].
  destruct s as [|a t]; [reflexivity|].
  cbn [PyStr.replace_fuel]. destruct (String.prefix old (String a t)).
  - rewrite lacks_append, Hnew. apply IH. now apply lacks_drop.
  - simpl in Hs. apply andb_true_iff in Hs as [Ha Ht].
    simpl. rewrite Ha. now apply IH.
Qed.

Lemma lacks_replace (c : ascii) (old new s : string) :
  lacks c s = true -> lacks c new = true -> lacks c (PyStr.replace old new s) = true.
Proof. apply lacks_replace_fuel. Qed.

Lemma contains_char_lacks (c : ascii) (s : string) :
  PyStr.contains (String c EmptyString) s = false -> lacks c s = true.
Proof.
  induction s as [|a t IH]; [reflexivity|].
  rewrite contains_cons. intros H. apply orb_false_iff in H as [Hp Ht].
  simpl. rewrite (IH Ht), andb_true_r.
  simpl in Hp. destruct (Ascii.ascii_dec c a) as [->|Hne].
  - now destruct t.
  - apply negb_true_iff, Ascii.eqb_neq. congruence.
Qed.

Lemma lacks_take_digits (c : ascii) (n : nat) (acc v : Z) (s rest : string) :
  DateTime.take_digits n acc s = Some (v, rest) ->
  lacks c s = true -> lacks c rest = true.
Proof.
  revert acc s. induction n as [|k IH]; intros acc s H Hs.
  - simpl in H. now inversion H; subst.
  - destruct s as [|a t]; [discriminate|]. simpl in H.
    destruct (PyStr.is_digit a); [|discriminate].
    simpl in Hs. apply andb_true_iff in Hs as [_ Ht]. eapply IH; eauto.
Qed.

Lemma lower_char_dash (a : ascii) : PyStr.lower_char a = "-"%char -> a = "-"%char.
Proof.
  destruct a as [[] [] [] [] [] [] [] []]; vm_compute; congruence.
Qed.

(** A format that opens with [%Y-] matches no text without a dash. *)
Lemma scan_needs_dash (ds : list Strptime.directive) (r : Strptime.found) (s : string) :
  lacks "-" s = true ->
  Strptime.scan (Strptime.DY :: Strptime.DLit "-" :: ds) r s = None.
Proof.
  intros Hs. cbn [Strptime.scan Strptime.field].
  destruct (DateTime.take_digits 4 0 s) as [[v rest]|] eqn:Ht; [|reflexivity].
  pose proof (lacks_take_digits _ _ _ _ _ _ Ht Hs) as Hr.
  destruct rest as [|a t]; [reflexivity|].
  destruct (Ascii.eqb (PyStr.lower_char a) (PyStr.lower_char "-")) eqn:He; [|reflexivity].
  apply Ascii.eqb_eq in He. change (PyStr.lower_char "-") with "-"%char in He.
  apply lower_char_dash in He. subst a. discriminate Hr.
Qed.

Lemma no_dash_no_parse (s fmt : string) :
  lacks "-" s = true -> In fmt timestamp_formats ->
  exists e, try_format s fmt = Raise e.
Proof.
  intros Hs Hin. unfold try_format, Strptime.strptime.
  assert (Hts : lacks "-" (PyStr.replace "Z" "" (PyStr.replace "+00:00" "Z" s)) = true).
  { apply lacks_replace; [|reflexivity]. apply lacks_replace; [exact Hs | reflexivity]. }
  set (ts := PyStr.replace "Z" "" (PyStr.replace "+00:00" "Z" s)) in *.
  assert (Hd : exists ds, Strptime.directives (PyStr.replace "Z" "" fmt) =
                          Strptime.DY :: Strptime.DLit "-" :: ds).
  { simpl in Hin. destruct Hin as [<-|[<-|[<-|[<-|[<-|[]]]]]];
      eexists; vm_compute; reflexivity. }
  destruct Hd as [ds ->]. rewrite (scan_needs_dash ds _ ts Hts).
  simpl. eauto.
Qed.

(** The guard on 'T' and '-' changes nothing: a text without a dash
    parses under none of the formats. *)
Lemma guard_redundant (s : string) :
  PyStr.contains "T" s || PyStr.contains "-" s = false ->
  first_success s timestamp_formats = None.
Proof.
  intros H. apply orb_false_iff in H as [_ Hd].
  apply first_success_none. intros fmt Hin.
  apply no_dash_no_parse; [|exact Hin]. now apply contains_char_lacks.
Qed.

End GuardFacts.

Section ConvertTheorem.
Context `{RT : PyRuntime}.

(** C6: the timestamp normaliser never raises; an empty input gives
    null; a string of decimal digits is read as epoch milliseconds: its
    number [ms] is handed to the runtime's [fromtimestamp], a failure of
    which gives null, and wherever the runtime converts [ms] exactly
    (as [fromtimestamp] does on present-day timestamps) the result is
    the ISO text of the valid UTC datetime whose instant is [ms]
    milliseconds after the Unix epoch; any other text gets the result of
    the first candidate format, in the fixed order, that parses it, and
    null when none does; and every non-null result ends with the
    explicit UTC offset. *)
Theorem convert_hubspot_timestamp_total (ts : option string) :
  returns (convert_hubspot_timestamp ts) /\
  (ts = None \/ ts = Some "" -> convert_hubspot_timestamp ts = Ret None) /\
  (forall s, ts = Some s -> PyStr.isdigit s = true ->
     convert_hubspot_timestamp ts =
     Ret (match fromtimestamp_utc (PyStr.int_of_digits s) with
          | Ret dt => Some (DateTime.isoformat dt)
          | Raise _ => None
          end)) /\
  (forall s, ts = Some s -> PyStr.isdigit s = true ->
     exact_at (PyStr.int_of_digits s) ->
     exists dt,
       convert_hubspot_timestamp ts = Ret (Some (DateTime.isoformat dt)) /\
       DateTime.valid dt = true /\ tzinfo dt = utc /\
       instant_micros dt = unix_epoch_micros + PyStr.int_of_digits s * 1000) /\
  (forall s, ts = Some s -> s <> "" -> PyStr.isdigit s = false ->
     convert_hubspot_timestamp ts = Ret (first_success s timestamp_formats)) /\
  (forall s, ts = Some s -> PyStr.isdigit s = false ->
     (forall fmt, In fmt timestamp_formats -> exists e, try_format s fmt = Raise e) ->
     convert_hubspot_timestamp ts = Ret None) /\
  (forall iso, convert_hubspot_timestamp ts = Ret (Some iso) -> utc_suffixed iso).
Proof.
  assert (Hother : forall s, s <> "" -> PyStr.isdigit s = false ->
            convert_hubspot_timestamp (Some s) = Ret (first_success s timestamp_formats)).
  { intros s Hne Hd. unfold convert_hubspot_timestamp.
    destruct s as [|c t]; [congruence|]. cbn [PyStr.truthy negb]. rewrite Hd.
    destruct (_ || _) eqn:Hg.
    - now rewrite try_formats_first_success.
    - now rewrite (guard_redundant _ Hg). }
  split; [apply convert_returns|]. split; [|split; [|split; [|split; [|split]]]].
  - intros [->| ->]; reflexivity.
  - intros s -> Hd. unfold convert_hubspot_timestamp.
    destruct s as [|c t]; [discriminate|]. cbn [PyStr.truthy negb]. rewrite Hd.
    destruct (fromtimestamp_utc _); reflexivity.
  - intros s -> Hd (dt & Hf & Hv & Hm).
    exists (DateTime.replace_tzinfo utc dt). unfold convert_hubspot_timestamp.
    destruct s as [|c t]; [discriminate|]. cbn [PyStr.truthy negb]. rewrite Hd.
    unfold fromtimestamp_utc. rewrite Hf. cbn [bind catch].
    split; [reflexivity|]. split; [exact Hv|]. split; [reflexivity|].
    unfold instant_micros. rewrite <- Hm.
    unfold DateTime.civil_micros, DateTime.toordinal. cbn. lia.
  - intros s -> Hne Hd. now apply Hother.
  - intros s -> Hd Hall. destruct s as [|c t]; [reflexivity|].
    rewrite Hother by congruence. now rewrite first_success_none.
  - intros iso H. destruct (convert_shape _ _ H) as (dt & -> & Htz).
    now apply isoformat_utc_suffixed.
Qed.

End ConvertTheorem.

(** ** Parsed timestamps *)

Section ParseFacts.
Context `{RT : PyRuntime}.

(** A parsed timestamp is an aware datetime in UTC; parsing never
    raises. *)
Lemma parse_timestamp_cases (ts : option string) :
  parse_timestamp_to_datetime ts = Ret None \/
  exists e, parse_timestamp_to_datetime ts = Ret (Some e) /\ tzinfo e = Some 0.
Proof.
  unfold parse_timestamp_to_datetime. destruct ts as [s|]; [|now left].
  destruct (negb (PyStr.truthy s)); [now left|].
  destruct (convert_returns (Some s)) as [r Hr]. rewrite Hr. cbn [bind].
  destruct r as [iso|]; [|now left].
  destruct (convert_shape _ _ Hr) as (dt & -> & Htz).
  rewrite isoformat_truthy. cbn [negb].
  rewrite replace_lacks by apply lacks_isoformat.
  unfold DateTime.fromisoformat. rewrite parse_isoformat_utc by exact Htz.
  cbv zeta. destruct (DateTime.valid_fields _ _ _ _ _ _ _); simpl; [|now left].
  right. eexists. split; reflexivity.
Qed.

Lemma parse_timestamp_aware (ts : option string) (e : datetime) :
  parse_timestamp_to_datetime ts = Ret (Some e) -> tzinfo e = Some 0.
Proof.
  intros H. destruct (parse_timestamp_cases ts) as [H'|(e' & H' & Htz)];
    rewrite H' in H; [discriminate | now inversion H; subst].
Qed.

Lemma parse_timestamp_returns (ts : option string) :
  returns (parse_timestamp_to_datetime ts).
Proof.
  destruct (parse_timestamp_cases ts) as [H|(e & H & _)]; rewrite H; eexists; reflexivity.
Qed.

(** Between two aware datetimes the day count is the whole-day
    difference of the instants. *)
Lemma sub_days_aware (a b : datetime) (oa ob : Z) :
  tzinfo a = Some oa -> tzinfo b = Some ob ->
  DateTime.sub_days a b = Ret (whole_days a b).
Proof.
  intros Ha Hb. unfold DateTime.sub_days, whole_days, instant_micros.
  now rewrite Ha, Hb.
Qed.

Lemma days_since_aware (snap : datetime) (o : Z) (ts : option string)
    (dt : option datetime) :
  tzinfo snap = Some o ->
  parse_timestamp_to_datetime ts = Ret dt ->
  days_since snap dt = Ret (option_map (whole_days snap) dt).
Proof.
  intros Hs Hp. destruct dt as [e|]; [|reflexivity]. simpl.
  rewrite (sub_days_aware snap e o 0 Hs (parse_timestamp_aware _ _ Hp)). reflexivity.
Qed.

End ParseFacts.

(** ** The transformed row *)

Section TransformFacts.
Context `{RT : PyRuntime}.

Variable d : deal.
Variable contacts : list contact.
Variable snapshot : datetime.
Variable pipelines_dict : pipelines_dict_t.
Variable stages_dict : stages_dict_t.
Variable owners_dict : owners_dict_t.

(** What a returned row holds, column by column. *)
Lemma transform_deal_fields (row : deal_row) :
  transform_deal d contacts snapshot pipelines_dict stages_dict owners_dict = Ret row ->
  pipeline_label row = fst (resolve_labels pipelines_dict stages_dict
         (props_get_or_empty (properties d) "pipeline")
         (props_get_or_empty (properties d) "dealstage")) /\
  dealstage_label row = snd (resolve_labels pipelines_dict stages_dict
         (props_get_or_empty (properties d) "pipeline")
         (props_get_or_empty (properties d) "dealstage")) /\
  dealstage row = props_get_or_empty (properties d) "dealstage" /\
  is_won row = flag_is_won (deal_status (dealstage_label row)) /\
  is_lost row = flag_is_lost (deal_status (dealstage_label row)) /\
  is_open row = flag_is_open (deal_status (dealstage_label row)) /\
  amount row = safe_float (props_get (properties d) "amount") /\
  hs_deal_stage_probability row = safe_float (props_get (properties d) "hs_deal_stage_probability") /\
  weighted_amount row =
    match amount row, hs_deal_stage_probability row with
    | Some a, Some pr => Some (float_mul a pr)
    | _, _ => None
    end /\
  (exists created_dt,
     parse_timestamp_to_datetime (props_get (properties d) "createdate") = Ret created_dt /\
     days_since snapshot created_dt = Ret (days_since_created row)) /\
  (exists entered_days,
     stage_entry_days (properties d)
       (props_get_or_empty (properties d) "dealstage") snapshot = Ret entered_days /\
     days_in_current_stage row =
       match entered_days with
       | None => days_since_created row
       | Some n => Some n
       end) /\
  deal_age_status row =
    calculate_deal_age_status (days_in_current_stage row) (dealstage_label row) /\
  snapshot_date row = date_isoformat snapshot.
Proof.
  unfold transform_deal.
  destruct (resolve_labels pipelines_dict stages_dict _ _) as [pl dl] eqn:Hl.
  destruct (if PyStr.truthy (props_get_or_empty _ "hubspot_owner_id") then _ else _)
    as [on oe].
  intros H.
  apply bind_ret_inv in H as (created & Hc & H).
  apply bind_ret_inv in H as (closed & Hcl & H).
  apply bind_ret_inv in H as (modified & Hm & H).
  apply bind_ret_inv in H as (dsc & Hdsc & H).
  apply bind_ret_inv in H as (ent & Hent & H).
  apply bind_ret_inv in H as (dtc & Hdtc & H).
  apply bind_ret_inv in H as (ciso & Hciso & H).
  apply bind_ret_inv in H as (criso & Hcriso & H).
  inversion H; subst row; clear H. cbn [pipeline_label dealstage_label dealstage is_won
    is_lost is_open amount hs_deal_stage_probability weighted_amount days_since_created
    days_in_current_stage deal_age_status snapshot_date fst snd].
  repeat split; try reflexivity.
  - exists created. now split.
  - exists ent. now split.
Qed.

End TransformFacts.

(** ** Status flags *)

Lemma deal_status_won (label : string) :
  flag_is_won (deal_status label) = PyStr.contains "won" (PyStr.lower label).
Proof.
  unfold deal_status. cbn [flag_is_won].
  destruct label as [|c t]; [reflexivity|]. cbn [PyStr.truthy].
  destruct (PyStr.contains "closed won" _) eqn:H; [|apply orb_false_r].
  rewrite (contains_weaken "closed won" "won" _ eq_refl H). reflexivity.
Qed.

Lemma deal_status_lost (label : string) :
  flag_is_lost (deal_status label) = PyStr.contains "lost" (PyStr.lower label).
Proof.
  unfold deal_status. cbn [flag_is_lost].
  destruct label as [|c t]; [reflexivity|]. cbn [PyStr.truthy].
  destruct (PyStr.contains "closed lost" _) eqn:H; [|apply orb_false_r].
  rewrite (contains_weaken "closed lost" "lost" _ eq_refl H). reflexivity.
Qed.

Lemma deal_status_open (label : string) :
  flag_is_open (deal_status label) =
  negb (flag_is_won (deal_status label)) && negb (flag_is_lost (deal_status label)).
Proof. reflexivity. Qed.

Lemma exactly_one_flags (won lost : bool) :
  exactly_one (negb won && negb lost) won lost = true <-> ~ (won = true /\ lost = true).
Proof.
  destruct won, lost; cbn;
    (split;
     [ intros H; try discriminate H; intros [? ?]; discriminate
     | intros H; try reflexivity; exfalso; apply H; split; reflexivity ]).
Qed.

(** C1, as stated: a stage label that holds both "won" and "lost" gives a
    row with is_won and is_lost both true. *)
Lemma status_flags_counterexample :
  exists row,
    transform_deal (RT := Reference.runtime) Sample.deal_won_back [] Sample.snapshot
      Sample.pipelines_dict Sample.stages_dict ∅ = Ret row /\
    dealstage_label row = "Lost to Won-back" /\
    is_won row = true /\ is_lost row = true /\ is_open row = false /\
    exactly_one (is_open row) (is_won row) (is_lost row) = false.
Proof. eexists. split; [evaluate|]. repeat split. Qed.

Section RowTheorems.
Context `{RT : PyRuntime}.

Variable d : deal.
Variable contacts : list contact.
Variable snapshot : datetime.
Variable pipelines_dict : pipelines_dict_t.
Variable stages_dict : stages_dict_t.
Variable owners_dict : owners_dict_t.

(** C1, amended: in every transformed row is_won and is_lost are the
    case-insensitive substring matches of "won" and "lost" against the
    resolved stage label (the empty label included), is_open is the
    negation of both, and exactly one of the three flags is true unless
    the label holds both words. *)
Theorem status_flags_of_label (row : deal_row) :
  transform_deal d contacts snapshot pipelines_dict stages_dict owners_dict = Ret row ->
  (is_won row = true <-> ci_substring "won" (dealstage_label row)) /\
  (is_lost row = true <-> ci_substring "lost" (dealstage_label row)) /\
  is_open row = negb (is_won row) && negb (is_lost row) /\
  (exactly_one (is_open row) (is_won row) (is_lost row) = true <->
   ~ (is_won row = true /\ is_lost row = true)).
Proof.
  intros H. apply transform_deal_fields in H
    as (_ & _ & _ & Hw & Hl & Ho & _).
  rewrite Ho, deal_status_open, <- Hw, <- Hl.
  split; [|split; [|split]].
  - rewrite Hw, deal_status_won. now apply contains_lower_ci.
  - rewrite Hl, deal_status_lost. now apply contains_lower_ci.
  - reflexivity.
  - apply exactly_one_flags.
Qed.

(** The coercion gives null exactly on a missing, empty or non-numeric
    value. *)
Lemma safe_float_none (v : option string) :
  safe_float v = None <-> not_numeric v.
Proof.
  unfold safe_float, not_numeric. destruct v as [s|].
  - destruct (String.eqb_spec s "") as [->|Hne].
    + split; [intros _; now right; left | reflexivity].
    + split.
      * intros H. right. right. now exists s.
      * intros [H|[H|(s' & H & Hf)]]; [discriminate | congruence | congruence].
  - split; [now left | reflexivity].
Qed.

Lemma safe_float_some (v : option string) (x : pyfloat) :
  coerces_to v x -> safe_float v = Some x.
Proof.
  intros (s & -> & Hne & Hf). unfold safe_float.
  now destruct (String.eqb_spec s "") as [->|_].
Qed.

(** C3: weighted_amount is null whenever the amount or the stage
    probability is missing, empty or non-numeric; when both coerce to
    numbers it is their product. *)
Theorem weighted_amount_null_or_product (row : deal_row) :
  transform_deal d contacts snapshot pipelines_dict stages_dict owners_dict = Ret row ->
  (not_numeric (props_get (properties d) "amount") \/
   not_numeric (props_get (properties d) "hs_deal_stage_probability") ->
   weighted_amount row = None) /\
  (forall a pr,
     coerces_to (props_get (properties d) "amount") a ->
     coerces_to (props_get (properties d) "hs_deal_stage_probability") pr ->
     weighted_amount row = Some (float_mul a pr)).
Proof.
  intros H. apply transform_deal_fields in H
    as (_ & _ & _ & _ & _ & _ & Ha & Hp & Hw & _).
  rewrite Hw, Ha, Hp. split.
  - intros [Hn|Hn]; apply safe_float_none in Hn; rewrite Hn;
      [reflexivity | now destruct (safe_float _)].
  - intros a pr Hca Hcp.
    now rewrite (safe_float_some _ _ Hca), (safe_float_some _ _ Hcp).
Qed.

(** C5: when the deal has no stage id, or the entered-stage timestamp
    keyed by its stage id is absent, empty or unparseable,
    days_in_current_stage equals days_since_created; when it parses,
    days_in_current_stage is the whole-day difference between the
    snapshot instant and the entered-stage instant. *)
Theorem stage_duration_or_fallback (row : deal_row) :
  transform_deal d contacts snapshot pipelines_dict stages_dict owners_dict = Ret row ->
  let dealstage_id := props_get_or_empty (properties d) "dealstage" in
  let entered :=
    props_get (properties d) (String.append "hs_date_entered_" dealstage_id) in
  (dealstage_id = "" \/ entered = None \/ entered = Some "" \/
   parse_timestamp_to_datetime entered = Ret None ->
   days_in_current_stage row = days_since_created row) /\
  (forall e,
     dealstage_id <> "" ->
     parse_timestamp_to_datetime entered = Ret (Some e) ->
     days_in_current_stage row = Some (whole_days snapshot e)).
Proof.
  intros H dealstage_id entered. apply transform_deal_fields in H
    as (_ & _ & _ & _ & _ & _ & _ & _ & _ & _ & (ent & Hent & Hd) & _).
  fold dealstage_id in Hent. unfold stage_entry_days in Hent. fold entered in Hent.
  split.
  - intros Hcase. enough (ent = None) as -> by exact Hd.
    destruct Hcase as [Hs|[He|[He|He]]].
    + rewrite Hs in Hent. now inversion Hent.
    + rewrite He in Hent. cbn [option_truthy] in Hent.
      destruct (PyStr.truthy dealstage_id); now inversion Hent.
    + rewrite He in Hent. cbn [option_truthy PyStr.truthy] in Hent.
      destruct (PyStr.truthy dealstage_id); now inversion Hent.
    + destruct (PyStr.truthy dealstage_id); [|now inversion Hent].
      destruct (option_truthy entered); [|now inversion Hent].
      rewrite He in Hent. now inversion Hent.
  - intros e Hs He.
    assert (Hts : PyStr.truthy dealstage_id = true) by now destruct dealstage_id.
    assert (Hte : option_truthy entered = true).
    { destruct entered as [[|c t]|]; [discriminate He | reflexivity | discriminate He]. }
    rewrite Hts, Hte, He in Hent. cbn [bind days_since] in Hent.
    pose proof (parse_timestamp_aware _ _ He) as Htz.
    destruct (tzinfo snapshot) as [o|] eqn:Hsn.
    + rewrite (sub_days_aware snapshot e o 0 Hsn Htz) in Hent.
      cbn [bind] in Hent. inversion Hent; subst ent. exact Hd.
    + unfold DateTime.sub_days in Hent. rewrite Hsn, Htz in Hent. discriminate Hent.
Qed.

(** With an aware snapshot instant the transformer returns a row. *)
Lemma transform_deal_returns (o : Z) :
  tzinfo snapshot = Some o ->
  returns (transform_deal d contacts snapshot pipelines_dict stages_dict owners_dict).
Proof.
  intros Hsn. unfold transform_deal.
  destruct (resolve_labels _ _ _ _) as [pl dl].
  destruct (if PyStr.truthy (props_get_or_empty _ "hubspot_owner_id") then _ else _)
    as [on oe].
  destruct (parse_timestamp_returns (props_get (properties d) "createdate"))
    as [created Hc]. rewrite Hc. cbn [bind].
  destruct (parse_timestamp_returns (props_get (properties d) "closedate"))
    as [closed Hcl]. rewrite Hcl. cbn [bind].
  destruct (parse_timestamp_returns (props_get (properties d) "hs_lastmodifieddate"))
    as [modified Hm]. rewrite Hm. cbn [bind].
  rewrite (days_since_aware _ _ _ _ Hsn Hc). cbn [bind].
  assert (Hent : returns (stage_entry_days (properties d)
                   (props_get_or_empty (properties d) "dealstage") snapshot)).
  { unfold stage_entry_days. destruct (PyStr.truthy _); [|now eexists].
    destruct (option_truthy _); [|now eexists].
    destruct (parse_timestamp_returns
                (props_get (properties d)
                   (String.append "hs_date_entered_"
                      (props_get_or_empty (properties d) "dealstage"))))
      as [ent He]. rewrite He. cbn [bind].
    rewrite (days_since_aware _ _ _ _ Hsn He). now eexists. }
  destruct Hent as [ent Hent]. rewrite Hent. cbn [bind].
  assert (Hdtc : returns (match closed with
                          | Some c => n <- DateTime.sub_days c snapshot ;; Ret (Some n)
                          | None => Ret None
                          end)).
  { destruct closed as [c|]; [|now eexists].
    rewrite (sub_days_aware c snapshot 0 o (parse_timestamp_aware _ _ Hcl) Hsn).
    now eexists. }
  destruct Hdtc as [dtc Hdtc]. rewrite Hdtc. cbn [bind].
  destruct (convert_returns (props_get (properties d) "closedate")) as [ci Hci].
  rewrite Hci. cbn [bind].
  destruct (convert_returns (props_get (properties d) "createdate")) as [cr Hcr].
  rewrite Hcr. cbn [bind]. now eexists.
Qed.

End RowTheorems.

(** ** The reference runtime on present-day timestamps *)

Section ReferenceEpoch.

Lemma civil_dates_ok_all (n : nat) (start days : Z) :
  Reference.civil_dates_ok n start = true ->
  start <= days < start + Z.of_nat n ->
  Reference.civil_date_ok days = true.
Proof.
  revert start. induction n as [|k IH]; intros start H Hd; [lia|].
  cbn [Reference.civil_dates_ok] in H. apply andb_true_iff in H as [H0 H1].
  destruct (Z.eq_dec days start) as [->|Hne]; [exact H0|].
  apply (IH (start + 1) H1). lia.
Qed.

(** Every day from 1970-01-01 to 2099-12-31 gets its date. *)
Lemma civil_date_ok_until_2100 (days : Z) :
  0 <= days < 47482 -> Reference.civil_date_ok days = true.
Proof.
  intros Hd.
  assert (Hall : Reference.civil_dates_ok (Z.to_nat 47482) 0 = true)
    by (vm_compute; reflexivity).
  apply (civil_dates_ok_all _ 0 days Hall). lia.
Qed.

Lemma time_of_day (sod : Z) :
  0 <= sod < 86400 ->
  0 <= sod / 3600 <= 23 /\ 0 <= (sod mod 3600) / 60 <= 59 /\ 0 <= sod mod 60 <= 59 /\
  sod / 3600 * 3600 + (sod mod 3600) / 60 * 60 + sod mod 60 = sod.
Proof.
  intros Hs.
  pose proof (Z.div_mod sod 3600 ltac:(lia)) as H1.
  pose proof (Z.mod_pos_bound sod 3600 ltac:(lia)) as H2.
  pose proof (Z.div_mod (sod mod 3600) 60 ltac:(lia)) as H3.
  pose proof (Z.mod_pos_bound (sod mod 3600) 60 ltac:(lia)) as H4.
  pose proof (Z.mod_pos_bound sod 60 ltac:(lia)) as H5.
  assert (H6 : (sod mod 3600) mod 60 = sod mod 60).
  { apply Z.mod_mod_divide. exists 60. reflexivity. }
  rewrite H6 in H3.
  assert (0 <= sod / 3600 <= 23).
  { split; [apply Z.div_pos; lia|].
    assert (sod / 3600 < 24) by (apply Z.div_lt_upper_bound; lia). lia. }
  assert (0 <= sod mod 3600 / 60 <= 59).
  { split; [apply Z.div_pos; lia|].
    assert (sod mod 3600 / 60 < 60) by (apply Z.div_lt_upper_bound; lia). lia. }
  repeat split; lia.
Qed.

(** Until 2100 the reference runtime converts every timestamp
    exactly. *)
Lemma reference_exact_until_2100 (ms : Z) :
  0 <= ms < year_2100_ms -> exact_at (RT := Reference.runtime) ms.
Proof.
  unfold year_2100_ms. intros Hms. unfold exact_at.
  cbn [utc_fields_of_ms Reference.runtime]. unfold Reference.exact_utc_fields.
  pose proof (Z.div_mod ms 1000 ltac:(lia)) as Hq.
  pose proof (Z.mod_pos_bound ms 1000 ltac:(lia)) as Hr.
  set (secs := ms / 1000) in *.
  assert (Hsecs : 0 <= secs < 4102444800).
  { split; [apply Z.div_pos; lia|]. apply Z.div_lt_upper_bound; lia. }
  pose proof (Z.div_mod secs 86400 ltac:(lia)) as Hq2.
  pose proof (Z.mod_pos_bound secs 86400 ltac:(lia)) as Hr2.
  set (days := secs / 86400) in *. set (sod := secs mod 86400) in *.
  assert (Hdays : 0 <= days < 47482).
  { split; [apply Z.div_pos; lia|]. apply Z.div_lt_upper_bound; lia. }
  pose proof (civil_date_ok_until_2100 days Hdays) as Hok.
  unfold Reference.civil_date_ok in Hok.
  destruct (Reference.civil_from_days days) as [[y m] d].
  repeat (apply andb_true_iff in Hok as [Hok ?]).
  destruct (time_of_day sod Hr2) as (Hh & Hmi & Hss & Hsum).
  assert (Hy : (y <=? 9999) = true) by assumption. rewrite Hy.
  assert (Hvalid : DateTime.valid_fields y m d (sod / 3600) (sod mod 3600 / 60)
                     (sod mod 60) (ms mod 1000 * 1000) = true).
  { unfold DateTime.valid_fields.
    repeat (apply andb_true_iff; split); try assumption; apply Z.leb_le; lia. }
  unfold DateTime.make. rewrite Hvalid. eexists. split; [reflexivity|].
  split; [exact Hvalid|].
  unfold DateTime.civil_micros, DateTime.toordinal, unix_epoch_micros.
  cbn [year month day hour minute second microsecond].
  match goal with H : (_ =? _) = true |- _ => apply Z.eqb_eq in H; rewrite H end.
  lia.
Qed.

End ReferenceEpoch.

(** ** The theorems at sample inputs *)

(** The supported encodings of one instant, 2024-01-31T09:00:00 UTC, and
    two texts that are not timestamps. *)
Example convert_epoch_ms :
  convert_hubspot_timestamp (RT := Reference.runtime) (Some "1706691600000") =
  Ret (Some "2024-01-31T09:00:00+00:00").
Proof. reflexivity. Qed.

Example convert_iso_fraction_z :
  convert_hubspot_timestamp (RT := Reference.runtime) (Some "2024-01-31T09:00:00.000Z") =
  Ret (Some "2024-01-31T09:00:00+00:00").
Proof. reflexivity. Qed.

Example convert_iso_z :
  convert_hubspot_timestamp (RT := Reference.runtime) (Some "2024-01-31T09:00:00Z") =
  Ret (Some "2024-01-31T09:00:00+00:00").
Proof. reflexivity. Qed.

Example convert_iso_plain :
  convert_hubspot_timestamp (RT := Reference.runtime) (Some "2024-01-31T09:00:00") =
  Ret (Some "2024-01-31T09:00:00+00:00").
Proof. reflexivity. Qed.

Example convert_iso_offset :
  convert_hubspot_timestamp (RT := Reference.runtime) (Some "2024-01-31T09:00:00+00:00") =
  Ret (Some "2024-01-31T09:00:00+00:00").
Proof. reflexivity. Qed.

Example convert_bare_date :
  convert_hubspot_timestamp (RT := Reference.runtime) (Some "2024-01-31") =
  Ret (Some "2024-01-31T00:00:00+00:00").
Proof. reflexivity. Qed.

Example convert_other_zone :
  convert_hubspot_timestamp (RT := Reference.runtime) (Some "2024-01-31T09:00:00+05:30") =
  Ret None.
Proof. reflexivity. Qed.

Example convert_garbage :
  convert_hubspot_timestamp (RT := Reference.runtime) (Some "garbage") = Ret None.
Proof. reflexivity. Qed.

Lemma convert_hubspot_timestamp_total_witness :
  (PyStr.isdigit "1706691600000" = true /\
   convert_hubspot_timestamp (RT := Reference.runtime) (Some "1706691600000") =
     Ret (Some "2024-01-31T09:00:00+00:00")) /\
  (PyStr.isdigit "1893456000000" = true /\
   exact_at (RT := Reference.runtime) (PyStr.int_of_digits "1893456000000") /\
   exists dt,
     convert_hubspot_timestamp (RT := Reference.runtime) (Some "1893456000000") =
       Ret (Some (DateTime.isoformat dt)) /\
     DateTime.isoformat dt = "2030-01-01T00:00:00+00:00" /\
     DateTime.valid dt = true /\ tzinfo dt = utc /\
     instant_micros dt = unix_epoch_micros + 1893456000000 * 1000) /\
  (PyStr.isdigit "0" = true /\
   exact_at (RT := Reference.runtime) (PyStr.int_of_digits "0") /\
   exists dt,
     convert_hubspot_timestamp (RT := Reference.runtime) (Some "0") =
       Ret (Some (DateTime.isoformat dt)) /\
     DateTime.isoformat dt = "1970-01-01T00:00:00+00:00" /\
     instant_micros dt = unix_epoch_micros) /\
  ("2024-01-01T09:00:00.000Z" <> "" /\
   PyStr.isdigit "2024-01-01T09:00:00.000Z" = false /\
   convert_hubspot_timestamp (RT := Reference.runtime) (Some "2024-01-01T09:00:00.000Z") =
     Ret (first_success "2024-01-01T09:00:00.000Z" timestamp_formats)) /\
  (convert_hubspot_timestamp (RT := Reference.runtime) (Some "") = Ret None) /\
  ((forall fmt, In fmt timestamp_formats -> exists e, try_format "garbage" fmt = Raise e) /\
   convert_hubspot_timestamp (RT := Reference.runtime) (Some "garbage") = Ret None) /\
  (convert_hubspot_timestamp (RT := Reference.runtime) (Some "2024-02-20") =
     Ret (Some "2024-02-20T00:00:00+00:00") /\
   utc_suffixed "2024-02-20T00:00:00+00:00").
Proof.
  split; [|split; [|split; [|split; [|split; [|split]]]]].
  - split; [reflexivity|].
    exact (proj1 (proj2 (proj2
             (convert_hubspot_timestamp_total (RT := Reference.runtime)
                (Some "1706691600000")))) _ eq_refl eq_refl).
  - assert (Hx : exact_at (RT := Reference.runtime) (PyStr.int_of_digits "1893456000000")).
    { apply reference_exact_until_2100. vm_compute. split; [discriminate | reflexivity]. }
    split; [reflexivity|]. split; [exact Hx|].
    destruct (proj1 (proj2 (proj2 (proj2
                (convert_hubspot_timestamp_total (RT := Reference.runtime)
                   (Some "1893456000000"))))) _ eq_refl eq_refl Hx)
      as (dt & Hc & Hv & Htz & Hi).
    exists dt. split; [exact Hc|].
    assert (He : convert_hubspot_timestamp (RT := Reference.runtime)
                   (Some "1893456000000") = Ret (Some "2030-01-01T00:00:00+00:00"))
      by evaluate.
    split; [congruence|]. split; [exact Hv|]. split; [exact Htz | exact Hi].
  - assert (Hx : exact_at (RT := Reference.runtime) (PyStr.int_of_digits "0")).
    { apply reference_exact_until_2100. vm_compute. split; [discriminate | reflexivity]. }
    split; [reflexivity|]. split; [exact Hx|].
    destruct (proj1 (proj2 (proj2 (proj2
                (convert_hubspot_timestamp_total (RT := Reference.runtime)
                   (Some "0"))))) _ eq_refl eq_refl Hx)
      as (dt & Hc & _ & _ & Hi).
    exists dt. split; [exact Hc|].
    assert (He : convert_hubspot_timestamp (RT := Reference.runtime)
                   (Some "0") = Ret (Some "1970-01-01T00:00:00+00:00"))
      by evaluate.
    split; [congruence|]. rewrite Hi. reflexivity.
  - split; [discriminate|]. split; [reflexivity|].
    apply (proj1 (proj2 (proj2 (proj2 (proj2
             (convert_hubspot_timestamp_total (RT := Reference.runtime)
                (Some "2024-01-01T09:00:00.000Z")))))) _ eq_refl);
      [discriminate | reflexivity].
  - apply (proj1 (proj2 (convert_hubspot_timestamp_total (RT := Reference.runtime)
                           (Some "")))).
    right. reflexivity.
  - assert (Hall : forall fmt, In fmt timestamp_formats ->
                     exists e, try_format "garbage" fmt = Raise e).
    { intros fmt Hin. simpl in Hin.
      destruct Hin as [<-|[<-|[<-|[<-|[<-|[]]]]]]; eexists; evaluate. }
    split; [exact Hall|].
    exact (proj1 (proj2 (proj2 (proj2 (proj2 (proj2
             (convert_hubspot_timestamp_total (RT := Reference.runtime)
                (Some "garbage"))))))) _ eq_refl eq_refl Hall).
  - split; [reflexivity|].
    apply (proj2 (proj2 (proj2 (proj2 (proj2 (proj2
             (convert_hubspot_timestamp_total (RT := Reference.runtime)
                (Some "2024-02-20")))))))).
    reflexivity.
Defined.

Lemma status_flags_of_label_witness :
  exists row,
    transform_deal (RT := Reference.runtime) Sample.deal_in_evaluation [] Sample.snapshot
      Sample.pipelines_dict Sample.stages_dict ∅ = Ret row /\
    is_open row = true /\
    (is_won row = true <-> ci_substring "won" (dealstage_label row)) /\
    (is_lost row = true <-> ci_substring "lost" (dealstage_label row)) /\
    is_open row = negb (is_won row) && negb (is_lost row) /\
    (exactly_one (is_open row) (is_won row) (is_lost row) = true <->
     ~ (is_won row = true /\ is_lost row = true)).
Proof.
  eexists. split; [evaluate|]. split; [reflexivity|].
  apply (status_flags_of_label (RT := Reference.runtime) Sample.deal_in_evaluation [] Sample.snapshot
           Sample.pipelines_dict Sample.stages_dict ∅).
  evaluate.
Defined.

Lemma weighted_amount_null_or_product_witness :
  (exists row,
     transform_deal (RT := Reference.runtime) Sample.deal_in_evaluation [] Sample.snapshot
       Sample.pipelines_dict Sample.stages_dict ∅ = Ret row /\
     coerces_to (RT := Reference.runtime)
       (props_get (properties Sample.deal_in_evaluation) "amount")
       (Reference.FloatLit "1000.50") /\
     coerces_to (RT := Reference.runtime)
       (props_get (properties Sample.deal_in_evaluation) "hs_deal_stage_probability")
       (Reference.FloatLit "0.4") /\
     weighted_amount row =
       Some (Reference.FloatMul (Reference.FloatLit "1000.50") (Reference.FloatLit "0.4"))) /\
  (exists row,
     transform_deal (RT := Reference.runtime) Sample.deal_won_back [] Sample.snapshot
       Sample.pipelines_dict Sample.stages_dict ∅ = Ret row /\
     not_numeric (RT := Reference.runtime)
       (props_get (properties Sample.deal_won_back) "amount") /\
     weighted_amount row = None).
Proof.
  assert (Ha : coerces_to (RT := Reference.runtime)
                 (props_get (properties Sample.deal_in_evaluation) "amount")
                 (Reference.FloatLit "1000.50")).
  { exists "1000.50". split; [evaluate|]. split; [discriminate | reflexivity]. }
  assert (Hp : coerces_to (RT := Reference.runtime)
                 (props_get (properties Sample.deal_in_evaluation)
                    "hs_deal_stage_probability")
                 (Reference.FloatLit "0.4")).
  { exists "0.4". split; [evaluate|]. split; [discriminate | reflexivity]. }
  assert (Hn : not_numeric (RT := Reference.runtime)
                 (props_get (properties Sample.deal_won_back) "amount")).
  { right. left. evaluate. }
  split.
  - eexists. split; [evaluate|]. split; [exact Ha|]. split; [exact Hp|].
    refine (proj2 (weighted_amount_null_or_product (RT := Reference.runtime)
                     Sample.deal_in_evaluation [] Sample.snapshot
                     Sample.pipelines_dict Sample.stages_dict ∅ _ _) _ _ Ha Hp).
    evaluate.
  - eexists. split; [evaluate|]. split; [exact Hn|].
    refine (proj1 (weighted_amount_null_or_product (RT := Reference.runtime)
                     Sample.deal_won_back [] Sample.snapshot
                     Sample.pipelines_dict Sample.stages_dict ∅ _ _) (or_introl Hn)).
    evaluate.
Defined.

Lemma stage_duration_or_fallback_witness :
  (exists row e,
     transform_deal (RT := Reference.runtime) Sample.deal_in_evaluation [] Sample.snapshot
       Sample.pipelines_dict Sample.stages_dict ∅ = Ret row /\
     props_get_or_empty (properties Sample.deal_in_evaluation) "dealstage" <> "" /\
     parse_timestamp_to_datetime (RT := Reference.runtime)
       (props_get (properties Sample.deal_in_evaluation) "hs_date_entered_s1") =
       Ret (Some e) /\
     days_in_current_stage row = Some (whole_days Sample.snapshot e) /\
     whole_days Sample.snapshot e = 29) /\
  (exists row,
     transform_deal (RT := Reference.runtime) Sample.deal_won_back [] Sample.snapshot
       Sample.pipelines_dict Sample.stages_dict ∅ = Ret row /\
     props_get (properties Sample.deal_won_back) "hs_date_entered_s3" = None /\
     days_in_current_stage row = days_since_created row /\
     days_since_created row = Some 10).
Proof.
  split.
  - eexists. eexists.
    assert (Hs : props_get_or_empty (properties Sample.deal_in_evaluation) "dealstage" <> "").
    { vm_compute. discriminate. }
    split; [evaluate|]. split; [exact Hs|].
    split; [evaluate|]. split; [|evaluate].
    refine (proj2 (stage_duration_or_fallback (RT := Reference.runtime)
                     Sample.deal_in_evaluation [] Sample.snapshot
                     Sample.pipelines_dict Sample.stages_dict ∅ _ _) _ Hs _);
      evaluate.
  - eexists. split; [evaluate|].
    assert (Hn : props_get (properties Sample.deal_won_back) "hs_date_entered_s3" = None).
    { evaluate. }
    split; [exact Hn|]. split; [|evaluate].
    refine (proj1 (stage_duration_or_fallback (RT := Reference.runtime)
                     Sample.deal_won_back [] Sample.snapshot
                     Sample.pipelines_dict Sample.stages_dict ∅ _ _) _).
    + evaluate.
    + right. left. evaluate.
Defined.

(** ** The snapshot loader *)

Section LoadFacts.
Context `{RT : PyRuntime}.

Lemma filter_same_date (date : string) (df : list deal_row) :
  Forall (fun r => snapshot_date r = date) df ->
  List.filter (fun r => String.eqb (snapshot_date r) date) df = df /\
  List.filter (fun r => negb (String.eqb (snapshot_date r) date)) df = [].
Proof.
  induction 1 as [|r df Hr _ [IH1 IH2]]; [now split|].
  simpl. rewrite Hr, String.eqb_refl. simpl. now rewrite IH1, IH2.
Qed.

Lemma filter_deleted (date : string) (t : list deal_row) :
  List.filter (fun r => String.eqb (snapshot_date r) date)
    (List.filter (fun r => negb (String.eqb (snapshot_date r) date)) t) = [].
Proof.
  induction t as [|r t IH]; [reflexivity|].
  simpl. destruct (String.eqb (snapshot_date r) date) eqn:He; simpl; [exact IH|].
  now rewrite He.
Qed.

Lemma filter_kept (date : string) (t : list deal_row) :
  List.filter (fun r => negb (String.eqb (snapshot_date r) date))
    (List.filter (fun r => negb (String.eqb (snapshot_date r) date)) t) =
  List.filter (fun r => negb (String.eqb (snapshot_date r) date)) t.
Proof.
  induction t as [|r t IH]; [reflexivity|].
  simpl. destruct (String.eqb (snapshot_date r) date) eqn:He; simpl; [exact IH|].
  now rewrite He, IH.
Qed.

(** A load of a non-empty batch deletes the rows of the batch's date and
    appends the batch. *)
Lemma load_deletes_then_appends (df : list deal_row) (wh : warehouse) (date : string) :
  df <> [] -> date <> "" -> Forall (fun r => snapshot_date r = date) df ->
  load_to_bigquery df wh =
  (Z.of_nat (length df), append_rows df (delete_snapshot date (ensure_table_exists wh))).
Proof.
  intros Hne Hd Hall. destruct df as [|first rest]; [congruence|].
  unfold load_to_bigquery. inversion Hall as [|? ? Hf _]; subst.
  now destruct (snapshot_date first) as [|c t]; [congruence|].
Qed.

(** After a load the table holds, for the batch's date, the batch, and
    for the other dates what it held. *)
Lemma load_once (df : list deal_row) (wh : warehouse) (date : string) :
  df <> [] -> date <> "" -> Forall (fun r => snapshot_date r = date) df ->
  rows_for date (snd (load_to_bigquery df wh)) = df /\
  rows_not_for date (snd (load_to_bigquery df wh)) = rows_not_for date wh.
Proof.
  intros Hne Hd Hall. rewrite (load_deletes_then_appends df wh date Hne Hd Hall).
  destruct (filter_same_date date df Hall) as [Hsame Hother].
  destruct wh as [t|]; cbn [snd ensure_table_exists delete_snapshot append_rows
                            rows_for rows_not_for].
  - rewrite !List.filter_app, filter_deleted, filter_kept, Hsame, Hother.
    now rewrite app_nil_r.
  - cbn [List.filter app]. now rewrite Hsame, Hother.
Qed.

(** C2: loading the same non-empty batch of one snapshot date (a date,
    hence a non-empty text) twice leaves, for that date, exactly the rows
    of the batch, each as often as the batch holds it, and leaves the rows
    of other dates as they were: each load deletes the rows of the date
    and appends the batch. *)
Theorem load_twice_idempotent (df : list deal_row) (wh : warehouse) (date : string) :
  df <> [] -> date <> "" -> Forall (fun r => snapshot_date r = date) df ->
  let wh1 := snd (load_to_bigquery df wh) in
  let wh2 := snd (load_to_bigquery df wh1) in
  rows_for date wh1 = df /\
  rows_for date wh2 = df /\
  rows_not_for date wh2 = rows_not_for date wh /\
  fst (load_to_bigquery df wh1) = Z.of_nat (length df).
Proof.
  intros Hne Hd Hall wh1 wh2.
  destruct (load_once df wh date Hne Hd Hall) as [H1 H1'].
  destruct (load_once df wh1 date Hne Hd Hall) as [H2 H2'].
  repeat split; try assumption.
  - unfold wh2. now rewrite H2'.
  - now rewrite (load_deletes_then_appends df wh1 date Hne Hd Hall).
Qed.

End LoadFacts.

Lemma load_twice_idempotent_witness :
  Sample.rows <> [] /\ "2024-03-01" <> "" /\
  Forall (fun r => snapshot_date r = "2024-03-01") Sample.rows /\
  rows_for "2024-03-01"
    (snd (load_to_bigquery Sample.rows (snd (load_to_bigquery Sample.rows None)))) =
  Sample.rows.
Proof.
  assert (Hne : Sample.rows <> []) by (value_of Sample.rows; discriminate).
  assert (Hall : Forall (fun r => snapshot_date r = "2024-03-01") Sample.rows).
  { value_of Sample.rows. repeat constructor. }
  split; [exact Hne|]. split; [discriminate|]. split; [exact Hall|].
  apply (load_twice_idempotent (RT := Reference.runtime) Sample.rows None "2024-03-01"
           Hne ltac:(discriminate) Hall).
Defined.

(** ** The paginated fetcher *)

Section FetchFacts.
Variable get_page : deals_api.
Variable target : option string.

(** The wait after a rate-limit answer doubles with the retry count and
    never exceeds 60 seconds. *)
Lemma rate_limit_wait_capped (retry_count : Z) :
  Z.min 60 (10 * 2 ^ retry_count) <= 60 /\
  (1 <= retry_count <= 2 -> Z.min 60 (10 * 2 ^ retry_count) = 10 * 2 ^ retry_count).
Proof.
  split; [lia|]. intros H.
  assert (retry_count = 1 \/ retry_count = 2) as [-> | ->] by lia; reflexivity.
Qed.

Lemma sleeps_app (a b : list event) : sleeps (a ++ b) = sleeps a ++ sleeps b.
Proof. unfold sleeps. apply flat_map_app. Qed.

(** Every wait of the inner loop is at most 60 seconds. *)
Lemma page_attempts_waits (gas : nat) (retry_count : Z) (st : dstate) :
  Forall (fun s => s <= 60) (sleeps (dtrace st)) ->
  Forall (fun s => s <= 60) (sleeps (dtrace (snd (page_attempts get_page target gas retry_count st)))).
Proof.
  revert retry_count st. induction gas as [|g IH]; intros rc st H.
  - simpl. now destruct (rc <? max_retries).
  - cbn [page_attempts]. destruct (rc <? max_retries); [|exact H].
    assert (H1 : Forall (fun s => s <= 60) (sleeps (dtrace (dcall st)))).
    { cbn [dcall dtrace]. rewrite sleeps_app. apply Forall_app. split; [exact H|constructor]. }
    destruct (get_page (calls st) (after st)) as [resp|e].
    + destruct (paging_next resp); cbn [snd dtrace demit];
        rewrite ?sleeps_app; repeat (apply Forall_app; split); try exact H1;
        repeat constructor.
    + destruct e as [status m| | | | |];
        try (destruct (_ >=? _); [cbn [snd dtrace demit]; rewrite sleeps_app;
               apply Forall_app; split; [exact H1 | repeat constructor]
             | apply IH; cbn [dtrace demit]; rewrite sleeps_app;
               apply Forall_app; split; [exact H1 | repeat constructor; lia]]).
      destruct (status =? 429).
      * apply IH. cbn [dtrace demit]. rewrite sleeps_app.
        apply Forall_app. split; [exact H1|]. repeat constructor. lia.
      * destruct (_ >=? _); [cbn [snd dtrace demit]; rewrite sleeps_app;
               apply Forall_app; split; [exact H1 | repeat constructor]
             | apply IH; cbn [dtrace demit]; rewrite sleeps_app;
               apply Forall_app; split; [exact H1 | repeat constructor; lia]].
Qed.

End FetchFacts.

Section FetchOutcomes.
Variable get_page : deals_api.
Variable target : option string.

(** While every call is answered with a rate-limit error the inner loop
    ends by exhausting its condition: it does not raise. *)
Lemma page_attempts_rate_limited (gas : nat) (retry_count : Z) (st : dstate) :
  (forall n a, exists m, get_page n a = Raise (ApiException 429 m)) ->
  fst (page_attempts get_page target gas retry_count st) = Exhausted.
Proof.
  intros H. revert retry_count st. induction gas as [|g IH]; intros rc st.
  - simpl. now destruct (rc <? max_retries).
  - cbn [page_attempts]. destruct (rc <? max_retries); [|reflexivity].
    destruct (H (calls st) (after st)) as [m ->]. cbn [Z.eqb].
    change (429 =? 429) with true. cbv iota. apply IH.
Qed.

(** Under persistent rate limiting the fetcher neither returns nor
    raises, however many passes it is given. *)
Lemma fetch_all_deals_rate_limited_forever (fuel : nat) :
  (forall n a, exists m, get_page n a = Raise (ApiException 429 m)) ->
  fetch_all_deals get_page target fuel = None.
Proof.
  intros H. unfold fetch_all_deals. generalize dstate0.
  induction fuel as [|f IH]; intros st; [reflexivity|].
  cbn [pages].
  pose proof (page_attempts_rate_limited (Z.to_nat max_retries) 0
                {| all_deals := all_deals st; after := after st;
                   page_count := page_count st + 1; calls := calls st;
                   dtrace := dtrace st |} H) as Hex.
  destruct (page_attempts _ _ _ _ _) as [[] st2]; simpl in Hex; try discriminate.
  apply IH.
Qed.

(** An error that is not a rate limit, met at every call, is raised
    when the retry ceiling is reached. *)
Lemma page_attempts_error_raised (e : exn) (gas : nat) (retry_count : Z) (st : dstate) :
  (forall n a, get_page n a = Raise e) ->
  (forall m, e <> ApiException 429 m) ->
  0 <= retry_count < max_retries ->
  (Z.to_nat (max_retries - retry_count) <= gas)%nat ->
  fst (page_attempts get_page target gas retry_count st) = Raised e.
Proof.
  intros H Hne. revert retry_count st. induction gas as [|g IH]; intros rc st Hrc Hgas.
  - unfold max_retries in *. lia.
  - cbn [page_attempts]. destruct (Z.ltb_spec rc max_retries) as [_|Hge]; [|lia].
    rewrite H.
    assert (Hstep : forall st', rc + 1 < max_retries ->
              fst (page_attempts get_page target g (rc + 1) st') = Raised e).
    { intros st' Hlt. apply IH; [lia|]. unfold max_retries in *. lia. }
    destruct e as [status m| | | | |];
      try (destruct (Z.geb_spec (rc + 1) max_retries) as [Hg|Hl];
           [reflexivity | apply Hstep; lia]).
    destruct (Z.eqb_spec status 429) as [->|Hs]; [now contradiction (Hne m)|].
    destruct (Z.geb_spec (rc + 1) max_retries) as [Hg|Hl];
      [reflexivity | apply Hstep; lia].
Qed.

Lemma fetch_all_deals_error_raised (e : exn) (fuel : nat) :
  (forall n a, get_page n a = Raise e) ->
  (forall m, e <> ApiException 429 m) ->
  exists st, fetch_all_deals get_page target (S fuel) = Some (Raise e, st).
Proof.
  intros H Hne. unfold fetch_all_deals. cbn [pages].
  pose proof (page_attempts_error_raised e (Z.to_nat max_retries) 0
                {| all_deals := all_deals dstate0; after := after dstate0;
                   page_count := page_count dstate0 + 1; calls := calls dstate0;
                   dtrace := dtrace dstate0 |} H Hne) as Hr.
  destruct (page_attempts _ _ _ _ _) as [r st2]. simpl in Hr.
  rewrite Hr; [now exists st2 | unfold max_retries; lia | reflexivity].
Qed.

End FetchOutcomes.

(** C7, at the failing input: five rate-limit answers in a row on the
    first page, then the page.  The waits are 20, 40, 60, 60, 60 seconds,
    capped at 60; the fifth failure reaches the retry ceiling, and the
    fetcher raises nothing: it starts a new round of attempts on the same
    page, counts it as page 2, and returns the deals. *)
Theorem fetch_all_deals_rate_limit_exhaustion :
  exists st,
    fetch_all_deals Sample.rate_limited_five_times None 2 =
      Some (Ret [Sample.deal_in_evaluation], st) /\
    sleeps (dtrace st) = [20; 40; 60; 60; 60] /\
    calls st = 6%nat /\
    page_count st = 2.
Proof. eexists. split; [evaluate|]. repeat split. Qed.

(** ** Associated contacts *)

Section ContactFacts.
Variable api : contacts_api.
Variable deal_id : string.
Variable max_retries : nat.

Lemma contact_loop_transient_step (cid : string) (i : nat) (rest : list nat)
    (st : cstate) (e : exn) :
  get_by_id api (calls_get st) cid = Raise e -> transient e ->
  contact_loop api max_retries cid (i :: rest) st =
  contact_loop api max_retries cid rest (backoff max_retries cid i (count_get cid st)).
Proof.
  intros H Ht. cbn [contact_loop]. rewrite H.
  destruct e; cbn [transient] in Ht; try contradiction; try reflexivity; now rewrite Ht.
Qed.

Lemma contact_loop_fatal_step (cid : string) (i : nat) (rest : list nat)
    (st : cstate) (e : exn) :
  get_by_id api (calls_get st) cid = Raise e -> ~ transient e ->
  exists evs,
    contact_loop api max_retries cid (i :: rest) st =
      (None, emit evs (count_get cid st)) /\
    sleeps evs = [].
Proof.
  intros H Ht. cbn [contact_loop]. rewrite H.
  destruct e as [status m|m|m|m|m|m]; cbn [transient] in Ht.
  - destruct (status =? 403); eexists; split; reflexivity.
  - now contradiction Ht.
  - destruct (connection_message _); [now contradiction Ht|]. eexists; split; reflexivity.
  - destruct (connection_message _); [now contradiction Ht|]. eexists; split; reflexivity.
  - destruct (connection_message _); [now contradiction Ht|]. eexists; split; reflexivity.
  - destruct (connection_message _); [now contradiction Ht|]. eexists; split; reflexivity.
Qed.

Lemma contact_loop_success_step (cid : string) (i : nat) (rest : list nat)
    (st : cstate) (p : props) :
  get_by_id api (calls_get st) cid = Ret p ->
  contact_loop api max_retries cid (i :: rest) st =
  (Some (make_contact cid p), count_get cid st).
Proof. intros H. cbn [contact_loop]. now rewrite H. Qed.

(** When every hydration call raises, no contact is returned. *)
Lemma contact_loop_all_fail (cid : string) (attempts : list nat) (st : cstate) :
  (forall n id, exists e, get_by_id api n id = Raise e) ->
  fst (contact_loop api max_retries cid attempts st) = None.
Proof.
  intros H. revert st. induction attempts as [|i rest IH]; intros st; [reflexivity|].
  cbn [contact_loop]. destruct (H (calls_get st) cid) as [e ->].
  destruct e as [status m|m|m|m|m|m];
    try (destruct (connection_message _); [apply IH | reflexivity]).
  - now destruct (status =? 403).
  - apply IH.
Qed.

Lemma fetch_contacts_all_fail (ids : list string) (st : cstate) :
  (forall n id, exists e, get_by_id api n id = Raise e) ->
  fst (fetch_contacts api max_retries ids [] st) = [].
Proof.
  intros H. revert st. induction ids as [|cid rest IH]; intros st; [reflexivity|].
  cbn [fetch_contacts].
  pose proof (contact_loop_all_fail cid (seq 0 max_retries) st H) as Hn.
  destruct (contact_loop _ _ _ _ _) as [[c|] st1]; simpl in Hn; [discriminate|].
  apply IH.
Qed.

(** The function returns a list: none of its paths raises. *)
Lemma association_loop_returns (attempts : list nat) (contacts : list contact)
    (contact_ids : list string) (st : cstate) :
  returns (fst (association_loop api deal_id max_retries attempts contacts contact_ids st)).
Proof.
  revert st. induction attempts as [|i rest IH]; intros st; [now eexists|].
  cbn [association_loop].
  destruct (list_associations api deal_id contact_ids st) as [[ids|e] st1].
  - destruct ids as [|id ids]; [now eexists|].
    destruct (fetch_contacts _ _ _ _ _) as [cs st2]. now eexists.
  - destruct e as [status m|m|m|m|m|m]; try apply IH;
      (destruct (forbidden_message _); [now eexists|]);
      (destruct (connection_message _); [apply IH | now eexists]).
Qed.

Lemma association_loop_all_fail (attempts : list nat) (contact_ids : list string)
    (st : cstate) :
  (forall n id, exists e, get_by_id api n id = Raise e) ->
  fst (association_loop api deal_id max_retries attempts [] contact_ids st) = Ret [].
Proof.
  intros H. revert st. induction attempts as [|i rest IH]; intros st; [reflexivity|].
  cbn [association_loop].
  destruct (list_associations api deal_id contact_ids st) as [[ids|e] st1].
  - destruct ids as [|id ids]; [reflexivity|].
    pose proof (fetch_contacts_all_fail (id :: ids) st1 H) as Hf.
    destruct (fetch_contacts _ _ _ _ _) as [cs st2]. simpl in Hf. now subst.
  - destruct e as [status m|m|m|m|m|m]; try apply IH;
      (destruct (forbidden_message _); [reflexivity|]);
      (destruct (connection_message _); [apply IH | reflexivity]).
Qed.

(** Every pass of the contact loop starts with a call for its id. *)
Lemma contact_loop_trace (cid : string) (attempts : list nat) (st : cstate) :
  exists evs,
    trace (snd (contact_loop api max_retries cid attempts st)) = trace st ++ evs /\
    (attempts <> [] -> In (Call "contacts.get_by_id" cid) evs).
Proof.
  revert st. induction attempts as [|i rest IH]; intros st.
  - exists []. split; [now rewrite app_nil_r | congruence].
  - assert (Hback : exists evs,
              trace (snd (contact_loop api max_retries cid rest
                            (backoff max_retries cid i (count_get cid st)))) =
                trace st ++ evs /\ In (Call "contacts.get_by_id" cid) evs).
    { destruct (IH (backoff max_retries cid i (count_get cid st))) as (evs & He & _).
      unfold backoff in *.
      destruct (Z.of_nat i <? Z.of_nat max_retries - 1);
        cbn [emit count_get trace] in He; rewrite <- !app_assoc in He;
        eexists; (split; [exact He|]); now left. }
    assert (Hstop : forall evs', exists evs,
              trace (emit evs' (count_get cid st)) = trace st ++ evs /\
              In (Call "contacts.get_by_id" cid) evs).
    { intros evs'. cbn [emit count_get trace]. rewrite <- app_assoc.
      eexists. split; [reflexivity|]. now left. }
    cbn [contact_loop].
    destruct (get_by_id api (calls_get st) cid) as [p|e].
    + cbn [snd count_get trace]. eexists. split; [reflexivity|]. intros _. now left.
    + destruct e as [status m|m|m|m|m|m].
      * destruct (status =? 403); cbn [snd];
          [destruct (Hstop [Log ERROR (MsgPermissionError cid)]) as (evs & He & Hin)
          |destruct (Hstop [Log WARNING (MsgCouldNotFetch cid m)]) as (evs & He & Hin)];
          exists evs; now split.
      * destruct Hback as (evs & He & Hin). exists evs. now split.
      * destruct (connection_message _);
          [destruct Hback as (evs & He & Hin)
          |cbn [snd]; destruct (Hstop [Log WARNING (MsgCouldNotFetch cid
                                   (exn_str (AttributeError m)))]) as (evs & He & Hin)];
          exists evs; now split.
      * destruct (connection_message _);
          [destruct Hback as (evs & He & Hin)
          |cbn [snd]; destruct (Hstop [Log WARNING (MsgCouldNotFetch cid
                                   (exn_str (ValueError m)))]) as (evs & He & Hin)];
          exists evs; now split.
      * destruct (connection_message _);
          [destruct Hback as (evs & He & Hin)
          |cbn [snd]; destruct (Hstop [Log WARNING (MsgCouldNotFetch cid
                                   (exn_str (OverflowError m)))]) as (evs & He & Hin)];
          exists evs; now split.
      * destruct (connection_message _);
          [destruct Hback as (evs & He & Hin)
          |cbn [snd]; destruct (Hstop [Log WARNING (MsgCouldNotFetch cid
                                   (exn_str (OtherError m)))]) as (evs & He & Hin)];
          exists evs; now split.
Qed.

Lemma calls_to_app (ep : string) (a b : list event) :
  calls_to ep (a ++ b) = calls_to ep a ++ calls_to ep b.
Proof. unfold calls_to. apply flat_map_app. Qed.

Lemma calls_to_in (ep arg : string) (evs : list event) :
  In (Call ep arg) evs -> In arg (calls_to ep evs).
Proof.
  intros H. unfold calls_to. apply in_flat_map. exists (Call ep arg).
  split; [exact H|]. rewrite String.eqb_refl. now left.
Qed.

(** No failure of one id keeps the loop from calling for the others:
    once the batch is done, every id has been asked for; and what was
    already hydrated is kept. *)
Lemma fetch_contacts_trace (ids : list string) (contacts : list contact) (st : cstate) :
  (0 < max_retries)%nat ->
  exists evs,
    trace (snd (fetch_contacts api max_retries ids contacts st)) = trace st ++ evs /\
    forall id, In id ids -> In (Call "contacts.get_by_id" id) evs.
Proof.
  intros Hmax. revert contacts st. induction ids as [|cid rest IH]; intros contacts st.
  - exists []. split; [now rewrite app_nil_r | intros id []].
  - cbn [fetch_contacts].
    destruct (contact_loop_trace cid (seq 0 max_retries) st) as (evs1 & He1 & Hin1).
    assert (Hne : seq 0 max_retries <> []) by (destruct max_retries; [lia | discriminate]).
    destruct (contact_loop api max_retries cid (seq 0 max_retries) st) as [[c|] st1];
      cbn [snd] in He1;
      [destruct (IH (contacts ++ [c]) st1) as (evs2 & He2 & Hin2)
      |destruct (IH contacts st1) as (evs2 & He2 & Hin2)];
      rewrite He1, <- app_assoc in He2; exists (evs1 ++ evs2);
      (split; [exact He2|]); intros id [<-|Hid];
      apply in_or_app; [left; auto | right; auto | left; auto | right; auto].
Qed.

End ContactFacts.

Section ContactTheorem.
Variable api : contacts_api.
Variable deal_id : string.

Lemma backoff_first (what : string) (st : cstate) :
  backoff 3 what 0 st = emit [Log WARNING (MsgRetrying what 1); Sleep 1] st.
Proof. reflexivity. Qed.

Lemma backoff_second (what : string) (st : cstate) :
  backoff 3 what 1 st = emit [Log WARNING (MsgRetrying what 2); Sleep 2] st.
Proof. reflexivity. Qed.

Lemma backoff_third (what : string) (st : cstate) :
  backoff 3 what 2 st = emit [Log WARNING (MsgGaveUp what 3)] st.
Proof. reflexivity. Qed.

Lemma contact_loop_fatal (cid : string) (st : cstate) (e : exn) :
  get_by_id api (calls_get st) cid = Raise e -> ~ transient e ->
  let r := contact_loop api 3 cid (seq 0 3) st in
  fst r = None /\ calls_get (snd r) = S (calls_get st) /\
  sleeps (trace (snd r)) = sleeps (trace st).
Proof.
  intros H Ht. cbn [seq].
  destruct (contact_loop_fatal_step api 3 cid 0%nat [1; 2]%nat st e H Ht)
    as (evs & -> & Hs).
  cbn [fst snd emit count_get calls_get trace].
  rewrite !sleeps_app, Hs. cbn [sleeps flat_map app]. now rewrite !app_nil_r.
Qed.

Lemma contact_loop_transient (cid : string) (st : cstate) :
  (forall n, exists e, get_by_id api n cid = Raise e /\ transient e) ->
  let r := contact_loop api 3 cid (seq 0 3) st in
  fst r = None /\ calls_get (snd r) = (calls_get st + 3)%nat /\
  sleeps (trace (snd r)) = sleeps (trace st) ++ [1; 2].
Proof.
  intros H. cbn [seq].
  destruct (H (calls_get st)) as (e1 & H1 & T1).
  rewrite (contact_loop_transient_step api 3 cid _ _ st e1 H1 T1).
  set (st1 := backoff 3 cid 0 (count_get cid st)).
  destruct (H (calls_get st1)) as (e2 & H2 & T2).
  rewrite (contact_loop_transient_step api 3 cid _ _ st1 e2 H2 T2).
  set (st2 := backoff 3 cid 1 (count_get cid st1)).
  destruct (H (calls_get st2)) as (e3 & H3 & T3).
  rewrite (contact_loop_transient_step api 3 cid _ _ st2 e3 H3 T3).
  cbn [contact_loop fst snd]. subst st2 st1.
  rewrite backoff_first, backoff_second, backoff_third.
  cbn [emit count_get calls_get trace].
  rewrite !sleeps_app. cbn [sleeps flat_map app].
  rewrite !app_nil_r. split; [reflexivity|]. split; [lia|].
  now rewrite <- app_assoc.
Qed.

Lemma transientb_spec (e : exn) : transientb e = true <-> transient e.
Proof.
  destruct e; cbn [transientb transient]; try tauto; split; try tauto; discriminate.
Qed.

(** The policy by kind of answer: one call and no wait for a permission
    failure, three calls and waits of 1 and 2 seconds for a transient
    failure, one call and no wait for any other error. *)
Lemma attempts_of_cases :
  (forall m, attempts_of (Raise (ApiException 403 m)) = 1%nat /\
             waits_of (Raise (ApiException 403 m)) = []) /\
  (forall e, transient e ->
             attempts_of (Raise e) = 3%nat /\ waits_of (Raise e) = [1; 2]) /\
  (forall e, ~ transient e ->
             attempts_of (Raise e) = 1%nat /\ waits_of (Raise e) = []) /\
  (forall p, attempts_of (Ret p) = 1%nat /\ waits_of (Ret p) = []).
Proof.
  split; [now split|]. split; [|split; [|now split]].
  - intros e He. apply transientb_spec in He.
    cbn [attempts_of waits_of]. now rewrite He.
  - intros e He. cbn [attempts_of waits_of].
    destruct (transientb e) eqn:Hb; [|now split].
    now apply transientb_spec in Hb.
Qed.

(** An error that is not transient ends the attempts for its id with
    one log line. *)
Lemma contact_loop_fatal_log (cid : string) (i : nat) (rest : list nat)
    (st : cstate) (e : exn) :
  get_by_id api (calls_get st) cid = Raise e -> transientb e = false ->
  exists lvl msg,
    contact_loop api 3 cid (i :: rest) st =
    (None, emit [Log lvl msg] (count_get cid st)).
Proof.
  intros H Hb. cbn [contact_loop]. rewrite H.
  destruct e as [status m|m|m|m|m|m]; cbn [transientb] in Hb;
    try discriminate Hb; try (rewrite Hb; do 2 eexists; reflexivity).
  destruct (status =? 403); do 2 eexists; reflexivity.
Qed.

(** One contact id against a hydration endpoint that answers every call
    alike. *)
Lemma contact_loop_stationary (answer : string -> outcome props) (cid : string)
    (st : cstate) :
  (forall n id, get_by_id api n id = answer id) ->
  exists st' evs,
    contact_loop api 3 cid (seq 0 3) st =
      (match answer cid with
       | Ret p => Some (make_contact cid p)
       | Raise _ => None
       end, st') /\
    trace st' = trace st ++ evs /\
    calls_to "contacts.get_by_id" evs = repeat cid (attempts_of (answer cid)) /\
    sleeps evs = waits_of (answer cid).
Proof.
  intros Hst. cbn [seq].
  destruct (answer cid) as [p|e] eqn:Ha.
  - rewrite (contact_loop_success_step api 3 cid _ _ st p)
      by (rewrite Hst; exact Ha).
    exists (count_get cid st), [Call "contacts.get_by_id" cid].
    split; [reflexivity|]. split; [reflexivity|]. split; reflexivity.
  - cbn [attempts_of waits_of]. destruct (transientb e) eqn:Hb.
    + assert (Ht : transient e) by now apply transientb_spec.
      assert (He : forall n, get_by_id api n cid = Raise e)
        by (intros n; rewrite Hst; exact Ha).
      rewrite (contact_loop_transient_step api 3 cid _ _ st e (He _) Ht).
      rewrite (contact_loop_transient_step api 3 cid _ _ _ e (He _) Ht).
      rewrite (contact_loop_transient_step api 3 cid _ _ _ e (He _) Ht).
      cbn [contact_loop].
      rewrite backoff_first, backoff_second, backoff_third.
      eexists. eexists. split; [reflexivity|].
      cbn [emit count_get trace]. rewrite <- !app_assoc. cbn [app].
      split; [reflexivity|]. split; reflexivity.
    + destruct (contact_loop_fatal_log cid 0%nat [1; 2]%nat st e) as (lvl & msg & Hrun);
        [rewrite Hst; exact Ha | exact Hb |].
      rewrite Hrun.
      exists (emit [Log lvl msg] (count_get cid st)),
             [Call "contacts.get_by_id" cid; Log lvl msg].
      split; [reflexivity|]. cbn [emit count_get trace]. rewrite <- app_assoc.
      split; [reflexivity|]. split; reflexivity.
Qed.

(** A batch of ids against such an endpoint: the failures of one id
    leave the others as they are. *)
Lemma fetch_contacts_stationary (answer : string -> outcome props)
    (ids : list string) (contacts : list contact) (st : cstate) :
  (forall n id, get_by_id api n id = answer id) ->
  exists st' evs,
    fetch_contacts api 3 ids contacts st = (contacts ++ hydrated answer ids, st') /\
    trace st' = trace st ++ evs /\
    calls_to "contacts.get_by_id" evs =
      flat_map (fun id => repeat id (attempts_of (answer id))) ids /\
    sleeps evs = flat_map (fun id => waits_of (answer id)) ids.
Proof.
  intros Hst. revert contacts st. induction ids as [|cid rest IH]; intros contacts st.
  - exists st, []. cbn [fetch_contacts hydrated flat_map].
    rewrite !app_nil_r. repeat split.
  - cbn [fetch_contacts].
    destruct (contact_loop_stationary answer cid st Hst)
      as (st1 & evs1 & Hrun & Htr1 & Hc1 & Hs1).
    rewrite Hrun. unfold hydrated. cbn [flat_map]. fold (hydrated answer rest).
    destruct (answer cid) as [p|e].
    + destruct (IH (contacts ++ [make_contact cid p]) st1)
        as (st2 & evs2 & Hrest & Htr2 & Hc2 & Hs2).
      exists st2, (evs1 ++ evs2). rewrite Hrest, <- app_assoc.
      split; [reflexivity|]. rewrite Htr2, Htr1, <- app_assoc.
      split; [reflexivity|].
      rewrite calls_to_app, sleeps_app, Hc1, Hc2, Hs1, Hs2. split; reflexivity.
    + destruct (IH contacts st1) as (st2 & evs2 & Hrest & Htr2 & Hc2 & Hs2).
      exists st2, (evs1 ++ evs2). rewrite Hrest.
      split; [reflexivity|]. rewrite Htr2, Htr1, <- app_assoc.
      split; [reflexivity|].
      rewrite calls_to_app, sleeps_app, Hc1, Hc2, Hs1, Hs2. split; reflexivity.
Qed.

(** The whole fetch once the association listing has answered. *)
Lemma fetch_associated_contacts_listed (ids : list string) :
  v4_get_page api 0 = Ret ids ->
  fetch_associated_contacts api deal_id 3 =
  match ids with
  | [] => (Ret [], count_v4 deal_id cstate0)
  | _ => let '(contacts, st) := fetch_contacts api 3 ids [] (count_v4 deal_id cstate0) in
         (Ret contacts, st)
  end.
Proof.
  intros Hv4. unfold fetch_associated_contacts. cbn [seq association_loop].
  unfold list_associations. cbn [cstate0 calls_v4]. rewrite Hv4.
  now destruct ids.
Qed.

(** C8: the contact fetch returns a list and never raises, and the list
    is empty when every hydration call fails.  Inside the loop of one
    contact id, a permission failure ends the attempts after one call
    without a wait, a transient failure is tried three times with waits
    of 1 and 2 seconds and then skipped, any other error ends the
    attempts after one call; and every id of a batch is asked for.  For
    the function as a whole, once the association listing has answered
    with the ids of the deal: every listed id is asked for, whatever
    happened to the others; and when each id is answered alike at every
    call, the function returns the contacts of exactly the ids that are
    answered, in the order of the listing, its hydration calls are one
    per id for an answer, a permission failure or any other error that
    is not transient and three per id for a transient failure, and its
    waits are 1 and 2 seconds for each id with a transient failure and
    none for the others. *)
Theorem fetch_associated_contacts_resilient :
  returns (fst (fetch_associated_contacts api deal_id 3)) /\
  ((forall n id, exists e, get_by_id api n id = Raise e) ->
   fst (fetch_associated_contacts api deal_id 3) = Ret []) /\
  (forall cid st,
     let r := contact_loop api 3 cid (seq 0 3) st in
     ((exists m, get_by_id api (calls_get st) cid = Raise (ApiException 403 m)) ->
      fst r = None /\ calls_get (snd r) = S (calls_get st) /\
      sleeps (trace (snd r)) = sleeps (trace st)) /\
     ((forall n, exists e, get_by_id api n cid = Raise e /\ transient e) ->
      fst r = None /\ calls_get (snd r) = (calls_get st + 3)%nat /\
      sleeps (trace (snd r)) = sleeps (trace st) ++ [1; 2]) /\
     (forall e, get_by_id api (calls_get st) cid = Raise e -> ~ transient e ->
      fst r = None /\ calls_get (snd r) = S (calls_get st) /\
      sleeps (trace (snd r)) = sleeps (trace st))) /\
  (forall ids contacts st id,
     In id ids ->
     In id (calls_to "contacts.get_by_id"
              (trace (snd (fetch_contacts api 3 ids contacts st))))) /\
  (forall ids,
     v4_get_page api 0 = Ret ids ->
     (forall id, In id ids ->
        In id (calls_to "contacts.get_by_id"
                 (trace (snd (fetch_associated_contacts api deal_id 3))))) /\
     (forall answer,
        (forall n id, get_by_id api n id = answer id) ->
        fst (fetch_associated_contacts api deal_id 3) = Ret (hydrated answer ids) /\
        calls_to "contacts.get_by_id"
          (trace (snd (fetch_associated_contacts api deal_id 3))) =
          flat_map (fun id => repeat id (attempts_of (answer id))) ids /\
        sleeps (trace (snd (fetch_associated_contacts api deal_id 3))) =
          flat_map (fun id => waits_of (answer id)) ids)).
Proof.
  assert (Hbatch : forall ids contacts st id,
            In id ids ->
            In id (calls_to "contacts.get_by_id"
                     (trace (snd (fetch_contacts api 3 ids contacts st))))).
  { intros ids contacts st id Hin.
    destruct (fetch_contacts_trace api 3 ids contacts st ltac:(lia)) as (evs & -> & Hall).
    rewrite calls_to_app. apply in_or_app. right. now apply calls_to_in, Hall. }
  split; [apply association_loop_returns|].
  split; [intros H; now apply association_loop_all_fail|].
  split; [|split; [exact Hbatch|]].
  - intros cid st r. split; [|split].
    + intros [m Hm]. apply (contact_loop_fatal cid st _ Hm). simpl. tauto.
    + apply contact_loop_transient.
    + intros e He Ht. now apply (contact_loop_fatal cid st e).
  - intros ids Hv4. rewrite (fetch_associated_contacts_listed ids Hv4). split.
    + intros id Hin. destruct ids as [|id0 ids']; [contradiction|].
      pose proof (Hbatch (id0 :: ids') [] (count_v4 deal_id cstate0) id Hin) as Hc.
      destruct (fetch_contacts api 3 (id0 :: ids') [] (count_v4 deal_id cstate0))
        as [contacts st2]. exact Hc.
    + intros answer Hst. destruct ids as [|id0 ids']; [repeat split|].
      destruct (fetch_contacts_stationary answer (id0 :: ids') []
                  (count_v4 deal_id cstate0) Hst)
        as (st2 & evs & Hrun & Htr & Hc & Hs).
      rewrite Hrun. cbn [fst snd app]. rewrite Htr.
      split; [reflexivity|].
      rewrite calls_to_app, sleeps_app, Hc, Hs. split; reflexivity.
Qed.

(** A hydration call that fails twice for a transient reason and then
    answers gives the contact, after waits of 1 and 2 seconds. *)
Lemma contact_loop_third_time (cid : string) (st : cstate) (e1 e2 : exn) (p : props) :
  get_by_id api (calls_get st) cid = Raise e1 -> transient e1 ->
  get_by_id api (S (calls_get st)) cid = Raise e2 -> transient e2 ->
  get_by_id api (S (S (calls_get st))) cid = Ret p ->
  let r := contact_loop api 3 cid (seq 0 3) st in
  fst r = Some (make_contact cid p) /\
  sleeps (trace (snd r)) = sleeps (trace st) ++ [1; 2].
Proof.
  intros H1 T1 H2 T2 H3. cbn [seq].
  rewrite (contact_loop_transient_step api 3 cid _ _ st e1 H1 T1).
  set (st1 := backoff 3 cid 0 (count_get cid st)).
  assert (C1 : calls_get st1 = S (calls_get st)) by reflexivity.
  rewrite <- C1 in H2.
  rewrite (contact_loop_transient_step api 3 cid _ _ st1 e2 H2 T2).
  set (st2 := backoff 3 cid 1 (count_get cid st1)).
  assert (C2 : calls_get st2 = S (S (calls_get st))) by reflexivity.
  rewrite <- C2 in H3.
  rewrite (contact_loop_success_step api 3 cid _ _ st2 p H3).
  cbn [fst snd]. split; [reflexivity|].
  subst st2 st1. rewrite backoff_first, backoff_second.
  cbn [emit count_get calls_get trace].
  rewrite !sleeps_app. cbn [sleeps flat_map app].
  rewrite !app_nil_r. now rewrite <- app_assoc.
Qed.

End ContactTheorem.

Lemma fetch_associated_contacts_resilient_witness :
  ((forall n id, exists e, get_by_id Sample.failing_contacts n id = Raise e) /\
   fst (fetch_associated_contacts Sample.failing_contacts "101" 3) = Ret [] /\
   (exists m, get_by_id Sample.failing_contacts (calls_get cstate0) "c1" =
              Raise (ApiException 403 m)) /\
   calls_get (snd (contact_loop Sample.failing_contacts 3 "c1" (seq 0 3) cstate0)) = 1%nat /\
   (forall n, exists e, get_by_id Sample.failing_contacts n "c2" = Raise e /\ transient e) /\
   calls_get (snd (contact_loop Sample.failing_contacts 3 "c2" (seq 0 3) cstate0)) = 3%nat /\
   sleeps (trace (snd (contact_loop Sample.failing_contacts 3 "c2" (seq 0 3) cstate0))) =
     [1; 2] /\
   (get_by_id Sample.failing_contacts (calls_get cstate0) "c3" =
      Raise (ValueError "malformed answer") /\
    ~ transient (ValueError "malformed answer")) /\
   calls_get (snd (contact_loop Sample.failing_contacts 3 "c3" (seq 0 3) cstate0)) = 1%nat /\
   In "c3" ["c1"; "c2"; "c3"] /\
   In "c3" (calls_to "contacts.get_by_id"
              (trace (snd (fetch_contacts Sample.failing_contacts 3
                             ["c1"; "c2"; "c3"] [] cstate0))))) /\
  (v4_get_page mixed_contacts 0 = Ret ["c1"; "c2"; "c3"; "c4"; "c5"] /\
   (forall n id, get_by_id mixed_contacts n id = mixed_answer id) /\
   fst (fetch_associated_contacts mixed_contacts "101" 3) =
     Ret [make_contact "c3" {[ "firstname" := Some "Ada"; "lastname" := Some "Lovelace" ]};
          make_contact "c5" {[ "firstname" := Some "Ada"; "lastname" := Some "Lovelace" ]}] /\
   calls_to "contacts.get_by_id"
     (trace (snd (fetch_associated_contacts mixed_contacts "101" 3))) =
     ["c1"; "c2"; "c2"; "c2"; "c3"; "c4"; "c5"] /\
   sleeps (trace (snd (fetch_associated_contacts mixed_contacts "101" 3))) = [1; 2] /\
   In "c5" (calls_to "contacts.get_by_id"
              (trace (snd (fetch_associated_contacts mixed_contacts "101" 3))))).
Proof.
  split.
  - pose proof (fetch_associated_contacts_resilient Sample.failing_contacts "101")
      as (_ & Hempty & Hid & Hbatch & _).
    assert (Hall : forall n id, exists e, get_by_id Sample.failing_contacts n id = Raise e).
    { intros n id. cbn [get_by_id Sample.failing_contacts].
      destruct (String.eqb id "c1"); [eexists; reflexivity|].
      destruct (String.eqb id "c2"); eexists; reflexivity. }
    assert (H403 : exists m, get_by_id Sample.failing_contacts (calls_get cstate0) "c1" =
                             Raise (ApiException 403 m)) by (eexists; reflexivity).
    assert (Htr : forall n, exists e,
                    get_by_id Sample.failing_contacts n "c2" = Raise e /\ transient e).
    { intros n. eexists. split; [reflexivity | exact I]. }
    assert (Hnt : ~ transient (ValueError "malformed answer")).
    { cbn. discriminate. }
    assert (Hin : In "c3" ["c1"; "c2"; "c3"]) by (right; right; now left).
    split; [exact Hall|]. split; [exact (Hempty Hall)|].
    split; [exact H403|].
    split; [exact (proj1 (proj2 (proj1 (Hid "c1" cstate0) H403)))|].
    split; [exact Htr|].
    split; [exact (proj1 (proj2 (proj1 (proj2 (Hid "c2" cstate0)) Htr)))|].
    split; [exact (proj2 (proj2 (proj1 (proj2 (Hid "c2" cstate0)) Htr)))|].
    split; [split; [reflexivity | exact Hnt]|].
    split; [exact (proj1 (proj2 (proj2 (proj2 (Hid "c3" cstate0)) _ eq_refl Hnt)))|].
    split; [exact Hin|].
    exact (Hbatch ["c1"; "c2"; "c3"] [] cstate0 "c3" Hin).
  - pose proof (fetch_associated_contacts_resilient mixed_contacts "101")
      as (_ & _ & _ & _ & Hlisted).
    destruct (Hlisted ["c1"; "c2"; "c3"; "c4"; "c5"] eq_refl) as [Hasked Hpolicy].
    assert (Hst : forall n id, get_by_id mixed_contacts n id = mixed_answer id)
      by reflexivity.
    destruct (Hpolicy mixed_answer Hst) as (Hres & Hcalls & Hwaits).
    split; [reflexivity|]. split; [exact Hst|].
    split; [exact Hres|]. split; [exact Hcalls|]. split; [exact Hwaits|].
    apply Hasked. do 4 right. now left.
Defined.

(** ** Reference data *)

Section PipelineFacts.

Lemma add_stages_target (pid : string) (stages : list api_stage) (idx : nat)
    (st : pipelines_state) :
  ps_target (add_stages pid idx stages st) = ps_target st /\
  ps_log (add_stages pid idx stages st) = ps_log st.
Proof.
  revert idx st. induction stages as [|s rest IH]; intros idx st; [now split|].
  cbn [add_stages]. destruct (IH (S idx) (add_stage pid idx s st)) as [-> ->].
  now split.
Qed.

Lemma add_pipeline_other (pl : api_pipeline) (st : pipelines_state) :
  p_label pl <> TARGET_PIPELINE_NAME ->
  ps_target (add_pipeline pl st) = ps_target st /\
  ps_log (add_pipeline pl st) = ps_log st.
Proof.
  intros Hne. unfold add_pipeline.
  destruct (add_stages_target (p_id pl) (p_stages pl) 0
    {| ps_pipelines :=
         ODict.set (p_id pl)
           {| pe_label := p_label pl; pe_stages := ∅; pe_stage_order := ∅ |}
           (ps_pipelines st);
       ps_stages := ps_stages st;
       ps_target :=
         if String.eqb (p_label pl) TARGET_PIPELINE_NAME then Some (p_id pl)
         else ps_target st;
       ps_log :=
         if String.eqb (p_label pl) TARGET_PIPELINE_NAME
         then ps_log st ++ [Log INFO (MsgFoundTargetPipeline TARGET_PIPELINE_NAME (p_id pl))]
         else ps_log st |}) as [-> ->].
  cbn [ps_target ps_log].
  destruct (String.eqb_spec (p_label pl) TARGET_PIPELINE_NAME); [contradiction|now split].
Qed.

Lemma add_pipelines_other (results : list api_pipeline) (st : pipelines_state) :
  Forall (fun pl => p_label pl <> TARGET_PIPELINE_NAME) results ->
  ps_target (add_pipelines results st) = ps_target st.
Proof.
  intros H. revert st. induction H as [|pl rest Hpl _ IH]; intros st; [reflexivity|].
  unfold add_pipelines in *. cbn [fold_left]. rewrite IH.
  apply add_pipeline_other, Hpl.
Qed.

(** When no pipeline bears the target name the loader returns no target
    id and warns, listing the labels of the pipelines it loaded. *)
Lemma fetch_pipelines_not_found (results : list api_pipeline) :
  Forall (fun pl => p_label pl <> TARGET_PIPELINE_NAME) results ->
  exists pipelines_dict stages_dict log,
    fetch_pipelines (Ret results) = (pipelines_dict, stages_dict, None, log) /\
    In (Log WARNING
          (MsgTargetPipelineNotFound TARGET_PIPELINE_NAME
             (map pe_label (ODict.values pipelines_dict)))) log.
Proof.
  intros H. unfold fetch_pipelines.
  rewrite (add_pipelines_other results _ H). cbn [ps_target target_missing].
  do 3 eexists. split; [reflexivity|].
  apply in_or_app. right. now left.
Qed.

(** When the listing raises, the only warning is that the pipelines
    could not be fetched; no label is listed. *)
Lemma fetch_pipelines_failure (e : exn) :
  fetch_pipelines (Raise e) =
  ([], ∅, None,
   [Log INFO MsgFetchingPipelines;
    Log WARNING (MsgCouldNotFetchPipelines (exn_str e))]).
Proof. reflexivity. Qed.

Lemma resolve_labels_empty (pipeline_id dealstage_id : string) :
  resolve_labels [] ∅ pipeline_id dealstage_id = ("", "").
Proof.
  unfold resolve_labels. cbn [ODict.get].
  destruct (PyStr.truthy pipeline_id); cbn; now rewrite lookup_empty.
Qed.

End PipelineFacts.

(** ** Pagination *)

Section Pagination.
Variable target : option string.

Lemma serve_next (done rest : list page) (pg : page) (a : option string) :
  serve (done ++ pg :: rest) (length done) a = Ret pg.
Proof.
  unfold serve. rewrite nth_error_app2 by lia. now rewrite Nat.sub_diag.
Qed.

(** One pass of the inner loop on a call that answers with a page. *)
Lemma page_attempts_page (get_page : deals_api) (gas : nat) (rc : Z) (st : dstate)
    (resp : page) :
  rc < max_retries ->
  get_page (calls st) (after st) = Ret resp ->
  page_attempts get_page target (S gas) rc st =
  let total := all_deals st ++ filter_page target (results resp) in
  let tr := (dtrace st ++ [Call "deals.get_page" (default "" (after st))]) ++
            [Log INFO (MsgPage (page_count st) (length (results resp))
                         (length (filter_page target (results resp))) (length total))] in
  match paging_next resp with
  | Some a =>
      (Break, {| all_deals := total; after := Some a; page_count := page_count st;
                 calls := S (calls st); dtrace := tr |})
  | None =>
      (Returned total,
       {| all_deals := total; after := after st; page_count := page_count st;
          calls := S (calls st);
          dtrace := tr ++ [Log INFO (MsgCompleted (length total))] |})
  end.
Proof.
  intros Hrc Hget. cbn [page_attempts].
  destruct (Z.ltb_spec rc max_retries) as [_|Hge]; [|lia].
  rewrite Hget. cbv zeta. now destruct (paging_next resp).
Qed.

Lemma pages_serve (rest done : list page) (st : dstate) :
  calls st = length done -> chained rest ->
  exists st',
    pages (serve (done ++ rest)) target (length rest) st =
    Some (Ret (all_deals st ++
               flat_map (fun pg => filter_page target (results pg)) rest), st').
Proof.
  revert done st. induction rest as [|pg rest IH]; intros done st Hc Hch; [contradiction|].
  cbn [length pages]. change (Z.to_nat max_retries) with 5%nat.
  rewrite (page_attempts_page (serve (done ++ pg :: rest)) 4 0 _ pg);
    [| reflexivity | cbn [calls after]; rewrite Hc; apply serve_next].
  cbv zeta. cbn [all_deals after page_count calls dtrace].
  destruct rest as [|pg2 rest].
  - cbn [chained] in Hch. rewrite Hch. cbn [flat_map].
    rewrite app_nil_r. eexists. reflexivity.
  - destruct Hch as [Hn Hch]. destruct (paging_next pg) as [a|]; [|congruence].
    match goal with
    | |- exists st', pages _ _ _ ?s = _ =>
        destruct (IH (done ++ [pg]) s) as [st' Hst']
    end.
    + cbn [calls]. rewrite Hc, length_app. cbn [length]. lia.
    + exact Hch.
    + rewrite <- app_assoc in Hst'. cbn [app all_deals] in Hst'.
      exists st'. rewrite Hst'. cbn [flat_map]. now rewrite <- app_assoc.
Qed.

(** Pages chained by cursors are all fetched, in order; with no target
    id nothing is filtered out. *)
Lemma fetch_all_deals_complete (page_list : list page) :
  chained page_list ->
  exists st,
    fetch_all_deals (serve page_list) target (length page_list) =
    Some (Ret (flat_map (fun pg => filter_page target (results pg)) page_list), st).
Proof.
  intros H. destruct (pages_serve page_list [] dstate0 eq_refl H) as [st Hst].
  exists st. exact Hst.
Qed.

End Pagination.

(** ** The run *)

Section RunFacts.
Context `{RT : PyRuntime}.

(** With an aware snapshot instant every deal gets its row. *)
Lemma transform_deals_returns (contacts_of : string -> contacts_api)
    (deals : list deal) (snapshot : datetime) (o : Z)
    (pipelines_dict : pipelines_dict_t) (stages_dict : stages_dict_t)
    (owners_dict : owners_dict_t) :
  tzinfo snapshot = Some o ->
  exists df,
    transform_deals contacts_of deals snapshot pipelines_dict stages_dict owners_dict =
      Ret df /\
    Forall2 (fun d row => exists contacts,
               transform_deal d contacts snapshot pipelines_dict stages_dict owners_dict =
               Ret row) deals df.
Proof.
  intros Hsn. induction deals as [|d rest (df & Hdf & Hall)].
  - exists []. split; [reflexivity | constructor].
  - cbn [transform_deals].
    destruct (association_loop_returns
                (contacts_of (props_get_str (properties d) "hs_object_id"))
                (props_get_str (properties d) "hs_object_id") 3 (seq 0 3) [] [] cstate0)
      as [contacts Hc].
    unfold fetch_associated_contacts. rewrite Hc. cbn [bind].
    destruct (transform_deal_returns d contacts snapshot pipelines_dict stages_dict
                owners_dict o Hsn) as [row Hrow].
    rewrite Hrow, Hdf. cbn [bind]. exists (row :: df). split; [reflexivity|].
    constructor; [now exists contacts | exact Hall].
Qed.

Lemma transform_deals_length (deals : list deal) (snapshot : datetime)
    (pipelines_dict : pipelines_dict_t) (stages_dict : stages_dict_t)
    (owners_dict : owners_dict_t) (df : list deal_row) :
  Forall2 (fun d row => exists contacts,
             transform_deal d contacts snapshot pipelines_dict stages_dict owners_dict =
             Ret row) deals df ->
  length df = length deals /\
  Forall (fun row => snapshot_date row = date_isoformat snapshot) df.
Proof.
  induction 1 as [|d row deals' df' (contacts & Hrow) _ [IHl IHf]]; [now split|].
  cbn [length]. split; [now rewrite IHl|]. constructor; [|exact IHf].
  now apply transform_deal_fields in Hrow
    as (_ & _ & _ & _ & _ & _ & _ & _ & _ & _ & _ & _ & ?).
Qed.

Lemma date_isoformat_truthy (dt : datetime) : date_isoformat dt <> "".
Proof. discriminate. Qed.

Variable fuel : nat.
Variable cfg : config.
Variable w : world.
Variable wh : warehouse.

(** What a run returns once the configuration is complete and the deal
    fetch has returned [deals]: the zero-deals result for no deals;
    otherwise the rows of all the deals are loaded and the summary counts
    them, unless the meetings branch raises. *)
Lemma run_after_fetch (deals : list deal) (st : dstate) :
  validate_environment cfg = Ret tt ->
  fetch_all_deals (deals_get_page w)
    (snd (fst (fetch_pipelines (pipelines_get_all w)))) fuel = Some (Ret deals, st) ->
  (deals = [] -> hubspot_to_bigquery_etl fuel cfg w wh = Some (no_deals_result, wh)) /\
  (deals <> [] ->
   exists df r,
     transform_deals (contacts_of w) deals (DateTime.replace_tzinfo utc (clock w))
       (fst (fst (fst (fetch_pipelines (pipelines_get_all w)))))
       (snd (fst (fst (fetch_pipelines (pipelines_get_all w))))) (owners w) = Ret df /\
     length df = length deals /\
     hubspot_to_bigquery_etl fuel cfg w wh = Some (r, snd (load_to_bigquery df wh)) /\
     rows_for (date_isoformat (DateTime.replace_tzinfo utc (clock w)))
       (snd (load_to_bigquery df wh)) = df /\
     r <> no_deals_result /\
     (forall n, meetings_etl w = Ret n ->
        status r = "success" /\
        deals_extracted r = Some (Z.of_nat (length deals)) /\
        rows_loaded r = Some (Z.of_nat (length deals)))).
Proof.
  intros Hv Hf. unfold hubspot_to_bigquery_etl. rewrite Hv.
  destruct (fetch_pipelines (pipelines_get_all w)) as [[[pd sd] tg] lg].
  cbn [fst snd] in *. rewrite Hf. split.
  - now intros ->.
  - intros Hne. destruct deals as [|d0 rest]; [congruence|].
    destruct (transform_deals_returns (contacts_of w) (d0 :: rest)
                (DateTime.replace_tzinfo utc (clock w)) 0 pd sd (owners w) eq_refl)
      as (df & Hdf & Hall).
    destruct (transform_deals_length _ _ _ _ _ _ Hall) as [Hlen Hdate].
    rewrite Hdf. exists df.
    assert (Hdfne : df <> []) by (destruct df; [discriminate Hlen | discriminate]).
    destruct (load_once df wh _ Hdfne (date_isoformat_truthy _) Hdate) as [Hrows _].
    pose proof (load_deletes_then_appends df wh _ Hdfne (date_isoformat_truthy _) Hdate)
      as Hload.
    destruct (load_to_bigquery df wh) as [n wh'] eqn:Hl. inversion Hload; subst n wh'.
    cbn [snd] in *.
    destruct (meetings_etl w) as [n|e]; eexists;
      (split; [reflexivity|]); (split; [exact Hlen|]); (split; [reflexivity|]);
      (split; [exact Hrows|]); (split; [discriminate|]).
    + intros n' _. rewrite Hlen. now repeat split.
    + intros n' Hn. discriminate Hn.
Qed.

(** Once the rows are loaded, a meetings branch that raises makes the
    run report that error; the table keeps the rows just loaded. *)
Lemma run_meetings_failure (deals : list deal) (st : dstate)
    (df : list deal_row) (e : exn) :
  validate_environment cfg = Ret tt ->
  fetch_all_deals (deals_get_page w)
    (snd (fst (fetch_pipelines (pipelines_get_all w)))) fuel = Some (Ret deals, st) ->
  deals <> [] ->
  transform_deals (contacts_of w) deals (DateTime.replace_tzinfo utc (clock w))
    (fst (fst (fst (fetch_pipelines (pipelines_get_all w)))))
    (snd (fst (fst (fetch_pipelines (pipelines_get_all w))))) (owners w) = Ret df ->
  meetings_etl w = Raise e ->
  hubspot_to_bigquery_etl fuel cfg w wh =
  Some (error_result e, snd (load_to_bigquery df wh)).
Proof.
  intros Hv Hf Hne Hdf Hm. unfold hubspot_to_bigquery_etl. rewrite Hv.
  destruct (fetch_pipelines (pipelines_get_all w)) as [[[pd sd] tg] lg].
  cbn [fst snd] in *. rewrite Hf.
  destruct deals as [|d0 rest]; [congruence|].
  rewrite Hdf. destruct (load_to_bigquery df wh) as [n wh'].
  rewrite Hm. reflexivity.
Qed.

End RunFacts.


Section RunTheorems.
Context `{RT : PyRuntime}.

Variable fuel : nat.
Variable cfg : config.
Variable w : world.
Variable wh : warehouse.



End RunTheorems.



(** ** Further properties of the age classifier *)

(** X1: for a fixed stage label the age status never improves as the days
    in the stage grow (Green, then Yellow, then Red), it is one of these
    three whenever the day count is known, and it is Unknown exactly when
    the day count is null. *)
Theorem age_status_monotone (label : string) (d1 d2 : Z) :
  d1 <= d2 ->
  severity (calculate_deal_age_status (Some d1) label) <=
    severity (calculate_deal_age_status (Some d2) label) <= 2 /\
  (forall days, calculate_deal_age_status days label = "Unknown" <-> days = None).
Proof.
  intros Hle. split.
  - rewrite !age_status_by_bucket.
    destruct (stage_bucket label); unfold bucket_age_status, by_boundaries;
      repeat match goal with
             | |- context [?a <=? ?b] => destruct (Z.leb_spec a b)
             end; cbn; lia.
  - intros [d|]; [|now split].
    split; [|discriminate]. rewrite age_status_by_bucket.
    destruct (stage_bucket label); unfold bucket_age_status, by_boundaries;
      repeat match goal with
             | |- context [?a <=? ?b] => destruct (Z.leb_spec a b)
             end; discriminate.
Qed.

Lemma age_status_monotone_witness :
  10 <= 40 /\
  severity (calculate_deal_age_status (Some 10) "Technical Evaluation") <=
    severity (calculate_deal_age_status (Some 40) "Technical Evaluation") <= 2.
Proof.
  split; [lia|]. apply (age_status_monotone "Technical Evaluation" 10 40). lia.
Defined.

(** ** Parsing a normalised timestamp *)

Section ParseRoundTrip.
Context `{RT : PyRuntime}.

Lemma make_valid (y m d hh mi ss us : Z) (dt : datetime) :
  DateTime.make y m d hh mi ss us = Ret dt -> DateTime.valid dt = true.
Proof.
  unfold DateTime.make. destruct (DateTime.valid_fields _ _ _ _ _ _ _) eqn:Hv;
    [|discriminate].
  intros [= <-]. exact Hv.
Qed.

Lemma strptime_valid (s fmt : string) (dt : datetime) :
  Strptime.strptime s fmt = Ret dt -> DateTime.valid dt = true.
Proof.
  unfold Strptime.strptime. destruct (Strptime.scan _ _ _) as [r|]; [|discriminate].
  apply make_valid.
Qed.

Lemma try_format_valid (s fmt iso : string) :
  try_format s fmt = Ret iso ->
  exists dt, iso = DateTime.isoformat dt /\ tzinfo dt = Some 0 /\
             DateTime.valid dt = true.
Proof.
  unfold try_format. destruct (Strptime.strptime _ _) as [dt|e] eqn:Hs; [|discriminate].
  cbn [bind]. intros [= <-]. exists (DateTime.replace_tzinfo utc dt).
  repeat split. exact (strptime_valid _ _ _ Hs).
Qed.

Lemma first_success_valid (s : string) (fmts : list string) (iso : string) :
  first_success s fmts = Some iso ->
  exists dt, iso = DateTime.isoformat dt /\ tzinfo dt = Some 0 /\
             DateTime.valid dt = true.
Proof.
  induction fmts as [|fmt rest IH]; [discriminate|].
  cbn [first_success]. destruct (try_format s fmt) as [iso'|e] eqn:Ht.
  - intros [= <-]. exact (try_format_valid _ _ _ Ht).
  - exact IH.
Qed.

Hypothesis runtime_fields_valid :
  forall ms dt, utc_fields_of_ms ms = Ret dt -> DateTime.valid dt = true.

Lemma convert_shape_valid (ts : option string) (iso : string) :
  convert_hubspot_timestamp ts = Ret (Some iso) ->
  exists dt, iso = DateTime.isoformat dt /\ tzinfo dt = Some 0 /\
             DateTime.valid dt = true.
Proof.
  unfold convert_hubspot_timestamp. destruct ts as [s|]; [|discriminate].
  destruct (negb (PyStr.truthy s)); [discriminate|].
  destruct (PyStr.isdigit s).
  - unfold fromtimestamp_utc. destruct (utc_fields_of_ms _) as [dt|e] eqn:Hf; simpl;
      [|discriminate].
    intros [= <-]. exists (DateTime.replace_tzinfo utc dt).
    repeat split. exact (runtime_fields_valid _ _ Hf).
  - destruct (_ || _); [|discriminate].
    rewrite try_formats_first_success. cbn [catch]. intros [= H].
    exact (first_success_valid s timestamp_formats iso H).
Qed.

(** X2: parse_timestamp_to_datetime never raises; it gives None exactly
    when the normaliser gives None, and otherwise the valid datetime in
    UTC whose ISO text is the normaliser's result (the runtime's
    [fromtimestamp] being taken to return valid civil fields). *)
Theorem parse_timestamp_round_trip (ts : option string) :
  match convert_hubspot_timestamp ts with
  | Ret (Some iso) =>
      exists dt, parse_timestamp_to_datetime ts = Ret (Some dt) /\
                 DateTime.isoformat dt = iso /\ tzinfo dt = utc /\
                 DateTime.valid dt = true
  | _ => parse_timestamp_to_datetime ts = Ret None
  end.
Proof.
  destruct (convert_hubspot_timestamp ts) as [[iso|]|e] eqn:Hc.
  - destruct (convert_shape_valid ts iso Hc) as (dt & -> & Htz & Hv).
    exists dt. repeat split; try assumption.
    unfold parse_timestamp_to_datetime. destruct ts as [s|]; [|discriminate].
    destruct (negb (PyStr.truthy s)) eqn:Hs.
    { unfold convert_hubspot_timestamp in Hc. rewrite Hs in Hc. discriminate. }
    rewrite Hc. cbn [bind]. rewrite isoformat_truthy. cbn [negb].
    now rewrite (fromisoformat_isoformat dt Hv Htz).
  - unfold parse_timestamp_to_datetime. destruct ts as [s|]; [|reflexivity].
    destruct (negb (PyStr.truthy s)); [reflexivity|]. now rewrite Hc.
  - destruct (convert_returns ts) as [r Hr]. congruence.
Qed.

End ParseRoundTrip.

Lemma reference_fields_valid (ms : Z) (dt : datetime) :
  utc_fields_of_ms (PyRuntime := Reference.runtime) ms = Ret dt ->
  DateTime.valid dt = true.
Proof.
  cbn [utc_fields_of_ms Reference.runtime]. unfold Reference.exact_utc_fields.
  destruct (Reference.civil_from_days _) as [[y m] d].
  destruct (y <=? 9999); [|discriminate]. apply make_valid.
Qed.

Lemma parse_timestamp_round_trip_witness :
  exists dt,
    parse_timestamp_to_datetime (RT := Reference.runtime) (Some "1706691600000") =
      Ret (Some dt) /\
    DateTime.isoformat dt = "2024-01-31T09:00:00+00:00" /\ tzinfo dt = utc /\
    DateTime.valid dt = true.
Proof.
  exact (parse_timestamp_round_trip (RT := Reference.runtime) reference_fields_valid
           (Some "1706691600000")).
Defined.

(** ** Normalising a normalised timestamp *)

Section ReplaceFacts.

Lemma prefix_refl (s : string) : String.prefix s s = true.
Proof.
  induction s as [|c s IH]; [reflexivity|].
  simpl. now destruct (Ascii.ascii_dec c c).
Qed.

Lemma drop_all (s : string) : PyStr.drop (String.length s) s = EmptyString.
Proof. induction s as [|c s IH]; [reflexivity | exact IH]. Qed.

Lemma replace_fuel_empty (fuel : nat) (old new : string) :
  PyStr.replace_fuel fuel old new EmptyString = EmptyString.
Proof. now destruct fuel. Qed.

Lemma length_append (a b : string) :
  String.length (String.append a b) = (String.length a + String.length b)%nat.
Proof.
  induction a as [|c a IH]; [reflexivity|].
  rewrite append_cons. simpl. now rewrite IH.
Qed.

(** Replacing [old] in a text that ends with it and whose body lacks the
    first character of [old]. *)
Lemma replace_fuel_suffix (c : ascii) (old' new body : string) (fuel : nat) :
  lacks c body = true ->
  (String.length body < fuel)%nat ->
  PyStr.replace_fuel fuel (String c old') new (String.append body (String c old')) =
  String.append body new.
Proof.
  revert fuel. induction body as [|a t IH]; intros fuel Hl Hf.
  - destruct fuel as [|k]; [simpl in Hf; lia|].
    rewrite !append_nil_l. cbn [PyStr.replace_fuel].
    rewrite prefix_refl, drop_all, replace_fuel_empty. apply append_nil_r.
  - destruct fuel as [|k]; [simpl in Hf; lia|].
    simpl in Hl. apply andb_true_iff in Hl as [Ha Ht].
    rewrite !append_cons. cbn [PyStr.replace_fuel].
    replace (String.prefix (String c old') (String a (String.append t (String c old'))))
      with false.
    + rewrite IH; [reflexivity | exact Ht | simpl in Hf; lia].
    + simpl. destruct (Ascii.ascii_dec c a) as [->|Hne]; [|reflexivity].
      now rewrite Ascii.eqb_refl in Ha.
Qed.

Lemma replace_suffix (c : ascii) (old' new body : string) :
  lacks c body = true ->
  PyStr.replace (String c old') new (String.append body (String c old')) =
  String.append body new.
Proof.
  intros H. unfold PyStr.replace. apply replace_fuel_suffix; [exact H|].
  rewrite length_append. simpl. lia.
Qed.

Lemma digit_char_differs (d : Z) (c : ascii) :
  0 <= d <= 9 -> PyStr.is_digit c = false -> Ascii.eqb (DateTime.digit_char d) c = false.
Proof.
  intros Hd Hc. destruct (digit_char_spec d Hd) as (Hdig & _ & _).
  destruct (Ascii.eqb_spec (DateTime.digit_char d) c) as [Heq|]; [|reflexivity].
  congruence.
Qed.

Lemma lacks_digits (c : ascii) (n : nat) (v : Z) :
  PyStr.is_digit c = false -> lacks c (DateTime.fmt_digits n v) = true.
Proof.
  intros Hc. induction n as [|k IH]; [reflexivity|].
  cbn [DateTime.fmt_digits lacks].
  now rewrite (digit_char_differs _ c (mod10_digit (v / 10 ^ Z.of_nat k)) Hc), IH.
Qed.

Lemma lacks_iso_body (c : ascii) (dt : datetime) :
  PyStr.is_digit c = false ->
  Ascii.eqb "-" c = false -> Ascii.eqb "T" c = false ->
  Ascii.eqb ":" c = false -> Ascii.eqb "." c = false ->
  lacks c (iso_body dt) = true.
Proof.
  intros Hd H1 H2 H3 H4. unfold iso_body.
  rewrite !lacks_append, !lacks_digits by exact Hd.
  cbn [lacks]. rewrite H1, H2, H3. cbn [negb andb].
  destruct (microsecond dt =? 0); [reflexivity|].
  rewrite lacks_append, lacks_digits by exact Hd. cbn [lacks]. now rewrite H4.
Qed.

Lemma isoformat_body (dt : datetime) :
  tzinfo dt = Some 0 ->
  DateTime.isoformat dt = String.append (iso_body dt) "+00:00".
Proof.
  intros Htz. unfold DateTime.isoformat, iso_body. rewrite Htz.
  change (DateTime.fmt_offset 0) with "+00:00".
  now rewrite !append_assoc.
Qed.

(** What the loop body parses: the text without its zone suffix. *)
Lemma strip_zone_isoformat (dt : datetime) :
  tzinfo dt = Some 0 ->
  PyStr.replace "Z" "" (PyStr.replace "+00:00" "Z" (DateTime.isoformat dt)) = iso_body dt.
Proof.
  intros Htz. rewrite (isoformat_body dt Htz).
  rewrite (replace_suffix "+" "00:00" "Z" (iso_body dt))
    by (apply lacks_iso_body; reflexivity).
  rewrite (replace_suffix "Z" "" "" (iso_body dt))
    by (apply lacks_iso_body; reflexivity).
  apply append_nil_r.
Qed.

End ReplaceFacts.

Section ScanFacts.

(** Runs through the values [0 .. bound-1] of [v]. *)
Ltac below v bound :=
  let n := fresh "n" in
  let Hn := fresh "Hn" in
  assert (Hn : exists n, v = Z.of_nat n /\ (n < bound)%nat)
    by (exists (Z.to_nat v); lia);
  destruct Hn as (n & -> & Hn);
  repeat first [ lia | destruct n as [|n]; [first [reflexivity | lia] |] ].

Lemma field_year (v : Z) (rest : string) :
  1 <= v <= 9999 ->
  Strptime.field Strptime.DY (String.append (DateTime.fmt_digits 4 v) rest) =
  Some (v, rest).
Proof.
  intros H. cbn [Strptime.field]. rewrite take_fmt4. now rewrite small_mod by lia.
Qed.

Lemma field_month (v : Z) (rest : string) :
  1 <= v <= 12 ->
  Strptime.field Strptime.Dm (String.append (DateTime.fmt_digits 2 v) rest) =
  Some (v, rest).
Proof. intros H. below v 13%nat. Qed.

Lemma field_day (v : Z) (rest : string) :
  1 <= v <= 31 ->
  Strptime.field Strptime.Dd (String.append (DateTime.fmt_digits 2 v) rest) =
  Some (v, rest).
Proof. intros H. below v 32%nat. Qed.

Lemma field_hour (v : Z) (rest : string) :
  0 <= v <= 23 ->
  Strptime.field Strptime.DH (String.append (DateTime.fmt_digits 2 v) rest) =
  Some (v, rest).
Proof. intros H. below v 24%nat. Qed.

Lemma field_minute (v : Z) (rest : string) :
  0 <= v <= 59 ->
  Strptime.field Strptime.DM (String.append (DateTime.fmt_digits 2 v) rest) =
  Some (v, rest).
Proof. intros H. below v 60%nat. Qed.

Lemma field_second (v : Z) (rest : string) :
  0 <= v <= 59 ->
  Strptime.field Strptime.DS (String.append (DateTime.fmt_digits 2 v) rest) =
  Some (v, rest).
Proof. intros H. below v 60%nat. Qed.

Lemma field_literal (c : ascii) (rest : string) :
  Strptime.field (Strptime.DLit c) (String.append (String c EmptyString) rest) =
  Some (0, rest).
Proof.
  rewrite append_cons, append_nil_l. cbn [Strptime.field].
  now rewrite Ascii.eqb_refl.
Qed.

Lemma digits_upto_fmt (n : nat) (v acc : Z) (cnt : nat) :
  Strptime.digits_upto n acc cnt (DateTime.fmt_digits n v) =
  (acc * 10 ^ Z.of_nat n + v mod 10 ^ Z.of_nat n, (cnt + n)%nat, EmptyString).
Proof.
  revert acc cnt. induction n as [|k IH]; intros acc cnt.
  - simpl. rewrite Z.mod_1_r, Nat.add_0_r. repeat f_equal. lia.
  - cbn [DateTime.fmt_digits Strptime.digits_upto].
    destruct (digit_char_spec _ (mod10_digit (v / 10 ^ Z.of_nat k))) as (Hd & Hv & _).
    rewrite Hd, Hv, IH. f_equal. f_equal; [|lia].
    rewrite <- (mod_pow10_succ v k).
    rewrite (Nat2Z.inj_succ k), Z.pow_succ_r by lia. ring.
Qed.

Lemma field_fraction (v : Z) :
  0 <= v <= 999999 ->
  Strptime.field Strptime.Df (DateTime.fmt_digits 6 v) = Some (v, EmptyString).
Proof.
  intros H. cbn [Strptime.field]. rewrite digits_upto_fmt.
  cbn [Nat.add Nat.sub Z.of_nat]. rewrite small_mod by (change (10 ^ Z.of_nat 6) with 1000000; lia).
  f_equal. f_equal. change (10 ^ 0) with 1. lia.
Qed.

End ScanFacts.

Section Idempotence.
Context `{RT : PyRuntime}.

Lemma valid_bounds (dt : datetime) :
  DateTime.valid dt = true ->
  1 <= year dt <= 9999 /\ 1 <= month dt <= 12 /\ 1 <= day dt <= 31 /\
  0 <= hour dt <= 23 /\ 0 <= minute dt <= 59 /\ 0 <= second dt <= 59 /\
  0 <= microsecond dt <= 999999.
Proof.
  unfold DateTime.valid, DateTime.valid_fields. intros Hr.
  repeat (apply andb_true_iff in Hr as [Hr ?]).
  assert (Hdm : DateTime.days_in_month (year dt) (month dt) <= 31).
  { unfold DateTime.days_in_month.
    destruct (month dt =? 2); [destruct (DateTime.is_leap _); lia|].
    destruct (_ || _); lia. }
  lia.
Qed.

Lemma scan_with_fraction (dt : datetime) :
  DateTime.valid dt = true -> microsecond dt <> 0 ->
  Strptime.scan (Strptime.directives "%Y-%m-%dT%H:%M:%S.%f") Strptime.found0
                (iso_body dt) =
  Some {| Strptime.f_year := year dt; Strptime.f_month := month dt;
          Strptime.f_day := day dt; Strptime.f_hour := hour dt;
          Strptime.f_minute := minute dt; Strptime.f_second := second dt;
          Strptime.f_fraction := microsecond dt |}.
Proof.
  intros Hv Hus. destruct (valid_bounds dt Hv) as (Hy & Hm & Hd & Hh & Hmi & Hs & Hu).
  unfold iso_body. destruct (Z.eqb_spec (microsecond dt) 0) as [|_]; [contradiction|].
  value_of (Strptime.directives "%Y-%m-%dT%H:%M:%S.%f").
  cbn [Strptime.scan].
  rewrite field_year by exact Hy. rewrite field_literal.
  rewrite field_month by exact Hm. rewrite field_literal.
  rewrite field_day by exact Hd. rewrite field_literal.
  rewrite field_hour by exact Hh. rewrite field_literal.
  rewrite field_minute by exact Hmi. rewrite field_literal.
  rewrite field_second by exact Hs. rewrite field_literal.
  rewrite field_fraction by exact Hu. reflexivity.
Qed.

Lemma scan_fraction_missing (dt : datetime) :
  DateTime.valid dt = true -> microsecond dt = 0 ->
  Strptime.scan (Strptime.directives "%Y-%m-%dT%H:%M:%S.%f") Strptime.found0
                (iso_body dt) = None.
Proof.
  intros Hv Hus. destruct (valid_bounds dt Hv) as (Hy & Hm & Hd & Hh & Hmi & Hs & Hu).
  unfold iso_body. rewrite Hus. cbn [Z.eqb].
  value_of (Strptime.directives "%Y-%m-%dT%H:%M:%S.%f").
  cbn [Strptime.scan].
  rewrite field_year by exact Hy. rewrite field_literal.
  rewrite field_month by exact Hm. rewrite field_literal.
  rewrite field_day by exact Hd. rewrite field_literal.
  rewrite field_hour by exact Hh. rewrite field_literal.
  rewrite field_minute by exact Hmi. rewrite field_literal.
  rewrite field_second by exact Hs. reflexivity.
Qed.

Lemma scan_without_fraction (dt : datetime) :
  DateTime.valid dt = true -> microsecond dt = 0 ->
  Strptime.scan (Strptime.directives "%Y-%m-%dT%H:%M:%S") Strptime.found0
                (iso_body dt) =
  Some {| Strptime.f_year := year dt; Strptime.f_month := month dt;
          Strptime.f_day := day dt; Strptime.f_hour := hour dt;
          Strptime.f_minute := minute dt; Strptime.f_second := second dt;
          Strptime.f_fraction := 0 |}.
Proof.
  intros Hv Hus. destruct (valid_bounds dt Hv) as (Hy & Hm & Hd & Hh & Hmi & Hs & Hu).
  unfold iso_body. rewrite Hus. cbn [Z.eqb].
  value_of (Strptime.directives "%Y-%m-%dT%H:%M:%S").
  cbn [Strptime.scan].
  rewrite field_year by exact Hy. rewrite field_literal.
  rewrite field_month by exact Hm. rewrite field_literal.
  rewrite field_day by exact Hd. rewrite field_literal.
  rewrite field_hour by exact Hh. rewrite field_literal.
  rewrite field_minute by exact Hmi. rewrite field_literal.
  rewrite field_second by exact Hs. reflexivity.
Qed.

Lemma all_digits_lacks (c : ascii) (s : string) :
  PyStr.is_digit c = false -> PyStr.all_digits s = true -> lacks c s = true.
Proof.
  intros Hc. induction s as [|a t IH]; [reflexivity|].
  simpl. intros H. apply andb_true_iff in H as [Ha Ht].
  rewrite (IH Ht), andb_true_r.
  destruct (Ascii.eqb_spec a c) as [->|]; [congruence | reflexivity].
Qed.

Lemma isoformat_not_digits (dt : datetime) :
  tzinfo dt = Some 0 -> PyStr.isdigit (DateTime.isoformat dt) = false.
Proof.
  intros Htz. destruct (PyStr.isdigit (DateTime.isoformat dt)) eqn:Hd; [|reflexivity].
  assert (Hall : PyStr.all_digits (DateTime.isoformat dt) = true).
  { unfold PyStr.isdigit in Hd. now destruct (DateTime.isoformat dt). }
  pose proof (all_digits_lacks "+" _ eq_refl Hall) as Hl.
  rewrite (isoformat_body dt Htz), lacks_append in Hl.
  apply andb_true_iff in Hl as [_ Hl]. discriminate.
Qed.

Lemma isoformat_has_dash (dt : datetime) :
  PyStr.contains "-" (DateTime.isoformat dt) = true.
Proof.
  apply contains_split. eexists. eexists. unfold DateTime.isoformat. reflexivity.
Qed.

(** The text of a valid datetime in UTC is a fixed point of the
    normaliser. *)
Lemma convert_isoformat (dt : datetime) :
  DateTime.valid dt = true -> tzinfo dt = Some 0 ->
  convert_hubspot_timestamp (Some (DateTime.isoformat dt)) =
  Ret (Some (DateTime.isoformat dt)).
Proof.
  intros Hv Htz. unfold convert_hubspot_timestamp.
  rewrite isoformat_truthy. cbn [negb].
  rewrite (isoformat_not_digits dt Htz), isoformat_has_dash, orb_true_r.
  unfold timestamp_formats.
  assert (Hmake : DateTime.make (year dt) (month dt) (day dt) (hour dt) (minute dt)
                    (second dt) (microsecond dt) =
                  Ret (DateTime.replace_tzinfo None dt)).
  { unfold DateTime.make. unfold DateTime.valid in Hv. now rewrite Hv. }
  assert (Hsame : DateTime.isoformat
                    (DateTime.replace_tzinfo utc (DateTime.replace_tzinfo None dt)) =
                  DateTime.isoformat dt).
  { destruct dt as [y m d hh mi ss us tz]. cbn [tzinfo] in Htz. now subst tz. }
  destruct (Z.eq_dec (microsecond dt) 0) as [Hus|Hus].
  - cbn [try_formats]. unfold try_format at 1.
    rewrite (strip_zone_isoformat dt Htz).
    value_of (PyStr.replace "Z" "" "%Y-%m-%dT%H:%M:%S.%fZ").
    unfold Strptime.strptime at 1. rewrite (scan_fraction_missing dt Hv Hus).
    cbn [bind]. unfold try_format.
    rewrite (strip_zone_isoformat dt Htz).
    value_of (PyStr.replace "Z" "" "%Y-%m-%dT%H:%M:%SZ").
    unfold Strptime.strptime. rewrite (scan_without_fraction dt Hv Hus).
    cbn [Strptime.f_year Strptime.f_month Strptime.f_day Strptime.f_hour
         Strptime.f_minute Strptime.f_second Strptime.f_fraction].
    rewrite <- Hus at 1. rewrite Hmake. cbn [bind catch]. now rewrite Hsame.
  - cbn [try_formats]. unfold try_format.
    rewrite (strip_zone_isoformat dt Htz).
    value_of (PyStr.replace "Z" "" "%Y-%m-%dT%H:%M:%S.%fZ").
    unfold Strptime.strptime. rewrite (scan_with_fraction dt Hv Hus).
    cbn [Strptime.f_year Strptime.f_month Strptime.f_day Strptime.f_hour
         Strptime.f_minute Strptime.f_second Strptime.f_fraction].
    rewrite Hmake. cbn [bind catch]. now rewrite Hsame.
Qed.

Hypothesis runtime_fields_valid :
  forall ms dt, utc_fields_of_ms ms = Ret dt -> DateTime.valid dt = true.

(** X3: the timestamp normaliser is idempotent: what it returns for any
    input (a null, or the ISO text of a UTC datetime) is returned
    unchanged when normalised again (the runtime's [fromtimestamp] being
    taken to return valid civil fields). *)
Theorem convert_idempotent (ts r : option string) :
  convert_hubspot_timestamp ts = Ret r ->
  convert_hubspot_timestamp r = Ret r.
Proof.
  intros H. destruct r as [iso|]; [|reflexivity].
  destruct (convert_shape_valid runtime_fields_valid ts iso H) as (dt & -> & Htz & Hv).
  exact (convert_isoformat dt Hv Htz).
Qed.

End Idempotence.

Lemma convert_idempotent_witness :
  convert_hubspot_timestamp (RT := Reference.runtime) (Some "2024-01-01T09:00:00.250Z") =
    Ret (Some "2024-01-01T09:00:00.250000+00:00") /\
  convert_hubspot_timestamp (RT := Reference.runtime)
    (Some "2024-01-01T09:00:00.250000+00:00") =
    Ret (Some "2024-01-01T09:00:00.250000+00:00").
Proof.
  assert (H : convert_hubspot_timestamp (RT := Reference.runtime)
                (Some "2024-01-01T09:00:00.250Z") =
              Ret (Some "2024-01-01T09:00:00.250000+00:00")) by evaluate.
  split; [exact H|].
  exact (convert_idempotent (RT := Reference.runtime) reference_fields_valid _ _ H).
Defined.
(** ** The input formats of the normaliser *)

Section InputFormats.
Context `{RT : PyRuntime}.

Lemma replace_fuel_lacks_first (c : ascii) (old' new s : string) (fuel : nat) :
  lacks c s = true ->
  PyStr.replace_fuel fuel (String c old') new s = s.
Proof.
  revert s. induction fuel as [|k IH]; intros s H; [reflexivity|].
  destruct s as [|a t]; [reflexivity|].
  simpl in H. apply andb_true_iff in H as [Ha Ht].
  cbn [PyStr.replace_fuel].
  replace (String.prefix (String c old') (String a t)) with false.
  - now rewrite IH.
  - simpl. destruct (Ascii.ascii_dec c a) as [->|Hne]; [|reflexivity].
    now rewrite Ascii.eqb_refl in Ha.
Qed.

Lemma replace_lacks_first (c : ascii) (old' new s : string) :
  lacks c s = true -> PyStr.replace (String c old') new s = s.
Proof. apply replace_fuel_lacks_first. Qed.

Lemma digits_upto_end (k : nat) (acc : Z) (cnt : nat) :
  Strptime.digits_upto k acc cnt EmptyString = (acc, cnt, EmptyString).
Proof. now destruct k. Qed.

Lemma digits_upto_fmt_end (n k : nat) (v acc : Z) (cnt : nat) :
  Strptime.digits_upto (n + k) acc cnt (DateTime.fmt_digits n v) =
  (acc * 10 ^ Z.of_nat n + v mod 10 ^ Z.of_nat n, (cnt + n)%nat, EmptyString).
Proof.
  revert acc cnt. induction n as [|n IH]; intros acc cnt.
  - cbn [Nat.add DateTime.fmt_digits]. rewrite digits_upto_end.
    rewrite Z.mod_1_r, Nat.add_0_r. repeat f_equal. cbn. lia.
  - cbn [Nat.add DateTime.fmt_digits Strptime.digits_upto].
    destruct (digit_char_spec _ (mod10_digit (v / 10 ^ Z.of_nat n))) as (Hd & Hv & _).
    rewrite Hd, Hv, IH. f_equal. f_equal; [|lia].
    rewrite <- (mod_pow10_succ v n).
    rewrite (Nat2Z.inj_succ n), Z.pow_succ_r by lia. ring.
Qed.

Lemma field_millis (v : Z) :
  0 <= v <= 999 ->
  Strptime.field Strptime.Df (DateTime.fmt_digits 3 v) = Some (v * 1000, EmptyString).
Proof.
  intros H. cbn [Strptime.field].
  change (Strptime.digits_upto 6 0 0 (DateTime.fmt_digits 3 v))
    with (Strptime.digits_upto (3 + 3) 0 0 (DateTime.fmt_digits 3 v)).
  rewrite (digits_upto_fmt_end 3 3 v 0 0).
  cbn [Nat.add Nat.sub Z.of_nat Pos.of_succ_nat Pos.succ].
  rewrite small_mod by (change (10 ^ 3) with 1000; lia).
  reflexivity.
Qed.

Lemma lacks_iso_seconds (c : ascii) (dt : datetime) :
  PyStr.is_digit c = false ->
  Ascii.eqb "-" c = false -> Ascii.eqb "T" c = false -> Ascii.eqb ":" c = false ->
  lacks c (iso_seconds dt) = true.
Proof.
  intros Hd H1 H2 H3. unfold iso_seconds.
  rewrite !lacks_append, !lacks_digits by exact Hd.
  cbn [lacks]. now rewrite H1, H2, H3.
Qed.

Lemma starts_with_year_not_digits (y : Z) (rest : string) :
  PyStr.isdigit (String.append (DateTime.fmt_digits 4 y) (String.append "-" rest)) = false.
Proof.
  destruct (PyStr.isdigit _) eqn:Hd; [|reflexivity].
  assert (Hall : PyStr.all_digits
                   (String.append (DateTime.fmt_digits 4 y) (String.append "-" rest))
                 = true).
  { unfold PyStr.isdigit in Hd. now destruct (String.append _ _). }
  pose proof (all_digits_lacks "-" _ eq_refl Hall) as Hl.
  rewrite !lacks_append in Hl. apply andb_true_iff in Hl as [_ Hl].
  apply andb_true_iff in Hl as [Hl _]. discriminate.
Qed.

Lemma starts_with_year_has_dash (y : Z) (rest : string) :
  PyStr.contains "-" (String.append (DateTime.fmt_digits 4 y) (String.append "-" rest))
  = true.
Proof. apply contains_split. now exists (DateTime.fmt_digits 4 y), rest. Qed.

(** The fields of "YYYY-MM-DDTHH:MM:SS", followed by [rest]. *)
Lemma scan_seconds (dt : datetime) (tail : list Strptime.directive) (rest : string) :
  DateTime.valid dt = true ->
  Strptime.scan
    (Strptime.directives "%Y-%m-%dT%H:%M:%S" ++ tail) Strptime.found0
    (String.append (iso_seconds dt) rest) =
  Strptime.scan tail
    {| Strptime.f_year := year dt; Strptime.f_month := month dt;
       Strptime.f_day := day dt; Strptime.f_hour := hour dt;
       Strptime.f_minute := minute dt; Strptime.f_second := second dt;
       Strptime.f_fraction := 0 |} rest.
Proof.
  intros Hv. destruct (valid_bounds dt Hv) as (Hy & Hm & Hd & Hh & Hmi & Hs & Hu).
  unfold iso_seconds. rewrite !append_assoc.
  value_of (Strptime.directives "%Y-%m-%dT%H:%M:%S").
  cbn [app Strptime.scan].
  rewrite field_year by exact Hy. rewrite field_literal.
  rewrite field_month by exact Hm. rewrite field_literal.
  rewrite field_day by exact Hd. rewrite field_literal.
  rewrite field_hour by exact Hh. rewrite field_literal.
  rewrite field_minute by exact Hmi. rewrite field_literal.
  rewrite field_second by exact Hs. reflexivity.
Qed.

(** X19: the CRM's own timestamp text, "YYYY-MM-DDTHH:MM:SS.mmmZ" with
    a three-digit millisecond fraction, is normalised to the ISO text of
    the same civil time in UTC, the milliseconds read as microseconds:
    for every valid datetime in UTC whose microseconds are a whole
    number of milliseconds. *)
Theorem convert_millis_z (dt : datetime) (millis : Z) :
  DateTime.valid dt = true -> tzinfo dt = Some 0 ->
  0 <= millis <= 999 -> microsecond dt = millis * 1000 ->
  convert_hubspot_timestamp (Some (iso_millis_z dt millis)) =
  Ret (Some (DateTime.isoformat dt)).
Proof.
  intros Hv Htz Hms Hus. unfold convert_hubspot_timestamp.
  assert (Hshape : iso_millis_z dt millis =
                   String.append (DateTime.fmt_digits 4 (year dt))
                     (String.append "-"
                        (String.append (DateTime.fmt_digits 2 (month dt))
                        (String.append "-" (String.append (DateTime.fmt_digits 2 (day dt))
                        (String.append "T" (String.append (DateTime.fmt_digits 2 (hour dt))
                        (String.append ":"
                           (String.append (DateTime.fmt_digits 2 (minute dt))
                        (String.append ":"
                           (String.append (DateTime.fmt_digits 2 (second dt))
                        (String.append "."
                           (String.append (DateTime.fmt_digits 3 millis) "Z"))))))))))))).
  { unfold iso_millis_z, iso_seconds. now rewrite !append_assoc. }
  assert (Htruthy : PyStr.truthy (iso_millis_z dt millis) = true)
    by (rewrite Hshape; reflexivity).
  rewrite Htruthy. cbn [negb].
  assert (Hnd : PyStr.isdigit (iso_millis_z dt millis) = false)
    by (rewrite Hshape; apply starts_with_year_not_digits).
  assert (Hdash : PyStr.contains "-" (iso_millis_z dt millis) = true)
    by (rewrite Hshape; apply starts_with_year_has_dash).
  rewrite Hnd, Hdash, orb_true_r.
  assert (Hbody : lacks "Z" (String.append (iso_seconds dt)
                               (String.append "." (DateTime.fmt_digits 3 millis))) = true).
  { rewrite !lacks_append, lacks_iso_seconds, lacks_digits by reflexivity. reflexivity. }
  assert (Hstrip : PyStr.replace "Z" ""
                     (PyStr.replace "+00:00" "Z" (iso_millis_z dt millis)) =
                   String.append (iso_seconds dt)
                     (String.append "." (DateTime.fmt_digits 3 millis))).
  { rewrite (replace_lacks_first "+" "00:00" "Z").
    - unfold iso_millis_z.
      rewrite <- (append_assoc "." (DateTime.fmt_digits 3 millis) "Z").
      rewrite <- (append_assoc (iso_seconds dt)).
      rewrite (replace_suffix "Z" "" "" _ Hbody). apply append_nil_r.
    - unfold iso_millis_z.
      rewrite !lacks_append, lacks_iso_seconds, lacks_digits by reflexivity.
      reflexivity. }
  unfold timestamp_formats. cbn [try_formats]. unfold try_format.
  rewrite Hstrip.
  value_of (PyStr.replace "Z" "" "%Y-%m-%dT%H:%M:%S.%fZ").
  unfold Strptime.strptime.
  change (Strptime.directives "%Y-%m-%dT%H:%M:%S.%f")
    with (Strptime.directives "%Y-%m-%dT%H:%M:%S" ++
          [Strptime.DLit "."; Strptime.Df]).
  rewrite (scan_seconds dt _ _ Hv). cbn [Strptime.scan].
  rewrite field_literal. cbn [Strptime.store].
  rewrite (field_millis millis Hms).
  cbn [Strptime.store Strptime.f_year Strptime.f_month Strptime.f_day Strptime.f_hour
       Strptime.f_minute Strptime.f_second Strptime.f_fraction].
  rewrite <- Hus.
  assert (Hmake : DateTime.make (year dt) (month dt) (day dt) (hour dt) (minute dt)
                    (second dt) (microsecond dt) =
                  Ret (DateTime.replace_tzinfo None dt)).
  { unfold DateTime.make. unfold DateTime.valid in Hv. now rewrite Hv. }
  rewrite Hmake. cbn [bind catch].
  destruct dt as [y m d hh mi ss us tz]. cbn [tzinfo] in Htz. now subst tz.
Qed.

(** X20: a date alone, "YYYY-MM-DD", is normalised to midnight UTC of
    that date: the four formats with a time fail on it and the last one
    parses it. *)
Theorem convert_date_only (dt : datetime) :
  DateTime.valid dt = true -> tzinfo dt = Some 0 ->
  hour dt = 0 -> minute dt = 0 -> second dt = 0 -> microsecond dt = 0 ->
  convert_hubspot_timestamp (Some (date_isoformat dt)) =
  Ret (Some (DateTime.isoformat dt)).
Proof.
  intros Hv Htz Hh Hmi Hs Hus. unfold convert_hubspot_timestamp.
  destruct (valid_bounds dt Hv) as (Hy & Hm & Hd & _).
  assert (Htruthy : PyStr.truthy (date_isoformat dt) = true) by reflexivity.
  rewrite Htruthy. cbn [negb].
  assert (Hnd : PyStr.isdigit (date_isoformat dt) = false)
    by apply starts_with_year_not_digits.
  assert (Hdash : PyStr.contains "-" (date_isoformat dt) = true)
    by apply starts_with_year_has_dash.
  rewrite Hnd, Hdash, orb_true_r.
  assert (Hl : forall c, PyStr.is_digit c = false -> Ascii.eqb "-" c = false ->
                         lacks c (date_isoformat dt) = true).
  { intros c Hc H1. unfold date_isoformat.
    rewrite !lacks_append, !lacks_digits by exact Hc. cbn [lacks]. now rewrite H1. }
  assert (Hstrip : PyStr.replace "Z" "" (PyStr.replace "+00:00" "Z" (date_isoformat dt)) =
                   date_isoformat dt).
  { rewrite (replace_lacks_first "+" "00:00" "Z") by (apply Hl; reflexivity).
    apply replace_lacks. apply Hl; reflexivity. }
  assert (Hdate : forall tail r,
            Strptime.scan
              (Strptime.DY :: Strptime.DLit "-" :: Strptime.Dm :: Strptime.DLit "-" ::
               Strptime.Dd :: tail) r (date_isoformat dt) =
            Strptime.scan tail
              (Strptime.store Strptime.Dd (day dt)
                 (Strptime.store Strptime.Dm (month dt)
                    (Strptime.store Strptime.DY (year dt) r))) EmptyString).
  { intros tail r. unfold date_isoformat.
    rewrite <- (append_nil_r (DateTime.fmt_digits 2 (day dt))).
    cbn [Strptime.scan].
    rewrite field_year by exact Hy. rewrite field_literal.
    rewrite field_month by exact Hm. rewrite field_literal.
    rewrite field_day by exact Hd. reflexivity. }
  assert (Hfail : forall fmt tail,
            Strptime.directives fmt =
              Strptime.DY :: Strptime.DLit "-" :: Strptime.Dm :: Strptime.DLit "-" ::
              Strptime.Dd :: Strptime.DLit "T" :: tail ->
            exists msg, Strptime.strptime (date_isoformat dt) fmt =
                        Raise (ValueError msg)).
  { intros fmt tail Hfmt. unfold Strptime.strptime. rewrite Hfmt, Hdate.
    cbn [Strptime.scan Strptime.field]. now eexists. }
  unfold timestamp_formats. cbn [try_formats]. unfold try_format.
  rewrite Hstrip.
  value_of (PyStr.replace "Z" "" "%Y-%m-%dT%H:%M:%S.%fZ").
  value_of (PyStr.replace "Z" "" "%Y-%m-%dT%H:%M:%SZ").
  value_of (PyStr.replace "Z" "" "%Y-%m-%dT%H:%M:%S.%f").
  value_of (PyStr.replace "Z" "" "%Y-%m-%dT%H:%M:%S").
  value_of (PyStr.replace "Z" "" "%Y-%m-%d").
  destruct (Hfail "%Y-%m-%dT%H:%M:%S.%f" _ eq_refl) as [msg1 ->]. cbn [bind].
  destruct (Hfail "%Y-%m-%dT%H:%M:%S" _ eq_refl) as [msg2 ->]. cbn [bind].
  unfold Strptime.strptime.
  value_of (Strptime.directives "%Y-%m-%d"). rewrite Hdate.
  cbn [Strptime.scan Strptime.store Strptime.found0 Strptime.f_year Strptime.f_month
       Strptime.f_day Strptime.f_hour Strptime.f_minute Strptime.f_second
       Strptime.f_fraction].
  assert (Hmake : DateTime.make (year dt) (month dt) (day dt) 0 0 0 0 =
                  Ret (DateTime.replace_tzinfo None dt)).
  { unfold DateTime.make. unfold DateTime.valid in Hv.
    rewrite Hh, Hmi, Hs, Hus in Hv. rewrite Hv.
    destruct dt as [y m d hh mi ss us tz]. cbn in *. now subst. }
  rewrite Hmake. cbn [bind catch].
  destruct dt as [y m d hh mi ss us tz]. cbn [tzinfo] in Htz. now subst tz.
Qed.

End InputFormats.

Lemma convert_millis_z_witness :
  convert_hubspot_timestamp (RT := Reference.runtime) (Some "2024-01-31T09:00:00.250Z") =
  Ret (Some "2024-01-31T09:00:00.250000+00:00").
Proof.
  exact (convert_millis_z (RT := Reference.runtime)
           {| year := 2024; month := 1; day := 31; hour := 9; minute := 0; second := 0;
              microsecond := 250000; tzinfo := utc |} 250
           eq_refl eq_refl ltac:(lia) eq_refl).
Defined.

Lemma convert_date_only_witness :
  convert_hubspot_timestamp (RT := Reference.runtime) (Some "2024-02-29") =
  Ret (Some "2024-02-29T00:00:00+00:00").
Proof.
  exact (convert_date_only (RT := Reference.runtime)
           {| year := 2024; month := 2; day := 29; hour := 0; minute := 0; second := 0;
              microsecond := 0; tzinfo := utc |}
           eq_refl eq_refl eq_refl eq_refl eq_refl eq_refl).
Defined.

(** ** Further properties of the deal fetcher *)

Section FetchInvariants.
Variable get_page : deals_api.
Variable target : option string.

Lemma filter_page_target (t : string) (deals : list deal) :
  target = Some t -> PyStr.truthy t = true ->
  Forall (fun d => in_pipeline t d = true) (filter_page target deals).
Proof.
  intros -> Ht. unfold filter_page. rewrite Ht.
  apply List.Forall_forall. intros d Hd. now apply List.filter_In in Hd as [_ Hd].
Qed.

(** The inner loop only ever adds deals of the target pipeline, and what
    it returns is the list gathered so far. *)
Lemma page_attempts_only_target (t : string) (gas : nat) (rc : Z) (st : dstate) :
  target = Some t -> PyStr.truthy t = true ->
  Forall (fun d => in_pipeline t d = true) (all_deals st) ->
  Forall (fun d => in_pipeline t d = true)
         (all_deals (snd (page_attempts get_page target gas rc st))) /\
  (forall deals, fst (page_attempts get_page target gas rc st) = Returned deals ->
                 Forall (fun d => in_pipeline t d = true) deals).
Proof.
  intros Ht Htr. revert rc st. induction gas as [|g IH]; intros rc st H.
  - simpl. destruct (rc <? max_retries); split; try exact H; discriminate.
  - cbn [page_attempts]. destruct (rc <? max_retries); [|split; [exact H | discriminate]].
    destruct (get_page (calls st) (after st)) as [resp|e].
    + assert (Hall : Forall (fun d => in_pipeline t d = true)
                       (all_deals st ++ filter_page target (results resp))).
      { apply Forall_app. split; [exact H | now apply filter_page_target]. }
      destruct (paging_next resp); cbn [fst snd all_deals demit dcall];
        (split; [exact Hall|]); [discriminate|].
      now intros deals [= <-].
    + destruct e as [status m| | | | |];
        try (destruct (_ >=? _);
             [cbn [fst snd all_deals demit dcall]; split; [exact H | discriminate]
             | apply IH; exact H]).
      destruct (status =? 429); [apply IH; exact H|].
      destruct (_ >=? _);
        [cbn [fst snd all_deals demit dcall]; split; [exact H | discriminate]
        | apply IH; exact H].
Qed.

Lemma pages_only_target (t : string) (fuel : nat) (st st' : dstate) (deals : list deal) :
  target = Some t -> PyStr.truthy t = true ->
  Forall (fun d => in_pipeline t d = true) (all_deals st) ->
  pages get_page target fuel st = Some (Ret deals, st') ->
  Forall (fun d => in_pipeline t d = true) deals.
Proof.
  intros Ht Htr. revert st. induction fuel as [|f IH]; intros st H; [discriminate|].
  cbn [pages].
  match goal with
  | |- context [page_attempts _ _ _ _ ?s] =>
      destruct (page_attempts_only_target t (Z.to_nat max_retries) 0 s Ht Htr H)
        as [Hst Hret]
  end.
  destruct (page_attempts _ _ _ _ _) as [[returned| | |e] st2];
    cbn [fst snd] in Hst, Hret.
  - intros [= <- <-]. now apply Hret.
  - now apply IH.
  - now apply IH.
  - discriminate.
Qed.

(** Every wait of the inner loop is 5 seconds or between 20 and 60
    seconds. *)
Lemma page_attempts_wait_range (gas : nat) (rc : Z) (st : dstate) :
  0 <= rc ->
  Forall (fun s => s = 5 \/ 20 <= s <= 60) (sleeps (dtrace st)) ->
  Forall (fun s => s = 5 \/ 20 <= s <= 60)
         (sleeps (dtrace (snd (page_attempts get_page target gas rc st)))).
Proof.
  revert rc st. induction gas as [|g IH]; intros rc st Hrc H.
  - simpl. now destruct (rc <? max_retries).
  - cbn [page_attempts]. destruct (rc <? max_retries); [|exact H].
    assert (H1 : Forall (fun s => s = 5 \/ 20 <= s <= 60) (sleeps (dtrace (dcall st)))).
    { cbn [dcall dtrace]. rewrite sleeps_app. apply Forall_app. split; [exact H|constructor]. }
    assert (Hpow : 2 <= 2 ^ (rc + 1)).
    { change 2 with (2 ^ 1) at 1. apply Z.pow_le_mono_r; lia. }
    destruct (get_page (calls st) (after st)) as [resp|e].
    + destruct (paging_next resp); cbn [snd dtrace demit];
        rewrite ?sleeps_app; repeat (apply Forall_app; split); try exact H1;
        repeat constructor.
    + assert (Hstop : forall evs, sleeps evs = [] ->
                Forall (fun s => s = 5 \/ 20 <= s <= 60)
                       (sleeps (dtrace (demit evs (dcall st))))).
      { intros evs Hevs. cbn [dtrace demit]. rewrite sleeps_app, Hevs, app_nil_r.
        exact H1. }
      assert (Hwait : forall evs w, sleeps evs = [w] -> w = 5 \/ 20 <= w <= 60 ->
                Forall (fun s => s = 5 \/ 20 <= s <= 60)
                       (sleeps (dtrace (demit evs (dcall st))))).
      { intros evs w Hevs Hw. cbn [dtrace demit]. rewrite sleeps_app, Hevs.
        apply Forall_app. split; [exact H1 | now constructor]. }
      destruct e as [status m| | | | |];
        try (destruct (_ >=? _);
             [cbn [snd]; now apply Hstop
             | apply IH; [lia|]; apply (Hwait _ 5); [reflexivity | now left]]).
      destruct (status =? 429).
      * apply IH; [lia|]. eapply Hwait; [reflexivity | right; lia].
      * destruct (_ >=? _);
          [cbn [snd]; now apply Hstop
          | apply IH; [lia|]; apply (Hwait _ 5); [reflexivity | now left]].
Qed.

Lemma pages_wait_range (fuel : nat) (st st' : dstate) (r : outcome (list deal)) :
  Forall (fun s => s = 5 \/ 20 <= s <= 60) (sleeps (dtrace st)) ->
  pages get_page target fuel st = Some (r, st') ->
  Forall (fun s => s = 5 \/ 20 <= s <= 60) (sleeps (dtrace st')).
Proof.
  revert st. induction fuel as [|f IH]; intros st H; [discriminate|].
  cbn [pages].
  match goal with
  | |- context [page_attempts _ _ _ _ ?s] =>
      pose proof (page_attempts_wait_range (Z.to_nat max_retries) 0 s
                    ltac:(lia) H) as Hst
  end.
  destruct (page_attempts _ _ _ _ _) as [[returned| | |e] st2]; cbn [snd] in Hst.
  - now intros [= <- <-].
  - now apply IH.
  - now apply IH.
  - now intros [= <- <-].
Qed.

End FetchInvariants.

(** X4: whatever the deals listing answers (pages, rate limits, errors,
    in any order), a fetch for a non-empty target pipeline id that returns
    returns only deals whose [pipeline] property is that id. *)
Theorem fetch_all_deals_only_target (get_page : deals_api) (t : string) (fuel : nat)
    (deals : list deal) (st : dstate) :
  PyStr.truthy t = true ->
  fetch_all_deals get_page (Some t) fuel = Some (Ret deals, st) ->
  Forall (fun d => props_get (properties d) "pipeline" = Some t) deals.
Proof.
  intros Ht H.
  assert (Hin : Forall (fun d => in_pipeline t d = true) deals).
  { apply (pages_only_target get_page (Some t) t fuel dstate0 st deals eq_refl Ht);
      [constructor | exact H]. }
  eapply List.Forall_impl; [|exact Hin]. intros d Hd. unfold in_pipeline in Hd.
  destruct (props_get (properties d) "pipeline") as [p|]; [|discriminate].
  now apply String.eqb_eq in Hd as ->.
Qed.

Lemma fetch_all_deals_only_target_witness :
  exists deals st,
    fetch_all_deals mixed_listing (Some "p1") 2 = Some (Ret deals, st) /\
    length deals = 2%nat /\
    Forall (fun d => props_get (properties d) "pipeline" = Some "p1") deals.
Proof.
  let v := eval vm_compute in (fetch_all_deals mixed_listing (Some "p1") 2) in
  assert (H : fetch_all_deals mixed_listing (Some "p1") 2 = v)
    by exact (@eq_refl _ v <: fetch_all_deals mixed_listing (Some "p1") 2 = v).
  match type of H with
  | _ = Some (Ret ?d, ?s) =>
      exists d, s; split; [exact H | split; [reflexivity|]];
      exact (fetch_all_deals_only_target mixed_listing "p1" 2 d s eq_refl H)
  end.
Defined.

(** X5: whatever the deals listing answers, every wait of a fetch that
    ends (by returning or by raising) is either the fixed 5 seconds after
    an error or a rate-limit wait between 20 and 60 seconds. *)
Theorem fetch_all_deals_wait_range (get_page : deals_api) (target : option string)
    (fuel : nat) (r : outcome (list deal)) (st : dstate) :
  fetch_all_deals get_page target fuel = Some (r, st) ->
  Forall (fun s => s = 5 \/ 20 <= s <= 60) (sleeps (dtrace st)).
Proof.
  intros H. apply (pages_wait_range get_page target fuel dstate0 st r); [constructor | exact H].
Qed.

Lemma fetch_all_deals_wait_range_witness :
  exists r st,
    fetch_all_deals Sample.rate_limited_five_times None 2 = Some (r, st) /\
    sleeps (dtrace st) = [20; 40; 60; 60; 60] /\
    Forall (fun s => s = 5 \/ 20 <= s <= 60) (sleeps (dtrace st)).
Proof.
  let v := eval vm_compute in (fetch_all_deals Sample.rate_limited_five_times None 2) in
  assert (H : fetch_all_deals Sample.rate_limited_five_times None 2 = v)
    by exact (@eq_refl _ v <: fetch_all_deals Sample.rate_limited_five_times None 2 = v).
  match type of H with
  | _ = Some (?r, ?s) =>
      exists r, s; split; [exact H | split; [reflexivity|]];
      exact (fetch_all_deals_wait_range Sample.rate_limited_five_times None 2 r s H)
  end.
Defined.

Section FetchFailure.
Variable target : option string.
Variable e : exn.
Hypothesis not_rate_limit : forall m, e <> ApiException 429 m.

(** With [k] attempts left and a listing that keeps failing, the inner
    loop makes [k] calls, waits 5 seconds between them, and raises. *)
Lemma page_attempts_failing (get_page : deals_api) (k gas : nat) (st : dstate) :
  (forall n a, (calls st <= n)%nat -> get_page n a = Raise e) ->
  (1 <= k <= 5)%nat -> (k <= gas)%nat ->
  exists st',
    page_attempts get_page target gas (max_retries - Z.of_nat k) st = (Raised e, st') /\
    calls st' = (calls st + k)%nat /\
    sleeps (dtrace st') = sleeps (dtrace st) ++ repeat 5 (k - 1) /\
    all_deals st' = all_deals st.
Proof.
  intros Hfail. revert gas st Hfail.
  induction k as [|k IH]; intros gas st Hfail Hk Hgas; [lia|].
  destruct gas as [|g]; [lia|].
  cbn [page_attempts].
  destruct (Z.ltb_spec (max_retries - Z.of_nat (S k)) max_retries) as [_|Hge];
    [|unfold max_retries in Hge; lia].
  rewrite (Hfail (calls st) (after st)) by lia.
  replace (max_retries - Z.of_nat (S k) + 1) with (max_retries - Z.of_nat k) by lia.
  assert (Hlast : forall evs, sleeps evs = [] -> k = 0%nat ->
            exists st',
              (Raised e, demit evs (dcall st)) = (Raised e, st') /\
              calls st' = (calls st + S k)%nat /\
              sleeps (dtrace st') = sleeps (dtrace st) ++ repeat 5 (S k - 1) /\
              all_deals st' = all_deals st).
  { intros evs Hevs ->. eexists. split; [reflexivity|].
    cbn [calls dtrace all_deals demit dcall repeat Nat.sub].
    rewrite !sleeps_app, Hevs. cbn [sleeps flat_map app].
    repeat split; [lia | now rewrite !app_nil_r]. }
  assert (Hmore : forall evs, sleeps evs = [5] -> k <> 0%nat ->
            exists st',
              page_attempts get_page target g (max_retries - Z.of_nat k)
                (demit evs (dcall st)) = (Raised e, st') /\
              calls st' = (calls st + S k)%nat /\
              sleeps (dtrace st') = sleeps (dtrace st) ++ repeat 5 (S k - 1) /\
              all_deals st' = all_deals st).
  { intros evs Hevs Hk0.
    destruct (IH g (demit evs (dcall st))) as (st' & Hrun & Hc & Hs & Ha).
    - intros n a Hn. apply Hfail. cbn [calls demit dcall] in Hn. lia.
    - lia.
    - lia.
    - exists st'. split; [exact Hrun|].
      cbn [calls dtrace all_deals demit dcall] in Hc, Hs, Ha.
      rewrite !sleeps_app, Hevs in Hs. cbn [sleeps flat_map app] in Hs.
      repeat split; [lia | | exact Ha].
      rewrite Hs, app_nil_r, <- app_assoc. f_equal.
      destruct k as [|k']; [congruence|]. cbn [Nat.sub repeat app].
      now rewrite Nat.sub_0_r. }
  destruct (Z.geb_spec (max_retries - Z.of_nat k) max_retries) as [Hstop|Hgo].
  - assert (Hk0 : k = 0%nat) by lia.
    destruct e as [status m| | | | |]; try (now apply Hlast).
    destruct (Z.eqb_spec status 429) as [->|_]; [now contradiction (not_rate_limit m)|].
    now apply Hlast.
  - assert (Hk0 : k <> 0%nat) by lia.
    destruct e as [status m| | | | |]; try (now apply Hmore).
    destruct (Z.eqb_spec status 429) as [->|_]; [now contradiction (not_rate_limit m)|].
    now apply Hmore.
Qed.

Lemma serve_then_fail_next (done rest : list page) (pg : page) (a : option string) :
  serve_then_fail (done ++ pg :: rest) e (length done) a = Ret pg.
Proof.
  unfold serve_then_fail. rewrite nth_error_app2 by lia. now rewrite Nat.sub_diag.
Qed.

Lemma serve_then_fail_after (pages : list page) (n : nat) (a : option string) :
  (length pages <= n)%nat -> serve_then_fail pages e n a = Raise e.
Proof.
  intros H. unfold serve_then_fail.
  now rewrite (proj2 (nth_error_None pages n) H).
Qed.

Lemma pages_step (get_page : deals_api) (fuel : nat) (st : dstate) :
  pages get_page target (S fuel) st =
  match page_attempts get_page target (Z.to_nat max_retries) 0
          {| all_deals := all_deals st; after := after st;
             page_count := page_count st + 1; calls := calls st;
             dtrace := dtrace st |} with
  | (Returned deals, st2) => Some (Ret deals, st2)
  | (Raised e, st2) => Some (Raise e, st2)
  | (Break, st2) => pages get_page target fuel st2
  | (Exhausted, st2) => pages get_page target fuel st2
  end.
Proof. reflexivity. Qed.

Lemma pages_then_fail (rest done : list page) (st : dstate) :
  calls st = length done ->
  Forall (fun pg => paging_next pg <> None) rest ->
  sleeps (dtrace st) = [] ->
  exists st',
    pages (serve_then_fail (done ++ rest) e) target (S (length rest)) st =
      Some (Raise e, st') /\
    calls st' = (length (done ++ rest) + 5)%nat /\
    sleeps (dtrace st') = [5; 5; 5; 5] /\
    all_deals st' =
      all_deals st ++ flat_map (fun pg => filter_page target (results pg)) rest.
Proof.
  revert done st. induction rest as [|pg rest IH]; intros done st Hc Hnext Hs.
  - cbn [length]. rewrite pages_step. change (Z.to_nat max_retries) with 5%nat.
    match goal with
    | |- context [page_attempts ?gp _ _ _ ?s] =>
        destruct (page_attempts_failing gp 5 5 s) as (st' & Hrun & Hc' & Hs' & Ha')
    end.
    + intros n a Hn. apply serve_then_fail_after.
      cbn [calls] in Hn. rewrite app_nil_r. lia.
    + lia.
    + lia.
    + change (max_retries - Z.of_nat 5) with 0 in Hrun. rewrite Hrun.
      exists st'. split; [reflexivity|].
      cbn [calls dtrace all_deals] in Hc', Hs', Ha'.
      rewrite Hs in Hs'.
      split; [rewrite app_nil_r, Hc', Hc; reflexivity|].
      split; [exact Hs'|].
      rewrite Ha'. cbn [flat_map]. symmetry. apply app_nil_r.
  - cbn [length]. rewrite pages_step. change (Z.to_nat max_retries) with 5%nat.
    rewrite (page_attempts_page target (serve_then_fail (done ++ pg :: rest) e) 4 0 _ pg);
      [| reflexivity | cbn [calls after]; rewrite Hc; apply serve_then_fail_next].
    cbv zeta. cbn [all_deals after page_count calls dtrace].
    inversion Hnext as [|? ? Hpg Hrest]; subst.
    destruct (paging_next pg) as [a|]; [|congruence].
    match goal with
    | |- exists st', pages _ _ _ ?s = _ /\ _ =>
        destruct (IH (done ++ [pg]) s) as (st' & Hrun & Hc' & Hs' & Ha')
    end.
    + cbn [calls]. rewrite Hc, length_app. cbn [length]. lia.
    + exact Hrest.
    + cbn [dtrace]. rewrite !sleeps_app, Hs. reflexivity.
    + rewrite <- app_assoc in Hrun, Hc'. cbn [app all_deals] in Hrun, Hc', Ha'.
      exists st'. split; [exact Hrun|].
      split; [exact Hc'|]. split; [exact Hs'|].
      rewrite Ha'. cbn [flat_map]. symmetry. apply app_assoc.
Qed.

(** X6: when the deals listing serves some pages, each naming a next
    page, and then fails at every call with an error that is not a rate
    limit, the fetch makes five attempts at the failing page with waits
    of 5 seconds between them and raises that error: the deals of the
    pages already fetched are not returned. *)
Theorem fetch_all_deals_failure_discards (done : list page) :
  Forall (fun pg => paging_next pg <> None) done ->
  exists st,
    fetch_all_deals (serve_then_fail done e) target (S (length done)) =
      Some (Raise e, st) /\
    calls st = (length done + 5)%nat /\
    sleeps (dtrace st) = [5; 5; 5; 5] /\
    all_deals st = flat_map (fun pg => filter_page target (results pg)) done.
Proof.
  intros H. exact (pages_then_fail done [] dstate0 eq_refl H eq_refl).
Qed.

End FetchFailure.

Lemma fetch_all_deals_failure_discards_witness :
  exists st,
    fetch_all_deals
      (serve_then_fail [ {| results := [Sample.deal_in_evaluation];
                            paging_next := Some "2" |} ]
                       (ApiException 500 "Internal Server Error"))
      None 2 = Some (Raise (ApiException 500 "Internal Server Error"), st) /\
    calls st = 6%nat /\
    sleeps (dtrace st) = [5; 5; 5; 5] /\
    all_deals st = [Sample.deal_in_evaluation].
Proof.
  apply (fetch_all_deals_failure_discards None (ApiException 500 "Internal Server Error")
           ltac:(discriminate)
           [ {| results := [Sample.deal_in_evaluation]; paging_next := Some "2" |} ]).
  repeat constructor. discriminate.
Defined.
Section FetchRetries.
Variable target : option string.
Variable pg : page.
Hypothesis last_page : paging_next pg = None.

Lemma page_attempts_flaky (get_page : deals_api) (errors : list exn) (rc : Z)
    (gas : nat) (st : dstate) :
  0 <= rc -> rc + Z.of_nat (length errors) < max_retries ->
  (length errors < gas)%nat ->
  (forall i e a, nth_error errors i = Some e ->
                 get_page (calls st + i)%nat a = Raise e) ->
  (forall a, get_page (calls st + length errors)%nat a = Ret pg) ->
  exists st',
    page_attempts get_page target gas rc st =
      (Returned (all_deals st ++ filter_page target (results pg)), st') /\
    calls st' = (calls st + S (length errors))%nat /\
    sleeps (dtrace st') = sleeps (dtrace st) ++ waits_from rc errors.
Proof.
  revert rc gas st. induction errors as [|e errors IH];
    intros rc gas st Hrc Hmax Hgas Herr Hpg.
  - destruct gas as [|g]; [cbn in Hgas; lia|].
    cbn [length] in Hpg, Hmax. specialize (Hpg (after st)).
    rewrite Nat.add_0_r in Hpg.
    rewrite (page_attempts_page target get_page g rc st pg) by (lia || exact Hpg).
    cbv zeta. rewrite last_page. eexists. split; [reflexivity|].
    cbn [calls dtrace length waits_from]. rewrite !sleeps_app.
    cbn [sleeps flat_map app]. split; [lia | now rewrite !app_nil_r].
  - destruct gas as [|g]; [cbn in Hgas; lia|].
    cbn [length] in Hmax, Hgas. rewrite Nat2Z.inj_succ in Hmax.
    cbn [page_attempts].
    destruct (Z.ltb_spec rc max_retries) as [_|Hge]; [|lia].
    pose proof (Herr 0%nat e (after st) eq_refl) as H0.
    rewrite Nat.add_0_r in H0. rewrite H0.
    assert (Hstep : forall evs, sleeps evs = [wait_after e (rc + 1)] ->
              exists st',
                page_attempts get_page target g (rc + 1) (demit evs (dcall st)) =
                  (Returned (all_deals st ++ filter_page target (results pg)), st') /\
                calls st' = (calls st + S (length (e :: errors)))%nat /\
                sleeps (dtrace st') = sleeps (dtrace st) ++ waits_from rc (e :: errors)).
    { intros evs Hevs.
      destruct (IH (rc + 1) g (demit evs (dcall st))) as (st' & Hrun & Hc & Hs).
      - lia.
      - lia.
      - lia.
      - intros i e' a Hi. cbn [calls demit dcall].
        replace (S (calls st) + i)%nat with (calls st + S i)%nat by lia.
        now apply Herr.
      - intros a. cbn [calls demit dcall].
        replace (S (calls st) + length errors)%nat
          with (calls st + length (e :: errors))%nat by (cbn [length]; lia).
        apply Hpg.
      - exists st'. split; [exact Hrun|].
        cbn [calls dtrace all_deals demit dcall] in Hc, Hs. split; [cbn [length]; lia|].
        rewrite Hs, !sleeps_app, Hevs. cbn [sleeps flat_map app waits_from].
        now rewrite app_nil_r, <- app_assoc. }
    destruct (Z.geb_spec (rc + 1) max_retries) as [Hstop|_]; [lia|].
    destruct e as [status m| | | | |]; try (now apply Hstep).
    cbn [wait_after] in Hstep.
    destruct (status =? 429); now apply Hstep.
Qed.

(** X18: up to four failed calls in a row for a page, of any kind
    (rate limits, API errors, other exceptions), are retried and do not
    change the result: the fetch returns the deals of the page, after one
    call per failure and one more, waiting after each failure the capped
    doubling delay for a rate limit and 5 seconds for any other error. *)
Theorem fetch_all_deals_absorbs_failures (errors : list exn) :
  (length errors <= 4)%nat ->
  exists st,
    fetch_all_deals (flaky errors pg) target 1 =
      Some (Ret (filter_page target (results pg)), st) /\
    calls st = S (length errors) /\
    sleeps (dtrace st) = waits_from 0 errors.
Proof.
  intros Hlen. unfold fetch_all_deals. rewrite pages_step.
  change (Z.to_nat max_retries) with 5%nat.
  match goal with
  | |- context [page_attempts ?gp _ _ _ ?s] =>
      destruct (page_attempts_flaky gp errors 0 5 s) as (st' & Hrun & Hc & Hs)
  end.
  - lia.
  - unfold max_retries. lia.
  - lia.
  - intros i e a Hi. unfold flaky. cbn [calls dstate0 Nat.add]. now rewrite Hi.
  - intros a. unfold flaky. cbn [calls dstate0 Nat.add].
    now rewrite (proj2 (nth_error_None errors (length errors)) (le_n _)).
  - rewrite Hrun. exists st'. split; [reflexivity|]. split; [exact Hc | exact Hs].
Qed.

End FetchRetries.

Lemma fetch_all_deals_absorbs_failures_witness :
  exists st,
    fetch_all_deals
      (flaky [ApiException 429 "Too Many Requests"; OSError "timed out";
              ApiException 502 "Bad Gateway"; ApiException 429 "Too Many Requests"]
             {| results := [Sample.deal_in_evaluation]; paging_next := None |})
      None 1 = Some (Ret [Sample.deal_in_evaluation], st) /\
    calls st = 5%nat /\
    sleeps (dtrace st) = [20; 5; 5; 60].
Proof.
  apply (fetch_all_deals_absorbs_failures None
           {| results := [Sample.deal_in_evaluation]; paging_next := None |} eq_refl
           [ApiException 429 "Too Many Requests"; OSError "timed out";
            ApiException 502 "Bad Gateway"; ApiException 429 "Too Many Requests"]).
  cbn. lia.
Defined.

(** ** Further properties of the loader and of the run *)

Section LoadComposition.
Context `{RT : PyRuntime}.

Lemma rows_for_other_date (d d' : string) (wh : warehouse) :
  d <> d' ->
  rows_for d wh = List.filter (fun r => String.eqb (snapshot_date r) d) (rows_not_for d' wh).
Proof.
  intros Hne. destruct wh as [t|]; [|reflexivity]. cbn [rows_for rows_not_for].
  induction t as [|r t IH]; [reflexivity|].
  cbn [List.filter]. destruct (String.eqb_spec (snapshot_date r) d) as [Hd|Hd].
  - destruct (String.eqb_spec (snapshot_date r) d') as [Hd'|Hd']; [congruence|].
    cbn [negb List.filter]. rewrite (proj2 (String.eqb_eq _ _) Hd). now rewrite IH.
  - destruct (String.eqb (snapshot_date r) d'); cbn [negb List.filter]; [exact IH|].
    rewrite (proj2 (String.eqb_neq _ _) Hd). exact IH.
Qed.

(** X7: loads of two different snapshot dates accumulate: after loading
    a batch of one date and then a batch of another, the table holds
    exactly the first batch for the first date and exactly the second
    for the second, and the rows of every other date are as before. *)
Theorem load_snapshots_accumulate (df1 df2 : list deal_row) (wh : warehouse)
    (d1 d2 : string) :
  df1 <> [] -> df2 <> [] -> d1 <> "" -> d2 <> "" -> d1 <> d2 ->
  Forall (fun r => snapshot_date r = d1) df1 ->
  Forall (fun r => snapshot_date r = d2) df2 ->
  let wh2 := snd (load_to_bigquery df2 (snd (load_to_bigquery df1 wh))) in
  rows_for d1 wh2 = df1 /\
  rows_for d2 wh2 = df2 /\
  (forall d, d <> d1 -> d <> d2 -> rows_for d wh2 = rows_for d wh).
Proof.
  intros Hne1 Hne2 Hd1 Hd2 Hd Hall1 Hall2 wh2.
  destruct (load_once df1 wh d1 Hne1 Hd1 Hall1) as [H1 H1'].
  destruct (load_once df2 (snd (load_to_bigquery df1 wh)) d2 Hne2 Hd2 Hall2) as [H2 H2'].
  fold wh2 in H2, H2'. repeat split.
  - rewrite (rows_for_other_date d1 d2 wh2 Hd), H2'.
    now rewrite <- (rows_for_other_date d1 d2 _ Hd).
  - exact H2.
  - intros d Hn1 Hn2.
    rewrite (rows_for_other_date d d2 wh2 Hn2), H2'.
    rewrite <- (rows_for_other_date d d2 _ Hn2).
    rewrite (rows_for_other_date d d1 _ Hn1), H1'.
    now rewrite <- (rows_for_other_date d d1 _ Hn1).
Qed.

Lemma transform_deal_id (d : deal) (contacts : list contact) (snapshot : datetime)
    (pd : pipelines_dict_t) (sd : stages_dict_t) (od : owners_dict_t) (row : deal_row) :
  transform_deal d contacts snapshot pd sd od = Ret row ->
  hs_object_id row = props_get_str (properties d) "hs_object_id" /\
  snapshot_date row = date_isoformat snapshot /\
  contact_count row = length contacts.
Proof.
  unfold transform_deal.
  destruct (resolve_labels pd sd _ _) as [pl dl].
  destruct (if PyStr.truthy (props_get_or_empty _ "hubspot_owner_id") then _ else _)
    as [on oe].
  intros H.
  apply bind_ret_inv in H as (created & Hc & H).
  apply bind_ret_inv in H as (closed & Hcl & H).
  apply bind_ret_inv in H as (modified & Hm & H).
  apply bind_ret_inv in H as (dsc & Hdsc & H).
  apply bind_ret_inv in H as (ent & Hent & H).
  apply bind_ret_inv in H as (dtc & Hdtc & H).
  apply bind_ret_inv in H as (ciso & Hciso & H).
  apply bind_ret_inv in H as (criso & Hcriso & H).
  inversion H; subst row; clear H. repeat split.
Qed.

(** What a returned batch holds: one row per deal, in order, all of the
    snapshot's date. *)
Lemma transform_deals_rows (contacts_of : string -> contacts_api) (deals : list deal)
    (snapshot : datetime) (pd : pipelines_dict_t) (sd : stages_dict_t)
    (od : owners_dict_t) (df : list deal_row) :
  transform_deals contacts_of deals snapshot pd sd od = Ret df ->
  map hs_object_id df = map (fun d => props_get_str (properties d) "hs_object_id") deals /\
  Forall (fun row => snapshot_date row = date_isoformat snapshot) df.
Proof.
  revert df. induction deals as [|d rest IH]; intros df H.
  - cbn [transform_deals] in H. inversion H. now split.
  - cbn [transform_deals] in H.
    apply bind_ret_inv in H as (contacts & Hc & H).
    apply bind_ret_inv in H as (row & Hrow & H).
    apply bind_ret_inv in H as (rows & Hrows & H).
    inversion H; subst df; clear H.
    destruct (IH rows Hrows) as [Hids Hdates].
    destruct (transform_deal_id _ _ _ _ _ _ _ Hrow) as (Hid & Hdate & _).
    cbn [map]. split; [now rewrite Hid, Hids | now constructor].
Qed.

(** X8: the transformer and the loader compose into a replacement of
    the day's snapshot: when the transformer returns a batch for a
    non-empty list of deals, the batch has one row per deal, in the order
    of the deals and under their ids, every row carries the snapshot's
    date, and loading it leaves in the table, for that date, exactly the
    batch, whatever the table held, and the other dates untouched. *)
Theorem transform_then_load (contacts_of : string -> contacts_api) (deals : list deal)
    (snapshot : datetime) (pd : pipelines_dict_t) (sd : stages_dict_t)
    (od : owners_dict_t) (df : list deal_row) (wh : warehouse) :
  deals <> [] ->
  transform_deals contacts_of deals snapshot pd sd od = Ret df ->
  map hs_object_id df = map (fun d => props_get_str (properties d) "hs_object_id") deals /\
  fst (load_to_bigquery df wh) = Z.of_nat (length deals) /\
  rows_for (date_isoformat snapshot) (snd (load_to_bigquery df wh)) = df /\
  rows_not_for (date_isoformat snapshot) (snd (load_to_bigquery df wh)) =
    rows_not_for (date_isoformat snapshot) wh.
Proof.
  intros Hne H. destruct (transform_deals_rows _ _ _ _ _ _ _ H) as [Hids Hdates].
  assert (Hlen : length df = length deals).
  { rewrite <- (length_map hs_object_id df), Hids. apply length_map. }
  assert (Hdf : df <> []).
  { destruct df; [|discriminate]. destruct deals; [congruence | discriminate Hlen]. }
  destruct (load_once df wh _ Hdf (date_isoformat_truthy snapshot) Hdates) as [H1 H2].
  rewrite (load_deletes_then_appends df wh _ Hdf (date_isoformat_truthy snapshot) Hdates)
    in *.
  cbn [fst snd] in *. now rewrite Hlen.
Qed.

Lemma restamp_dates (timestamp date : string) (rows : list deal_row) :
  Forall (fun r => snapshot_date r = date) (map (restamp timestamp date) rows).
Proof. induction rows as [|r rows IH]; constructor; [reflexivity | exact IH]. Qed.

Lemma map_not_nil {A B} (f : A -> B) (l : list A) : l <> [] -> map f l <> [].
Proof. destruct l; [congruence | discriminate]. Qed.

End LoadComposition.

Lemma load_snapshots_accumulate_witness :
  let later := map (restamp "2024-03-02T06:00:00+00:00" "2024-03-02") Sample.rows in
  let wh2 := snd (load_to_bigquery later (snd (load_to_bigquery Sample.rows None))) in
  rows_for "2024-03-01" wh2 = Sample.rows /\ rows_for "2024-03-02" wh2 = later.
Proof.
  assert (Hne : Sample.rows <> []) by (value_of Sample.rows; discriminate).
  assert (Hall : Forall (fun r => snapshot_date r = "2024-03-01") Sample.rows).
  { value_of Sample.rows. repeat constructor. }
  destruct (load_snapshots_accumulate (RT := Reference.runtime) Sample.rows
              (map (restamp "2024-03-02T06:00:00+00:00" "2024-03-02") Sample.rows) None
              "2024-03-01" "2024-03-02" Hne (map_not_nil _ _ Hne)
              ltac:(discriminate) ltac:(discriminate) ltac:(discriminate) Hall
              (restamp_dates _ _ _)) as (H1 & H2 & _).
  exact (conj H1 H2).
Defined.

Lemma transform_then_load_witness :
  exists df,
    transform_deals (RT := Reference.runtime) (fun _ => Sample.no_associations)
      [Sample.deal_in_evaluation; Sample.deal_won_back] Sample.snapshot
      Sample.pipelines_dict Sample.stages_dict ∅ = Ret df /\
    fst (load_to_bigquery df None) =
      Z.of_nat (length [Sample.deal_in_evaluation; Sample.deal_won_back]) /\
    rows_for (date_isoformat Sample.snapshot) (snd (load_to_bigquery df None)) = df.
Proof.
  assert (Hne : [Sample.deal_in_evaluation; Sample.deal_won_back] <> []) by discriminate.
  destruct (transform_deals_returns (RT := Reference.runtime)
              (fun _ => Sample.no_associations)
              [Sample.deal_in_evaluation; Sample.deal_won_back] Sample.snapshot 0
              Sample.pipelines_dict Sample.stages_dict ∅ eq_refl) as (df & H & _).
  exists df. split; [exact H|].
  destruct (transform_then_load (RT := Reference.runtime)
              (fun _ => Sample.no_associations)
              [Sample.deal_in_evaluation; Sample.deal_won_back] Sample.snapshot
              Sample.pipelines_dict Sample.stages_dict ∅ df None Hne H)
    as (_ & Hn & Hrows & _).
  exact (conj Hn Hrows).
Defined.

Section RunErrors.
Context `{RT : PyRuntime}.

Variable fuel : nat.
Variable cfg : config.
Variable w : world.
Variable wh : warehouse.


End RunErrors.


(** ** Further properties of the reference data *)

Section PipelineTarget.

Lemma add_pipeline_target (pl : api_pipeline) (st : pipelines_state) :
  p_label pl = TARGET_PIPELINE_NAME ->
  ps_target (add_pipeline pl st) = Some (p_id pl).
Proof.
  intros Hl. unfold add_pipeline.
  match goal with
  | |- ps_target (add_stages ?pid ?i ?ss ?s) = _ =>
      rewrite (proj1 (add_stages_target pid ss i s))
  end.
  cbn [ps_target]. now rewrite Hl, String.eqb_refl.
Qed.

Lemma add_pipelines_snoc (results : list api_pipeline) (pl : api_pipeline)
    (st : pipelines_state) :
  add_pipelines (results ++ [pl]) st = add_pipeline pl (add_pipelines results st).
Proof. unfold add_pipelines. now rewrite fold_left_app. Qed.

Lemma add_pipelines_target_cases (results : list api_pipeline) (st : pipelines_state) :
  (ps_target (add_pipelines results st) = ps_target st /\
   Forall (fun pl => p_label pl <> TARGET_PIPELINE_NAME) results) \/
  (exists before pl after,
     results = before ++ pl :: after /\
     p_label pl = TARGET_PIPELINE_NAME /\
     Forall (fun pl => p_label pl <> TARGET_PIPELINE_NAME) after /\
     ps_target (add_pipelines results st) = Some (p_id pl)).
Proof.
  induction results as [|pl results IH] using rev_ind.
  - left. split; [reflexivity | constructor].
  - rewrite add_pipelines_snoc.
    destruct (String.eqb_spec (p_label pl) TARGET_PIPELINE_NAME) as [Ht|Hn].
    + right. exists results, pl, []. repeat split; [assumption | constructor |].
      now apply add_pipeline_target.
    + rewrite (proj1 (add_pipeline_other pl _ Hn)).
      destruct IH as [[Heq Hall]|(before & p & after & -> & Hp & Hafter & Heq)].
      * left. split; [exact Heq|]. apply Forall_app. split; [exact Hall|].
        constructor; [exact Hn | constructor].
      * right. exists before, p, (after ++ [pl]).
        rewrite <- app_assoc. repeat split; try assumption.
        apply Forall_app. split; [exact Hafter|].
        constructor; [exact Hn | constructor].
Qed.

(** X10: the target pipeline id that fetch_pipelines returns from a
    listing is the id of the last pipeline of the listing whose label is
    the target name, and it is null exactly when no pipeline of the
    listing bears that name. *)
Theorem fetch_pipelines_target_last_match (results : list api_pipeline) :
  match snd (fst (fetch_pipelines (Ret results))) with
  | Some id =>
      exists before pl after,
        results = before ++ pl :: after /\
        p_label pl = TARGET_PIPELINE_NAME /\ p_id pl = id /\
        Forall (fun pl => p_label pl <> TARGET_PIPELINE_NAME) after
  | None => Forall (fun pl => p_label pl <> TARGET_PIPELINE_NAME) results
  end.
Proof.
  unfold fetch_pipelines. cbn [fst snd].
  match goal with
  | |- context [add_pipelines results ?s] =>
      destruct (add_pipelines_target_cases results s)
        as [[Heq Hall]|(before & p & after & Hres & Hp & Hafter & Heq)]
  end.
  - rewrite Heq. exact Hall.
  - rewrite Heq. now exists before, p, after.
Qed.

End PipelineTarget.

Section ODictFacts.
Context {V : Type}.

Lemma odict_get_set_eq (k : string) (v : V) (d : ODict.t V) :
  ODict.get (ODict.set k v d) k = Some v.
Proof.
  induction d as [|[k' v'] d IH]; cbn [ODict.set ODict.get].
  - now rewrite String.eqb_refl.
  - destruct (String.eqb k' k) eqn:He; cbn [ODict.get]; rewrite He; [reflexivity | exact IH].
Qed.

Lemma odict_get_set_ne (k k0 : string) (v : V) (d : ODict.t V) :
  k <> k0 -> ODict.get (ODict.set k v d) k0 = ODict.get d k0.
Proof.
  intros Hne. induction d as [|[k' v'] d IH]; cbn [ODict.set ODict.get].
  - now rewrite (proj2 (String.eqb_neq k k0) Hne).
  - destruct (String.eqb_spec k' k) as [->|Hk]; cbn [ODict.get].
    + now rewrite (proj2 (String.eqb_neq k k0) Hne).
    + now rewrite IH.
Qed.

Lemma odict_get_alter_eq (f : V -> V) (k : string) (d : ODict.t V) :
  ODict.get (ODict.alter f k d) k = option_map f (ODict.get d k).
Proof.
  unfold ODict.alter. induction d as [|[k' v'] d IH]; [reflexivity|].
  cbn [map fst snd ODict.get].
  destruct (String.eqb k' k) eqn:He; cbn [ODict.get fst]; rewrite He; [reflexivity | exact IH].
Qed.

Lemma odict_get_alter_ne (f : V -> V) (k k0 : string) (d : ODict.t V) :
  k <> k0 -> ODict.get (ODict.alter f k d) k0 = ODict.get d k0.
Proof.
  intros Hne. unfold ODict.alter. induction d as [|[k' v'] d IH]; [reflexivity|].
  cbn [map fst snd ODict.get].
  destruct (String.eqb_spec k' k) as [->|Hk]; cbn [ODict.get fst].
  - now rewrite (proj2 (String.eqb_neq k k0) Hne), IH.
  - now rewrite IH.
Qed.

End ODictFacts.

Section PipelineLabels.

(** The entry of pipeline [pid] after its stages were added: the label
    is kept and every stage is found under its id. *)
Lemma add_stages_entry (pid : string) (stages : list api_stage) (idx : nat)
    (st : pipelines_state) (e : pipeline_entry) :
  ODict.get (ps_pipelines st) pid = Some e ->
  List.NoDup (map s_id stages) ->
  exists e',
    ODict.get (ps_pipelines (add_stages pid idx stages st)) pid = Some e' /\
    pe_label e' = pe_label e /\
    (forall s, In s stages -> pe_stages e' !! s_id s = Some (s_label s)) /\
    (forall sid, ~ In sid (map s_id stages) -> pe_stages e' !! sid = pe_stages e !! sid).
Proof.
  revert idx st e. induction stages as [|s0 stages IH]; intros idx st e Hget Hnd.
  - exists e. repeat split; [exact Hget | intros s []].
  - cbn [add_stages]. inversion Hnd as [|? ? Hnotin Hnd']; subst.
    destruct (IH (S idx) (add_stage pid idx s0 st)
                {| pe_label := pe_label e;
                   pe_stages := <[s_id s0 := s_label s0]> (pe_stages e);
                   pe_stage_order := <[s_id s0 := idx]> (pe_stage_order e) |})
      as (e' & Hget' & Hlabel & Hin & Hout).
    + cbn [add_stage ps_pipelines]. rewrite odict_get_alter_eq, Hget. reflexivity.
    + exact Hnd'.
    + exists e'. split; [exact Hget'|]. split; [exact Hlabel|]. split.
      * intros s [<-|Hs]; [|now apply Hin].
        rewrite (Hout _ Hnotin). cbn [pe_stages]. apply lookup_insert_eq.
      * intros sid Hsid. cbn [map] in Hsid.
        rewrite Hout by (intros H; apply Hsid; now right).
        cbn [pe_stages]. apply lookup_insert_ne. intros Heq. apply Hsid. now left.
Qed.

Lemma add_stages_other (pid k : string) (stages : list api_stage) (idx : nat)
    (st : pipelines_state) :
  pid <> k ->
  ODict.get (ps_pipelines (add_stages pid idx stages st)) k = ODict.get (ps_pipelines st) k.
Proof.
  intros Hne. revert idx st. induction stages as [|s0 stages IH]; intros idx st;
    [reflexivity|].
  cbn [add_stages]. rewrite IH. cbn [add_stage ps_pipelines].
  now apply odict_get_alter_ne.
Qed.

Lemma add_pipeline_entry (pl : api_pipeline) (st : pipelines_state) :
  List.NoDup (map s_id (p_stages pl)) ->
  exists e',
    ODict.get (ps_pipelines (add_pipeline pl st)) (p_id pl) = Some e' /\
    pe_label e' = p_label pl /\
    (forall s, In s (p_stages pl) -> pe_stages e' !! s_id s = Some (s_label s)).
Proof.
  intros Hnd. unfold add_pipeline.
  match goal with
  | |- context [add_stages ?pid ?i ?ss ?s] =>
      destruct (add_stages_entry pid ss i s
                  {| pe_label := p_label pl; pe_stages := ∅; pe_stage_order := ∅ |})
        as (e' & Hget & Hlabel & Hin & _)
  end.
  - cbn [ps_pipelines]. apply odict_get_set_eq.
  - exact Hnd.
  - exists e'. now repeat split.
Qed.

Lemma add_pipeline_other_entry (pl : api_pipeline) (k : string) (st : pipelines_state) :
  p_id pl <> k ->
  ODict.get (ps_pipelines (add_pipeline pl st)) k = ODict.get (ps_pipelines st) k.
Proof.
  intros Hne. unfold add_pipeline. rewrite add_stages_other by exact Hne.
  cbn [ps_pipelines]. now apply odict_get_set_ne.
Qed.

Lemma add_pipelines_other_entry (results : list api_pipeline) (k : string)
    (st : pipelines_state) :
  ~ In k (map p_id results) ->
  ODict.get (ps_pipelines (add_pipelines results st)) k = ODict.get (ps_pipelines st) k.
Proof.
  revert st. induction results as [|pl results IH]; intros st Hk; [reflexivity|].
  unfold add_pipelines in *. cbn [fold_left]. cbn [map] in Hk.
  rewrite IH by (intros H; apply Hk; now right).
  apply add_pipeline_other_entry. intros H. apply Hk. now left.
Qed.

Lemma add_pipelines_entry (results : list api_pipeline) (pl : api_pipeline)
    (st : pipelines_state) :
  List.NoDup (map p_id results) -> In pl results ->
  List.NoDup (map s_id (p_stages pl)) ->
  exists e',
    ODict.get (ps_pipelines (add_pipelines results st)) (p_id pl) = Some e' /\
    pe_label e' = p_label pl /\
    (forall s, In s (p_stages pl) -> pe_stages e' !! s_id s = Some (s_label s)).
Proof.
  revert st. induction results as [|p0 results IH]; intros st Hnd Hin Hst; [destruct Hin|].
  cbn [map] in Hnd. inversion Hnd as [|? ? Hnotin Hnd']; subst.
  unfold add_pipelines in *. cbn [fold_left].
  destruct Hin as [->|Hin].
  - destruct (add_pipeline_entry pl st Hst) as (e' & Hget & Hrest).
    exists e'. split; [|exact Hrest].
    fold (add_pipelines results (add_pipeline pl st)).
    now rewrite add_pipelines_other_entry.
  - now apply IH.
Qed.

(** X11: the labels the transformer resolves for a deal are those of
    the listing the reference data was loaded from: when the pipelines
    of the listing have distinct ids, a deal in a listed pipeline (with a
    non-empty id) and in one of its stages (distinct ids within the
    pipeline, a non-empty label) gets that pipeline's label and that
    stage's label. *)
Theorem resolve_labels_listed (results : list api_pipeline) (pl : api_pipeline)
    (s : api_stage) :
  List.NoDup (map p_id results) -> In pl results ->
  List.NoDup (map s_id (p_stages pl)) -> In s (p_stages pl) ->
  p_id pl <> "" -> s_label s <> "" ->
  resolve_labels (fst (fst (fst (fetch_pipelines (Ret results)))))
                 (snd (fst (fst (fetch_pipelines (Ret results)))))
                 (p_id pl) (s_id s) =
  (p_label pl, s_label s).
Proof.
  intros Hnd Hin Hst Hs Hid Hlabel. unfold fetch_pipelines. cbn [fst snd].
  match goal with
  | |- context [add_pipelines results ?st] =>
      destruct (add_pipelines_entry results pl st Hnd Hin Hst) as (e' & Hget & Hl & Hstages)
  end.
  unfold resolve_labels. rewrite Hget, (Hstages s Hs), Hl.
  destruct (p_id pl) as [|c t]; [congruence|]. cbn [PyStr.truthy].
  destruct (s_label s) as [|c' t']; [congruence|]. reflexivity.
Qed.

End PipelineLabels.

Lemma resolve_labels_listed_witness :
  resolve_labels
    (fst (fst (fst (fetch_pipelines (Ret [Sample.sales_pipeline; Sample.other_pipeline])))))
    (snd (fst (fst (fetch_pipelines (Ret [Sample.sales_pipeline; Sample.other_pipeline])))))
    "p9" "r1" = ("Renewals", "Negotiation").
Proof.
  apply (resolve_labels_listed [Sample.sales_pipeline; Sample.other_pipeline]
           Sample.other_pipeline {| s_id := "r1"; s_label := "Negotiation" |}).
  - repeat constructor; cbn; intuition discriminate.
  - right. now left.
  - repeat constructor. cbn. intuition.
  - now left.
  - discriminate.
  - discriminate.
Defined.

(** ** Further properties of the contact fetcher *)

Lemma seq_first (n : nat) : (1 <= n)%nat -> seq 0 n = 0%nat :: seq 1 (n - 1).
Proof. destruct n as [|k]; [lia|]. intros _. cbn [seq]. now rewrite Nat.sub_succ, Nat.sub_0_r. Qed.

Section ContactIds.
Variable api : contacts_api.
Variable deal_id : string.
Variable max_retries : nat.

(** A hydrated contact carries the id it was asked under. *)
Lemma contact_loop_id (cid : string) (attempts : list nat) (st st' : cstate)
    (c : contact) :
  contact_loop api max_retries cid attempts st = (Some c, st') -> c_id c = cid.
Proof.
  revert st. induction attempts as [|i rest IH]; intros st; [discriminate|].
  cbn [contact_loop].
  destruct (get_by_id api (calls_get st) cid) as [p|e].
  - now intros [= <- _].
  - destruct e as [status m|m|m|m|m|m];
      try (destruct (connection_message _); [apply IH | discriminate]).
    + destruct (status =? 403); discriminate.
    + apply IH.
Qed.

(** The contacts gathered for a batch of ids are asked in the order of
    the batch, each id at most once in the result. *)
Lemma fetch_contacts_ids (ids : list string) (acc : list contact) (st : cstate) :
  exists kept,
    map c_id (fst (fetch_contacts api max_retries ids acc st)) = map c_id acc ++ kept /\
    sublist kept ids.
Proof.
  revert acc st. induction ids as [|cid rest IH]; intros acc st.
  - exists []. split; [now rewrite app_nil_r | constructor].
  - cbn [fetch_contacts].
    destruct (contact_loop api max_retries cid (seq 0 max_retries) st)
      as [[c|] st1] eqn:Hc.
    + destruct (IH (acc ++ [c]) st1) as (kept & Hk & Hsub).
      exists (cid :: kept). split; [|now constructor].
      rewrite Hk, map_app, <- app_assoc. cbn [map app].
      now rewrite (contact_loop_id _ _ _ _ _ Hc).
    + destruct (IH acc st1) as (kept & Hk & Hsub).
      exists kept. split; [exact Hk | now constructor].
Qed.

(** When every hydration call answers, every id of the batch gives its
    contact. *)
Lemma fetch_contacts_complete (ids : list string) (acc : list contact) (st : cstate) :
  (1 <= max_retries)%nat ->
  (forall n id, In id ids -> exists p, get_by_id api n id = Ret p) ->
  map c_id (fst (fetch_contacts api max_retries ids acc st)) = map c_id acc ++ ids.
Proof.
  intros Hmax. revert acc st. induction ids as [|cid rest IH]; intros acc st H.
  - now rewrite app_nil_r.
  - cbn [fetch_contacts].
    destruct max_retries as [|k] eqn:Hk; [lia|]. cbn [seq].
    destruct (H (calls_get st) cid (or_introl eq_refl)) as [p Hp].
    rewrite (contact_loop_success_step api (S k) cid 0 (seq 1 k) st p Hp).
    rewrite IH by (intros n id Hid; apply H; now right).
    rewrite map_app, <- app_assoc. reflexivity.
Qed.

Lemma backoff_calls_v4 (what : string) (i : nat) (st : cstate) :
  calls_v4 (backoff max_retries what i st) = calls_v4 st.
Proof. unfold backoff. now destruct (_ <? _). Qed.

(** Hydrating contacts never calls the association listing. *)
Lemma contact_loop_calls_v4 (cid : string) (attempts : list nat) (st : cstate) :
  calls_v4 (snd (contact_loop api max_retries cid attempts st)) = calls_v4 st.
Proof.
  revert st. induction attempts as [|i rest IH]; intros st; [reflexivity|].
  cbn [contact_loop].
  destruct (get_by_id api (calls_get st) cid) as [p|e]; [reflexivity|].
  destruct e as [status m|m|m|m|m|m];
    try (destruct (connection_message _);
         [rewrite IH; now rewrite backoff_calls_v4 | reflexivity]).
  - now destruct (status =? 403).
  - rewrite IH. now rewrite backoff_calls_v4.
Qed.

Lemma fetch_contacts_calls_v4 (ids : list string) (acc : list contact) (st : cstate) :
  calls_v4 (snd (fetch_contacts api max_retries ids acc st)) = calls_v4 st.
Proof.
  revert acc st. induction ids as [|cid rest IH]; intros acc st; [reflexivity|].
  cbn [fetch_contacts].
  pose proof (contact_loop_calls_v4 cid (seq 0 max_retries) st) as Hc.
  destruct (contact_loop api max_retries cid (seq 0 max_retries) st) as [[c|] st1];
    cbn [snd] in Hc; rewrite IH; exact Hc.
Qed.

Lemma backoff_calls_http (what : string) (i : nat) (st : cstate) :
  calls_http (backoff max_retries what i st) = calls_http st.
Proof. unfold backoff. now destruct (_ <? _). Qed.

Lemma contact_loop_calls_http (cid : string) (attempts : list nat) (st : cstate) :
  calls_http (snd (contact_loop api max_retries cid attempts st)) = calls_http st.
Proof.
  revert st. induction attempts as [|i rest IH]; intros st; [reflexivity|].
  cbn [contact_loop].
  destruct (get_by_id api (calls_get st) cid) as [p|e]; [reflexivity|].
  destruct e as [status m|m|m|m|m|m];
    try (destruct (connection_message _);
         [rewrite IH; now rewrite backoff_calls_http | reflexivity]).
  - now destruct (status =? 403).
  - rewrite IH. now rewrite backoff_calls_http.
Qed.

Lemma fetch_contacts_calls_http (ids : list string) (acc : list contact) (st : cstate) :
  calls_http (snd (fetch_contacts api max_retries ids acc st)) = calls_http st.
Proof.
  revert acc st. induction ids as [|cid rest IH]; intros acc st; [reflexivity|].
  cbn [fetch_contacts].
  pose proof (contact_loop_calls_http cid (seq 0 max_retries) st) as Hc.
  destruct (contact_loop api max_retries cid (seq 0 max_retries) st) as [[c|] st1];
    cbn [snd] in Hc; rewrite IH; exact Hc.
Qed.

End ContactIds.

Section ContactListing.
Variable api : contacts_api.
Variable deal_id : string.
Variable max_retries : nat.
Hypothesis some_attempt : (1 <= max_retries)%nat.

(** X12: when the association listing answers at the first call, the
    contacts returned for a deal are hydrated from the listed ids only,
    in the order of the listing and each id at most once (the ids of the
    result are a subsequence of the listed ids); the listing is called
    once; and when every hydration call answers, every listed id gives
    its contact. *)
Theorem fetch_associated_contacts_ids (ids : list string) :
  v4_get_page api 0 = Ret ids ->
  exists contacts st,
    fetch_associated_contacts api deal_id max_retries = (Ret contacts, st) /\
    sublist (map c_id contacts) ids /\
    calls_v4 st = 1%nat /\ calls_http st = 0%nat /\
    ((forall n id, In id ids -> exists p, get_by_id api n id = Ret p) ->
     map c_id contacts = ids).
Proof.
  intros Hv4. unfold fetch_associated_contacts.
  rewrite (seq_first max_retries some_attempt).
  cbn [association_loop]. unfold list_associations.
  cbn [cstate0 calls_v4]. rewrite Hv4.
  destruct ids as [|id0 ids'].
  - eexists. eexists. split; [reflexivity|]. repeat split; constructor.
  - destruct (fetch_contacts api max_retries (id0 :: ids') [] (count_v4 deal_id cstate0))
      as [contacts st2] eqn:Hf.
    exists contacts, st2. split; [reflexivity|].
    destruct (fetch_contacts_ids api max_retries (id0 :: ids') []
                (count_v4 deal_id cstate0)) as (kept & Hkept & Hsub).
    rewrite Hf in Hkept. cbn [fst map app] in Hkept.
    split; [now rewrite Hkept|].
    pose proof (fetch_contacts_calls_v4 api max_retries (id0 :: ids') []
                  (count_v4 deal_id cstate0)) as Hv.
    pose proof (fetch_contacts_calls_http api max_retries (id0 :: ids') []
                  (count_v4 deal_id cstate0)) as Hh.
    rewrite Hf in Hv, Hh. cbn [snd] in Hv, Hh.
    split; [exact Hv|]. split; [exact Hh|].
    intros Hall.
    pose proof (fetch_contacts_complete api max_retries (id0 :: ids') []
                  (count_v4 deal_id cstate0) some_attempt Hall) as Hc.
    now rewrite Hf in Hc.
Qed.

(** X13: when the client has no v4 associations API the listing falls
    back to one direct HTTP call; on status 200 at most the first ten
    listed ids are hydrated, in order; on any other status no contact is
    hydrated and the function returns the empty list. *)
Theorem fetch_associated_contacts_fallback (m : string) (r : http_response) :
  v4_get_page api 0 = Raise (AttributeError m) ->
  http_get api 0 = Ret r ->
  exists contacts st,
    fetch_associated_contacts api deal_id max_retries = (Ret contacts, st) /\
    calls_http st = 1%nat /\
    (http_status r = 200 ->
     sublist (map c_id contacts) (firstn 10 (http_ids r)) /\
     (length contacts <= 10)%nat) /\
    (http_status r <> 200 -> contacts = [] /\ calls_get st = 0%nat).
Proof.
  intros Hv4 Hhttp. unfold fetch_associated_contacts.
  rewrite (seq_first max_retries some_attempt).
  cbn [association_loop]. unfold list_associations.
  cbn [cstate0 calls_v4 calls_http count_v4]. rewrite Hv4, Hhttp.
  destruct (Z.eqb_spec (http_status r) 200) as [H200|Hn200].
  - destruct (firstn 10 (http_ids r)) as [|id0 ids'] eqn:Hids.
    + eexists. eexists. split; [reflexivity|]. split; [reflexivity|].
      split; [intros _; split; [constructor | cbn; lia] | congruence].
    + match goal with
      | |- context [fetch_contacts api max_retries ?l [] ?s] =>
          destruct (fetch_contacts api max_retries l [] s) as [contacts st2] eqn:Hf;
          destruct (fetch_contacts_ids api max_retries l [] s) as (kept & Hkept & Hsub);
          pose proof (fetch_contacts_calls_http api max_retries l [] s) as Hh
      end.
      rewrite Hf in Hkept, Hh. cbn [fst snd map app] in Hkept, Hh.
      exists contacts, st2. split; [reflexivity|]. split; [exact Hh|].
      split; [|congruence]. intros _. rewrite Hkept. split; [exact Hsub|].
      rewrite <- (length_map c_id contacts), Hkept.
      apply sublist_length in Hsub. rewrite Hsub, <- Hids. apply firstn_le_length.
  - destruct (http_status r =? 403);
      (eexists; eexists; split; [reflexivity|]; split; [reflexivity|];
       split; [congruence | intros _; split; reflexivity]).
Qed.

End ContactListing.

Lemma fetch_associated_contacts_ids_witness :
  exists contacts st,
    fetch_associated_contacts three_contacts "101" 3 = (Ret contacts, st) /\
    map c_id contacts = ["c1"; "c3"] /\
    sublist (map c_id contacts) ["c1"; "c2"; "c3"] /\
    calls_v4 st = 1%nat.
Proof.
  destruct (fetch_associated_contacts_ids three_contacts "101" 3 ltac:(lia)
              ["c1"; "c2"; "c3"] eq_refl) as (contacts & st & H & Hsub & Hv & _).
  exists contacts, st. split; [exact H|]. split; [|exact (conj Hsub Hv)].
  assert (Hids : map c_id (match fst (fetch_associated_contacts three_contacts "101" 3) with
                           | Ret cs => cs
                           | Raise _ => []
                           end) = ["c1"; "c3"]) by evaluate.
  now rewrite H in Hids.
Defined.

Lemma fetch_associated_contacts_fallback_witness :
  exists contacts st,
    fetch_associated_contacts twelve_contacts "101" 3 = (Ret contacts, st) /\
    (length contacts <= 10)%nat /\
    map c_id contacts = ["1"; "2"; "3"; "4"; "5"; "6"; "7"; "8"; "9"; "10"].
Proof.
  destruct (fetch_associated_contacts_fallback twelve_contacts "101" 3 ltac:(lia)
              "no attribute 'v4'" _ eq_refl eq_refl)
    as (contacts & st & H & _ & H200 & _).
  exists contacts, st. split; [exact H|]. split; [exact (proj2 (H200 eq_refl))|].
  assert (Hids : map c_id (match fst (fetch_associated_contacts twelve_contacts "101" 3) with
                           | Ret cs => cs
                           | Raise _ => []
                           end) = ["1"; "2"; "3"; "4"; "5"; "6"; "7"; "8"; "9"; "10"])
    by evaluate.
  now rewrite H in Hids.
Defined.

(** ** The owners dictionary *)

Section OwnerFacts.

Lemma find_app {A} (f : A -> bool) (a b : list A) :
  find f (a ++ b) = match find f a with Some x => Some x | None => find f b end.
Proof.
  induction a as [|x a IH]; [reflexivity|].
  cbn [app find]. now destruct (f x).
Qed.

Lemma fold_active_calls (os : list api_owner) (st : ostate) :
  owner_calls (fold_left (fun st o => add_active o st) os st) = owner_calls st.
Proof. revert st. induction os as [|o os IH]; intros st; [reflexivity|]. cbn [fold_left]. now rewrite IH. Qed.

Lemma add_archived_calls (o : api_owner) (st : ostate) :
  owner_calls (add_archived o st) = owner_calls st.
Proof. unfold add_archived. now destruct (owners_dict st !! ow_id o). Qed.

Lemma fold_archived_calls (os : list api_owner) (st : ostate) :
  owner_calls (fold_left (fun st o => add_archived o st) os st) = owner_calls st.
Proof.
  revert st. induction os as [|o os IH]; intros st; [reflexivity|].
  cbn [fold_left]. rewrite IH. apply add_archived_calls.
Qed.

(** After the active owners of a listing were stored, an id is found
    with the entry of the last owner listed under it. *)
Lemma fold_active_lookup (os : list api_owner) (st : ostate) (id : string) :
  owners_dict (fold_left (fun st o => add_active o st) os st) !! id =
  match find (fun o => String.eqb (ow_id o) id) (rev os) with
  | Some o => Some (active_entry o)
  | None => owners_dict st !! id
  end.
Proof.
  revert st. induction os as [|o os IH]; intros st; [reflexivity|].
  cbn [fold_left rev]. rewrite IH, find_app.
  destruct (find _ (rev os)); [reflexivity|].
  cbn [find add_active owners_dict].
  destruct (String.eqb_spec (ow_id o) id) as [->|Hne].
  - apply lookup_insert_eq.
  - now apply lookup_insert_ne.
Qed.

(** After the archived owners were stored, an id that was present keeps
    its entry, and a new id has the entry of the first archived owner
    listed under it. *)
Lemma fold_archived_lookup (os : list api_owner) (st : ostate) (id : string) :
  owners_dict (fold_left (fun st o => add_archived o st) os st) !! id =
  match owners_dict st !! id with
  | Some v => Some v
  | None =>
      match find (fun o => String.eqb (ow_id o) id) os with
      | Some o => Some (archived_entry o)
      | None => None
      end
  end.
Proof.
  revert st. induction os as [|o os IH]; intros st.
  - cbn [fold_left find]. now destruct (owners_dict st !! id).
  - cbn [fold_left find]. rewrite IH. unfold add_archived.
    destruct (owners_dict st !! ow_id o) as [v|] eqn:Hold.
    + destruct (String.eqb_spec (ow_id o) id) as [<-|Hne]; [now rewrite Hold|reflexivity].
    + cbn [owners_dict].
      destruct (String.eqb_spec (ow_id o) id) as [<-|Hne].
      * now rewrite lookup_insert_eq, Hold.
      * now rewrite lookup_insert_ne by exact Hne.
Qed.

End OwnerFacts.

Section OwnerLoop.
Variable get_page : owners_api.
Variable archived : bool.
Variable add : api_owner -> ostate -> ostate.
Hypothesis add_calls : forall o st, owner_calls (add o st) = owner_calls st.
Hypothesis add_dict :
  forall o st st', owners_dict st = owners_dict st' ->
                   owners_dict (add o st) = owners_dict (add o st').

Lemma fold_add_calls (os : list api_owner) (st : ostate) :
  owner_calls (fold_left (fun st o => add o st) os st) = owner_calls st.
Proof.
  revert st. induction os as [|o os IH]; intros st; [reflexivity|].
  cbn [fold_left]. now rewrite IH, add_calls.
Qed.

Lemma fold_add_dict (os : list api_owner) (st st' : ostate) :
  owners_dict st = owners_dict st' ->
  owners_dict (fold_left (fun st o => add o st) os st) =
  owners_dict (fold_left (fun st o => add o st) os st').
Proof.
  revert st st'. induction os as [|o os IH]; intros st st' H; [exact H|].
  cbn [fold_left]. apply IH, add_dict, H.
Qed.

Lemma calls_for_cons (pg pg2 : owners_page) (rest : list owners_page) :
  calls_for (pg :: pg2 :: rest) = S (calls_for (pg2 :: rest)).
Proof.
  unfold calls_for. cbn [map List.last length].
  destruct (map ow_next rest); [destruct (ow_next pg2) | destruct (List.last _ _)];
    reflexivity.
Qed.

(** A listing loop on linked pages stores the owners of all the pages,
    in order, and ends after the last page or at the failing call. *)
Lemma owners_loop_linked (rest : list owners_page) (fuel : nat) (after : option string)
    (st : ostate) :
  linked rest ->
  (forall i pg a, nth_error rest i = Some pg ->
                  get_page (owner_calls st + i) archived a = Ret pg) ->
  (forall a, exists e, get_page (owner_calls st + length rest) archived a = Raise e) ->
  (length rest < fuel)%nat ->
  exists r st',
    owners_loop get_page archived add fuel after st = Some (r, st') /\
    owners_dict st' =
      owners_dict (fold_left (fun st o => add o st) (listed_owners rest) st) /\
    owner_calls st' = (owner_calls st + calls_for rest)%nat.
Proof.
  revert fuel after st. induction rest as [|pg rest IH]; intros fuel after st Hl Hget Hfail Hf.
  - destruct fuel as [|fuel]; [cbn in Hf; lia|]. cbn [owners_loop].
    destruct (Hfail (if option_truthy after then after else None)) as [e He].
    cbn [length] in He. rewrite Nat.add_0_r in He. rewrite He.
    eexists. eexists. split; [reflexivity|]. split; [reflexivity|].
    cbn [owner_calls]. unfold calls_for. cbn. lia.
  - destruct fuel as [|fuel]; [cbn in Hf; lia|]. cbn [owners_loop].
    pose proof (Hget 0%nat pg (if option_truthy after then after else None) eq_refl) as H0.
    rewrite Nat.add_0_r in H0. rewrite H0.
    set (st1 := {| owners_dict := owners_dict st; archived_count := archived_count st;
                   owner_calls := S (owner_calls st) |}).
    set (st2 := fold_left (fun st o => add o st) (ow_results pg) st1).
    assert (Hc2 : owner_calls st2 = S (owner_calls st)).
    { unfold st2. now rewrite fold_add_calls. }
    assert (Hd2 : owners_dict st2 =
                  owners_dict (fold_left (fun st o => add o st) (ow_results pg) st)).
    { unfold st2. now apply fold_add_dict. }
    assert (Hrec : exists r st',
               owners_loop get_page archived add fuel (ow_next pg) st2 = Some (r, st') /\
               owners_dict st' =
                 owners_dict (fold_left (fun st o => add o st) (listed_owners rest) st2) /\
               owner_calls st' = (owner_calls st2 + calls_for rest)%nat).
    { apply IH.
      - destruct rest as [|pg2 rest]; [exact I | exact (proj2 Hl)].
      - intros i pg' a Hi. rewrite Hc2.
        replace (S (owner_calls st) + i)%nat with (owner_calls st + S i)%nat by lia.
        now apply Hget.
      - intros a. rewrite Hc2.
        replace (S (owner_calls st) + length rest)%nat
          with (owner_calls st + length (pg :: rest))%nat by (cbn [length]; lia).
        apply Hfail.
      - cbn [length] in Hf. lia. }
    assert (Hlisted : forall st',
              owners_dict st' =
                owners_dict (fold_left (fun st o => add o st) (listed_owners rest) st2) ->
              owners_dict st' =
                owners_dict (fold_left (fun st o => add o st)
                               (listed_owners (pg :: rest)) st)).
    { intros st' ->. unfold listed_owners. cbn [flat_map]. rewrite fold_left_app.
      now apply fold_add_dict. }
    destruct (ow_next pg) as [a|] eqn:Hnext.
    + destruct Hrec as (r & st' & Hrun & Hd & Hc).
      exists r, st'. split; [exact Hrun|]. split; [now apply Hlisted|].
      rewrite Hc, Hc2. destruct rest as [|pg2 rest].
      * unfold calls_for. cbn [map List.last length]. rewrite Hnext. lia.
      * rewrite calls_for_cons. lia.
    + destruct rest as [|pg2 rest]; [|now destruct Hl as [Hl _]].
      exists Listed, st2. split; [reflexivity|].
      split; [now apply Hlisted|].
      rewrite Hc2. unfold calls_for. cbn [map List.last length]. rewrite Hnext. lia.
Qed.

End OwnerLoop.

Section OwnerListing.
Variable active archived : list owners_page.

Lemma add_active_dict (o : api_owner) (st st' : ostate) :
  owners_dict st = owners_dict st' ->
  owners_dict (add_active o st) = owners_dict (add_active o st').
Proof. intros H. cbn [add_active owners_dict]. now rewrite H. Qed.

Lemma add_archived_dict (o : api_owner) (st st' : ostate) :
  owners_dict st = owners_dict st' ->
  owners_dict (add_archived o st) = owners_dict (add_archived o st').
Proof.
  intros H. unfold add_archived. rewrite <- H.
  destruct (owners_dict st !! ow_id o); [exact H|].
  cbn [owners_dict]. now rewrite H.
Qed.

(** X14: when the two owner listings answer with linked pages (each
    ending after its last page, or failing at the call that follows the
    pages received), fetch_owners returns a dictionary in which an id is
    found with the entry of the last active owner listed under it, and
    otherwise with that of the first archived owner listed under it
    (whose name gets the suffix " (Archived)"), and with no entry when
    neither listing names it; a failure of either listing keeps what was
    received before it. *)
Theorem fetch_owners_lookup (fuel : nat) :
  linked active -> linked archived ->
  (length active < fuel)%nat -> (length archived < fuel)%nat ->
  exists d,
    fetch_owners (serve_owners active archived) fuel =
      Some (d, (calls_for active + calls_for archived)%nat) /\
    forall id,
      d !! id = expected_owner (listed_owners active) (listed_owners archived) id.
Proof.
  intros Hla Hlb Hfa Hfb. unfold fetch_owners.
  set (st0 := {| owners_dict := ∅; archived_count := 0; owner_calls := 0 |}).
  destruct (owners_loop_linked (serve_owners active archived) false add_active
              (fun o st => eq_refl) add_active_dict active fuel None st0 Hla)
    as (r1 & st1 & Hrun1 & Hd1 & Hc1).
  { intros i pg a Hi. unfold serve_owners. cbn [owner_calls st0 Nat.add]. now rewrite Hi. }
  { intros a. eexists. unfold serve_owners. cbn [owner_calls st0 Nat.add].
    now rewrite (proj2 (nth_error_None active (length active)) (le_n _)). }
  { exact Hfa. }
  rewrite Hrun1. cbn [owner_calls st0 Nat.add] in Hc1.
  set (st1' := {| owners_dict := owners_dict st1; archived_count := 0;
                  owner_calls := owner_calls st1 |}).
  destruct (owners_loop_linked (serve_owners active archived) true add_archived
              add_archived_calls add_archived_dict archived fuel None st1' Hlb)
    as (r2 & st2 & Hrun2 & Hd2 & Hc2).
  { intros i pg a Hi. unfold serve_owners. cbn [owner_calls st1']. rewrite Hc1.
    replace (calls_for active + i - calls_for active)%nat with i by lia.
    now rewrite Hi. }
  { intros a. eexists. unfold serve_owners. cbn [owner_calls st1']. rewrite Hc1.
    replace (calls_for active + length archived - calls_for active)%nat
      with (length archived) by lia.
    now rewrite (proj2 (nth_error_None archived (length archived)) (le_n _)). }
  { exact Hfb. }
  rewrite Hrun2. cbn [owner_calls st1'] in Hc2. rewrite Hc2, Hc1.
  exists (owners_dict st2). split; [reflexivity|].
  intros id. rewrite Hd2, fold_archived_lookup. cbn [owners_dict st1'].
  rewrite Hd1, fold_active_lookup. unfold expected_owner.
  destruct (find _ (rev (listed_owners active))); [reflexivity|].
  cbn [owners_dict st0]. now rewrite lookup_empty.
Qed.

End OwnerListing.

Lemma fetch_owners_lookup_witness :
  exists d,
    fetch_owners (serve_owners OwnerSample.active_pages OwnerSample.archived_pages) 3 =
      Some (d, 3%nat) /\
    d !! "7" = Some {| o_name := "Ada Lovelace"; o_email := "ada@example.com" |} /\
    d !! "9" = Some {| o_name := "Unknown (Archived) (Archived)"; o_email := "" |} /\
    d !! "8" = None.
Proof.
  destruct (fetch_owners_lookup OwnerSample.active_pages OwnerSample.archived_pages 3)
    as (d & H & Hlookup).
  - exact I.
  - split; [discriminate | exact I].
  - cbn; lia.
  - cbn; lia.
  - exists d. split; [exact H|]. rewrite !Hlookup. repeat split.
Defined.

Section OwnerNames.

Lemma or_else_named (s d : string) : d <> "" -> or_else s d <> "".
Proof. intros Hd. unfold or_else. now destruct s. Qed.

Lemma append_named (a b : string) : b <> "" -> String.append a b <> "".
Proof. intros Hb. destruct a as [|c a]; [exact Hb | discriminate]. Qed.

Lemma add_active_named (o : api_owner) (st : ostate) :
  all_named (owners_dict st) -> all_named (owners_dict (add_active o st)).
Proof.
  intros H id v. cbn [add_active owners_dict].
  destruct (String.eqb_spec (ow_id o) id) as [<-|Hne].
  - rewrite lookup_insert_eq. intros [= <-]. cbn [active_entry o_name].
    now apply or_else_named.
  - rewrite lookup_insert_ne by exact Hne. apply H.
Qed.

Lemma add_archived_named (o : api_owner) (st : ostate) :
  all_named (owners_dict st) -> all_named (owners_dict (add_archived o st)).
Proof.
  intros H. unfold add_archived. destruct (owners_dict st !! ow_id o); [exact H|].
  intros id v. cbn [owners_dict].
  destruct (String.eqb_spec (ow_id o) id) as [<-|Hne].
  - rewrite lookup_insert_eq. intros [= <-]. cbn [archived_entry o_name].
    now apply append_named.
  - rewrite lookup_insert_ne by exact Hne. apply H.
Qed.

Lemma fold_named (add : api_owner -> ostate -> ostate) (os : list api_owner)
    (st : ostate) :
  (forall o st, all_named (owners_dict st) -> all_named (owners_dict (add o st))) ->
  all_named (owners_dict st) ->
  all_named (owners_dict (fold_left (fun st o => add o st) os st)).
Proof.
  intros Hadd. revert st. induction os as [|o os IH]; intros st H; [exact H|].
  cbn [fold_left]. apply IH, Hadd, H.
Qed.

Lemma owners_loop_named (get_page : owners_api) (archived : bool)
    (add : api_owner -> ostate -> ostate) (fuel : nat) (after : option string)
    (st st' : ostate) (r : listing_end) :
  (forall o st, all_named (owners_dict st) -> all_named (owners_dict (add o st))) ->
  all_named (owners_dict st) ->
  owners_loop get_page archived add fuel after st = Some (r, st') ->
  all_named (owners_dict st').
Proof.
  intros Hadd. revert after st. induction fuel as [|fuel IH]; intros after st H;
    [discriminate|].
  cbn [owners_loop].
  destruct (get_page _ _ _) as [pg|e]; [|now intros [= _ <-]].
  assert (H2 : all_named (owners_dict
                 (fold_left (fun st o => add o st) (ow_results pg)
                    {| owners_dict := owners_dict st;
                       archived_count := archived_count st;
                       owner_calls := S (owner_calls st) |}))).
  { now apply fold_named. }
  destruct (ow_next pg) as [a|]; [now apply IH | now intros [= _ <-]].
Qed.

Lemma fetch_owners_named (get_page : owners_api) (fuel : nat) (d : owners_dict_t)
    (n : nat) :
  fetch_owners get_page fuel = Some (d, n) -> all_named d.
Proof.
  unfold fetch_owners.
  destruct (owners_loop get_page false add_active fuel None _) as [[r1 st1]|] eqn:H1;
    [|discriminate].
  destruct (owners_loop get_page true add_archived fuel None _) as [[r2 st2]|] eqn:H2;
    [|discriminate].
  intros [= <- _].
  eapply owners_loop_named; [exact add_archived_named | | exact H2].
  cbn [owners_dict].
  eapply owners_loop_named; [exact add_active_named | | exact H1].
  intros id v. cbn [owners_dict]. now rewrite lookup_empty.
Qed.

End OwnerNames.

Section OwnerColumn.
Context `{RT : PyRuntime}.

Lemma transform_deal_owner (d : deal) (contacts : list contact) (snapshot : datetime)
    (pd : pipelines_dict_t) (sd : stages_dict_t) (od : owners_dict_t) (row : deal_row) :
  transform_deal d contacts snapshot pd sd od = Ret row ->
  owner_name row =
    (if PyStr.truthy (hubspot_owner_id row) then
       match od !! hubspot_owner_id row with
       | Some o => o_name o
       | None => ""
       end
     else "").
Proof.
  unfold transform_deal.
  destruct (resolve_labels pd sd _ _) as [pl dl].
  destruct (if PyStr.truthy (props_get_or_empty _ "hubspot_owner_id") then _ else _)
    as [on oe] eqn:Ho.
  intros H.
  apply bind_ret_inv in H as (created & Hc & H).
  apply bind_ret_inv in H as (closed & Hcl & H).
  apply bind_ret_inv in H as (modified & Hm & H).
  apply bind_ret_inv in H as (dsc & Hdsc & H).
  apply bind_ret_inv in H as (ent & Hent & H).
  apply bind_ret_inv in H as (dtc & Hdtc & H).
  apply bind_ret_inv in H as (ciso & Hciso & H).
  apply bind_ret_inv in H as (criso & Hcriso & H).
  inversion H; subst row; clear H. cbn [owner_name hubspot_owner_id].
  destruct (PyStr.truthy _); [|now inversion Ho].
  destruct (od !! _); now inversion Ho.
Qed.

(** X15: fetch_owners never stores an owner under an empty name
    (a nameless owner is called "Unknown"), whatever the listings
    answer; so, in a row transformed with the dictionary it returned, the
    owner name is empty exactly when the deal has no owner id or its
    owner id is not in the dictionary. *)
Theorem owner_name_blank_iff_unknown (get_page : owners_api) (fuel : nat)
    (owners_dict : owners_dict_t) (n : nat)
    (d : deal) (contacts : list contact) (snapshot : datetime)
    (pd : pipelines_dict_t) (sd : stages_dict_t) (row : deal_row) :
  fetch_owners get_page fuel = Some (owners_dict, n) ->
  transform_deal d contacts snapshot pd sd owners_dict = Ret row ->
  (forall id v, owners_dict !! id = Some v -> o_name v <> "") /\
  (owner_name row = "" <->
   hubspot_owner_id row = "" \/ owners_dict !! hubspot_owner_id row = None).
Proof.
  intros Hf Ht. pose proof (fetch_owners_named _ _ _ _ Hf) as Hnamed.
  split; [exact Hnamed|].
  rewrite (transform_deal_owner _ _ _ _ _ _ _ Ht).
  destruct (hubspot_owner_id row) as [|c t] eqn:Hid; cbn [PyStr.truthy].
  - split; [now left | reflexivity].
  - destruct (owners_dict !! String c t) as [o|] eqn:Hl.
    + split; [intros Hn; now apply Hnamed in Hl | intros [|]; discriminate].
    + split; [now right | reflexivity].
Qed.

End OwnerColumn.

Lemma owner_name_blank_iff_unknown_witness :
  exists owners_dict n row,
    fetch_owners (serve_owners OwnerSample.active_pages OwnerSample.archived_pages) 3 =
      Some (owners_dict, n) /\
    transform_deal (RT := Reference.runtime) OwnerSample.deal_of_ada [] Sample.snapshot
      [] ∅ owners_dict = Ret row /\
    (owner_name row = "" <->
     hubspot_owner_id row = "" \/ owners_dict !! hubspot_owner_id row = None).
Proof.
  let v := eval vm_compute in
      (fetch_owners (serve_owners OwnerSample.active_pages OwnerSample.archived_pages) 3) in
  match v with
  | Some (?d, ?n) =>
      assert (Hf : fetch_owners
                     (serve_owners OwnerSample.active_pages OwnerSample.archived_pages) 3 =
                   Some (d, n))
        by exact (@eq_refl _ v <:
                    fetch_owners
                      (serve_owners OwnerSample.active_pages OwnerSample.archived_pages) 3 =
                    v);
      destruct (transform_deal_returns (RT := Reference.runtime) OwnerSample.deal_of_ada []
                  Sample.snapshot [] ∅ d 0 eq_refl) as [row Ht];
      exists d, n, row; split; [exact Hf|]; split; [exact Ht|];
      exact (proj2 (owner_name_blank_iff_unknown (RT := Reference.runtime)
                      (serve_owners OwnerSample.active_pages OwnerSample.archived_pages)
                      3 d n OwnerSample.deal_of_ada [] Sample.snapshot [] ∅ row Hf Ht))
  end.
Defined.

(** ** Meetings *)

Section MeetingFacts.
Context `{RT : PyRuntime}.
Variable minutes_of_micros : Z -> Z.
Variable owners_dict : owners_dict_t.

Lemma meeting_duration_returns (start_time end_time : option string) :
  returns (meeting_duration minutes_of_micros start_time end_time).
Proof.
  unfold meeting_duration. destruct (_ && _); [|now eexists].
  destruct (parse_timestamp_cases start_time) as [Hs|(s & Hs & Hstz)]; rewrite Hs;
    cbn [bind];
    (destruct (parse_timestamp_cases end_time) as [He|(e & He & Hetz)]; rewrite He;
     cbn [bind]); try (now eexists).
  unfold sub_micros. rewrite Hetz, Hstz. cbn [bind]. now eexists.
Qed.

(** Building the entry of a meeting never raises. *)
Lemma make_meeting_returns (m : api_meeting) :
  returns (make_meeting minutes_of_micros owners_dict m).
Proof.
  unfold make_meeting.
  destruct (owner_of owners_dict (props_get_or_empty _ "hubspot_owner_id")) as [on oe].
  destruct (owner_of owners_dict (props_get_or_empty _ "hs_created_by_user_id"))
    as [cn ce].
  destruct (meeting_duration_returns
              (props_get (mt_properties m) "hs_meeting_start_time")
              (props_get (mt_properties m) "hs_meeting_end_time")) as [d ->].
  cbn [bind].
  destruct (convert_returns (props_get (mt_properties m) "hs_meeting_start_time"))
    as [s ->]. cbn [bind].
  destruct (convert_returns (props_get (mt_properties m) "hs_meeting_end_time"))
    as [e ->]. cbn [bind].
  destruct (convert_returns (props_get (mt_properties m) "hs_createdate"))
    as [c ->]. cbn [bind].
  destruct (convert_returns (props_get (mt_properties m) "hs_lastmodifieddate"))
    as [u ->]. cbn [bind].
  now eexists.
Qed.

(** A page adds the entries of all its meetings, in order. *)
Lemma add_meetings_all (meetings : list api_meeting) (all_meetings : list meeting) :
  exists made,
    add_meetings minutes_of_micros owners_dict meetings all_meetings =
      (all_meetings ++ made, None) /\
    Forall2 (fun m r => make_meeting minutes_of_micros owners_dict m = Ret r)
            meetings made.
Proof.
  revert all_meetings. induction meetings as [|m rest IH]; intros all_meetings.
  - exists []. split; [cbn; now rewrite app_nil_r | constructor].
  - cbn [add_meetings]. destruct (make_meeting_returns m) as [r Hr]. rewrite Hr.
    destruct (IH (all_meetings ++ [r])) as (made & Hrun & Hall).
    exists (r :: made). split; [now rewrite Hrun, <- app_assoc | now constructor].
Qed.

Lemma serve_meetings_next (done rest : list meetings_response) (pg : meetings_response)
    (last : outcome meetings_response) (a : option string) :
  serve_meetings (done ++ pg :: rest) last (length done) a = Ret pg.
Proof.
  unfold serve_meetings. rewrite nth_error_app2 by lia. now rewrite Nat.sub_diag.
Qed.

Lemma serve_meetings_last (pages : list meetings_response)
    (last : outcome meetings_response) (a : option string) :
  serve_meetings pages last (length pages) a = last.
Proof.
  unfold serve_meetings.
  now rewrite (proj2 (nth_error_None pages (length pages)) (le_n _)).
Qed.

Lemma meeting_pages_served (rest done : list meetings_response)
    (last : outcome meetings_response) (fuel : nat) (after : option string)
    (all_meetings : list meeting) :
  Forall (fun r => mr_status r = 200 /\ mr_next r <> None) rest ->
  final_answer last ->
  (length rest < fuel)%nat ->
  exists made,
    meeting_pages minutes_of_micros (serve_meetings (done ++ rest) last) owners_dict
      fuel after (length done) all_meetings =
      Some (all_meetings ++ made, S (length (done ++ rest))) /\
    Forall2 (fun m r => make_meeting minutes_of_micros owners_dict m = Ret r)
            (flat_map mr_results rest ++ contribution last) made.
Proof.
  revert done fuel after all_meetings.
  induction rest as [|pg rest IH]; intros done fuel after all_meetings Hrest Hlast Hf.
  - destruct fuel as [|fuel]; [cbn in Hf; lia|]. cbn [meeting_pages flat_map app].
    rewrite app_nil_r, serve_meetings_last. unfold contribution.
    destruct last as [r|e].
    + destruct (Z.eqb_spec (mr_status r) 200) as [H200|Hn].
      * destruct (add_meetings_all (mr_results r) all_meetings) as (made & -> & Hall).
        cbn [final_answer] in Hlast. rewrite (Hlast H200). now exists made.
      * exists []. split; [now rewrite app_nil_r | constructor].
    + exists []. split; [now rewrite app_nil_r | constructor].
  - destruct fuel as [|fuel]; [cbn in Hf; lia|]. cbn [meeting_pages].
    rewrite serve_meetings_next.
    inversion Hrest as [|? ? [H200 Hnext] Hrest']; subst.
    rewrite H200. cbn [Z.eqb Pos.eqb].
    destruct (add_meetings_all (mr_results pg) all_meetings) as (made1 & -> & Hall1).
    destruct (mr_next pg) as [a|]; [|congruence].
    destruct (IH (done ++ [pg]) fuel (Some a) (all_meetings ++ made1) Hrest' Hlast)
      as (made2 & Hrun & Hall2); [cbn [length] in Hf; lia|].
    rewrite length_app in Hrun. cbn [length] in Hrun.
    rewrite Nat.add_1_r, <- !app_assoc in Hrun. cbn [app] in Hrun.
    exists (made1 ++ made2). split; [exact Hrun|].
    cbn [flat_map]. rewrite <- app_assoc. now apply Forall2_app.
Qed.

(** X16: fetch_all_meetings never raises and returns what it has: when
    the listing answers some pages (status 200, each naming a next page)
    and then either a last page, or an error status, or an exception,
    the result holds exactly the meetings of the pages received, in
    order (those of the last answer only when its status is 200), one
    entry per meeting; a failing call ends the fetch silently, with the
    meetings of the earlier pages. *)
Theorem fetch_all_meetings_keeps_pages (pages : list meetings_response)
    (last : outcome meetings_response) (fuel : nat) :
  Forall (fun r => mr_status r = 200 /\ mr_next r <> None) pages ->
  final_answer last ->
  (length pages < fuel)%nat ->
  exists meetings,
    fetch_all_meetings minutes_of_micros (serve_meetings pages last) owners_dict fuel =
      Some (meetings, S (length pages)) /\
    Forall2 (fun m r => make_meeting minutes_of_micros owners_dict m = Ret r)
            (flat_map mr_results pages ++ contribution last) meetings.
Proof.
  intros Hp Hl Hf.
  destruct (meeting_pages_served pages [] last fuel None [] Hp Hl Hf)
    as (made & Hrun & Hall).
  exists made. split; [exact Hrun | exact Hall].
Qed.

End MeetingFacts.

Lemma fetch_all_meetings_keeps_pages_witness :
  exists meetings,
    fetch_all_meetings (RT := Reference.runtime) MeetingSample.whole_minutes
      (serve_meetings [MeetingSample.first_page] (Raise (OSError "timed out"))) ∅ 2 =
      Some (meetings, 2%nat) /\
    Forall2 (fun m r => make_meeting (RT := Reference.runtime) MeetingSample.whole_minutes
                          ∅ m = Ret r)
            [MeetingSample.kickoff] meetings.
Proof.
  apply (fetch_all_meetings_keeps_pages (RT := Reference.runtime)
           MeetingSample.whole_minutes ∅ [MeetingSample.first_page]
           (Raise (OSError "timed out")) 2).
  - repeat constructor. discriminate.
  - exact I.
  - cbn. lia.
Defined.

Section MeetingLoad.

Lemma meetings_filter_same (date : string) (df : list meeting_row) :
  Forall (fun r => m_snapshot_date r = date) df ->
  List.filter (fun r => String.eqb (m_snapshot_date r) date) df = df.
Proof.
  induction 1 as [|r df Hr _ IH]; [reflexivity|].
  cbn [List.filter]. now rewrite Hr, String.eqb_refl, IH.
Qed.

Lemma meetings_filter_deleted (date : string) (t : list meeting_row) :
  List.filter (fun r => String.eqb (m_snapshot_date r) date)
    (List.filter (fun r => negb (String.eqb (m_snapshot_date r) date)) t) = [].
Proof.
  induction t as [|r t IH]; [reflexivity|].
  cbn [List.filter]. destruct (String.eqb (m_snapshot_date r) date) eqn:He;
    cbn [negb List.filter]; [exact IH | now rewrite He].
Qed.

Lemma meetings_filter_other (date d : string) (t : list meeting_row) :
  d <> date ->
  List.filter (fun r => String.eqb (m_snapshot_date r) d)
    (List.filter (fun r => negb (String.eqb (m_snapshot_date r) date)) t) =
  List.filter (fun r => String.eqb (m_snapshot_date r) d) t.
Proof.
  intros Hne. induction t as [|r t IH]; [reflexivity|].
  cbn [List.filter]. destruct (String.eqb_spec (m_snapshot_date r) date) as [He|He];
    cbn [negb List.filter].
  - rewrite IH. now rewrite (proj2 (String.eqb_neq (m_snapshot_date r) d)) by congruence.
  - now rewrite IH.
Qed.

Lemma meetings_filter_none (date d : string) (df : list meeting_row) :
  d <> date -> Forall (fun r => m_snapshot_date r = date) df ->
  List.filter (fun r => String.eqb (m_snapshot_date r) d) df = [].
Proof.
  intros Hne. induction 1 as [|r df Hr _ IH]; [reflexivity|].
  cbn [List.filter]. rewrite Hr, IH.
  now rewrite (proj2 (String.eqb_neq date d)) by congruence.
Qed.

Lemma transform_meetings_dates (associations_of : string -> associations_api)
    (meetings : list meeting) (snapshot : datetime) :
  Forall (fun r => m_snapshot_date r = date_isoformat snapshot)
         (transform_meetings associations_of meetings snapshot).
Proof.
  unfold transform_meetings. induction meetings as [|m rest IH]; constructor;
    [reflexivity | exact IH].
Qed.

(** A load of a non-empty batch of one date replaces the rows of that
    date by the batch and keeps the rows of the other dates. *)
Lemma load_meetings_once (df : list meeting_row) (tbl : meetings_table) (date : string) :
  df <> [] -> date <> "" -> Forall (fun r => m_snapshot_date r = date) df ->
  fst (load_meetings_to_bigquery df tbl) = Z.of_nat (length df) /\
  meetings_for date (snd (load_meetings_to_bigquery df tbl)) = df /\
  (forall d, d <> date ->
     meetings_for d (snd (load_meetings_to_bigquery df tbl)) = meetings_for d tbl).
Proof.
  intros Hne Hd Hall. destruct df as [|first rest]; [congruence|].
  unfold load_meetings_to_bigquery. inversion Hall as [|? ? Hf _]; subst.
  destruct (m_snapshot_date first) as [|c s] eqn:Hdate; [congruence|].
  cbn [PyStr.truthy fst snd meetings_for]. rewrite <- Hdate in *.
  split; [reflexivity|]. split.
  - rewrite List.filter_app, meetings_filter_deleted, (meetings_filter_same _ _ Hall).
    reflexivity.
  - intros d Hne'. rewrite List.filter_app, (meetings_filter_other _ _ _ Hne').
    rewrite (meetings_filter_none _ d _ Hne' Hall), app_nil_r.
    now destruct tbl.
Qed.

End MeetingLoad.

Section MeetingsRun.
Context `{RT : PyRuntime}.
Variable minutes_of_micros : Z -> Z.
Variable get : meetings_api.
Variable owners_dict : owners_dict_t.
Variable associations_of : string -> associations_api.
Variable start_time : datetime.

(** X17: the meetings branch of the run loads what the fetch returned:
    with no meeting fetched it loads nothing and leaves the table as it
    is; otherwise it reports one row per meeting, the rows keep the order
    and the ids of the meetings, and the table then holds for the day of
    the run exactly these rows (rows of that day loaded before are
    replaced, so that running the branch again on its result changes
    nothing for that day) and for every other day what it held. *)
Theorem meetings_branch_loads (fuel : nat) (tbl : meetings_table)
    (meetings : list meeting) (calls : nat) :
  fetch_all_meetings minutes_of_micros get owners_dict fuel = Some (meetings, calls) ->
  exists tbl',
    meetings_branch minutes_of_micros get owners_dict associations_of start_time fuel tbl =
      Some (Z.of_nat (length meetings), tbl') /\
    (meetings = [] -> tbl' = tbl) /\
    (meetings <> [] ->
     let df := transform_meetings associations_of meetings start_time in
     map (fun r => meeting_id (copied r)) df = map meeting_id meetings /\
     meetings_for (date_isoformat start_time) tbl' = df /\
     meetings_for (date_isoformat start_time)
       (snd (load_meetings_to_bigquery df tbl')) = df /\
     (forall d, d <> date_isoformat start_time ->
        meetings_for d tbl' = meetings_for d tbl)).
Proof.
  intros Hf. unfold meetings_branch. rewrite Hf.
  destruct meetings as [|m rest].
  - exists tbl. split; [reflexivity|]. split; [reflexivity | congruence].
  - set (df := transform_meetings associations_of (m :: rest) start_time).
    assert (Hne : df <> []) by discriminate.
    assert (Hlen : length df = length (m :: rest)) by apply length_map.
    pose proof (transform_meetings_dates associations_of (m :: rest) start_time) as Hd.
    fold df in Hd.
    destruct (load_meetings_once df tbl _ Hne (date_isoformat_truthy start_time) Hd)
      as (Hn & Hrows & Hother).
    destruct (load_meetings_once df (snd (load_meetings_to_bigquery df tbl)) _ Hne
                (date_isoformat_truthy start_time) Hd) as (_ & Hrows2 & _).
    exists (snd (load_meetings_to_bigquery df tbl)). split.
    + rewrite <- Hlen, <- Hn. now destruct (load_meetings_to_bigquery df tbl).
    + split; [congruence|]. intros _. cbv zeta. fold df.
      split; [|now repeat split].
      unfold df, transform_meetings. rewrite map_map. reflexivity.
Qed.

End MeetingsRun.

Lemma meetings_branch_loads_witness :
  exists meetings calls tbl',
    fetch_all_meetings (RT := Reference.runtime) MeetingSample.whole_minutes
      (serve_meetings [MeetingSample.first_page] (Ret MeetingSample.last_page)) ∅ 3 =
      Some (meetings, calls) /\
    meetings_branch (RT := Reference.runtime) MeetingSample.whole_minutes
      (serve_meetings [MeetingSample.first_page] (Ret MeetingSample.last_page)) ∅
      (fun _ => MeetingSample.no_associations) Sample.snapshot 3 None =
      Some (Z.of_nat (length meetings), tbl') /\
    length meetings = 2%nat.
Proof.
  let v := eval vm_compute in
      (fetch_all_meetings (RT := Reference.runtime) MeetingSample.whole_minutes
         (serve_meetings [MeetingSample.first_page] (Ret MeetingSample.last_page)) ∅ 3) in
  match v with
  | Some (?ms, ?n) =>
      assert (Hf : fetch_all_meetings (RT := Reference.runtime) MeetingSample.whole_minutes
                     (serve_meetings [MeetingSample.first_page]
                        (Ret MeetingSample.last_page)) ∅ 3 = Some (ms, n)) by evaluate;
      destruct (meetings_branch_loads (RT := Reference.runtime) MeetingSample.whole_minutes
                  (serve_meetings [MeetingSample.first_page] (Ret MeetingSample.last_page))
                  ∅ (fun _ => MeetingSample.no_associations) Sample.snapshot 3 None ms n Hf)
        as (tbl' & Hrun & _);
      exists ms, n, tbl'; split; [exact Hf|]; split; [exact Hrun | reflexivity]
  end.
Defined.

Section ContactRetries.
Variable api : contacts_api.
Variable cid : string.
Variable p : props.

Lemma backoff_waits (what : string) (i : nat) (st : cstate) :
  (i < 2)%nat ->
  calls_get (backoff 3 what i st) = calls_get st /\
  sleeps (trace (backoff 3 what i st)) = sleeps (trace st) ++ [2 ^ Z.of_nat i].
Proof.
  intros Hi. unfold backoff.
  destruct (Z.ltb_spec (Z.of_nat i) (Z.of_nat 3 - 1)) as [_|Hge]; [|lia].
  cbn [emit calls_get trace]. split; [reflexivity|].
  rewrite sleeps_app. reflexivity.
Qed.

Lemma contact_loop_flaky (errors : list exn) (i : nat) (st : cstate) :
  Forall transient errors ->
  (i + length errors < 3)%nat ->
  (forall j e, nth_error errors j = Some e ->
               get_by_id api (calls_get st + j) cid = Raise e) ->
  get_by_id api (calls_get st + length errors) cid = Ret p ->
  exists st',
    contact_loop api 3 cid (seq i (3 - i)) st = (Some (make_contact cid p), st') /\
    calls_get st' = (calls_get st + S (length errors))%nat /\
    calls_v4 st' = calls_v4 st /\
    sleeps (trace st') =
      sleeps (trace st) ++ map (fun j => 2 ^ Z.of_nat j) (seq i (length errors)).
Proof.
  revert i st. induction errors as [|e errors IH]; intros i st Ht Hlen Herr Hok.
  - cbn [length] in Hlen, Hok. rewrite Nat.add_0_r in Hok.
    replace (3 - i)%nat with (S (3 - S i)) by lia. cbn [seq].
    rewrite (contact_loop_success_step api 3 cid i _ st p Hok).
    eexists. split; [reflexivity|].
    cbn [count_get calls_get calls_v4 trace length seq map].
    rewrite sleeps_app. cbn [sleeps flat_map]. split; [lia|]. split; reflexivity.
  - cbn [length] in Hlen. inversion Ht as [|? ? He Ht']; subst.
    replace (3 - i)%nat with (S (3 - S i)) by lia. cbn [seq].
    pose proof (Herr 0%nat e eq_refl) as H0. rewrite Nat.add_0_r in H0.
    rewrite (contact_loop_transient_step api 3 cid i _ st e H0 He).
    destruct (backoff_waits cid i (count_get cid st)) as [Hc Hs]; [lia|].
    destruct (IH (S i) (backoff 3 cid i (count_get cid st)) Ht') as (st' & Hrun & Hc' & Hv & Hs').
    + lia.
    + intros j e' Hj. rewrite Hc. cbn [count_get calls_get].
      replace (S (calls_get st) + j)%nat with (calls_get st + S j)%nat by lia.
      now apply Herr.
    + rewrite Hc. cbn [count_get calls_get].
      replace (S (calls_get st) + length errors)%nat
        with (calls_get st + length (e :: errors))%nat by (cbn [length]; lia).
      exact Hok.
    + exists st'. split; [exact Hrun|].
      rewrite Hc in Hc'. cbn [count_get calls_get] in Hc'.
      split; [cbn [length]; lia|]. split.
      * rewrite Hv, backoff_calls_v4. reflexivity.
      * rewrite Hs', Hs. cbn [count_get trace]. rewrite sleeps_app.
        cbn [sleeps flat_map length seq map]. now rewrite app_nil_r, <- app_assoc.
Qed.

End ContactRetries.

(** X21: a contact whose hydration fails once or twice for a transient
    reason (a network error, or an exception whose text names SSL, EOF or a
    connection) and then answers is returned: the fetch makes one call per
    failure and one more, and waits 1 second after the first failure and 2
    seconds after the second. *)
Theorem fetch_associated_contacts_retries (deal_id cid : string) (errors : list exn)
    (p : props) :
  Forall transient errors -> (length errors <= 2)%nat ->
  exists st,
    fetch_associated_contacts (flaky_contact cid errors p) deal_id 3 =
      (Ret [make_contact cid p], st) /\
    calls_get st = S (length errors) /\
    sleeps (trace st) = map (fun j => 2 ^ Z.of_nat j) (seq 0 (length errors)).
Proof.
  intros Ht Hlen.
  destruct (contact_loop_flaky (flaky_contact cid errors p) cid p errors 0
              (count_v4 deal_id cstate0) Ht) as (st' & Hrun & Hc & _ & Hs).
  - lia.
  - intros j e Hj. cbn [flaky_contact get_by_id count_v4 cstate0 calls_get Nat.add].
    now rewrite Hj.
  - cbn [flaky_contact get_by_id count_v4 cstate0 calls_get Nat.add].
    now rewrite (proj2 (nth_error_None errors (length errors)) (le_n _)).
  - change (seq 0 (3 - 0)) with (seq 0 3) in Hrun.
    assert (Hv4 : v4_get_page (flaky_contact cid errors p) (calls_v4 cstate0) = Ret [cid])
      by reflexivity.
    remember (flaky_contact cid errors p) as api eqn:Hapi.
    unfold fetch_associated_contacts.
    change (seq 0 3) with (0%nat :: seq 1 2) at 1.
    cbn [association_loop]. unfold list_associations. rewrite Hv4.
    cbn [fetch_contacts]. rewrite Hrun.
    exists st'. split; [reflexivity|].
    cbn [count_v4 cstate0 calls_get trace Nat.add] in Hc, Hs.
    split; [exact Hc|]. rewrite Hs. reflexivity.
Qed.

Lemma fetch_associated_contacts_retries_witness :
  exists st,
    fetch_associated_contacts
      (flaky_contact "c1" [OSError "timed out"; OtherError "SSL: UNEXPECTED_EOF"] ∅)
      "101" 3 = (Ret [make_contact "c1" ∅], st) /\
    calls_get st = 3%nat /\
    sleeps (trace st) = [1; 2].
Proof.
  apply (fetch_associated_contacts_retries "101" "c1"
           [OSError "timed out"; OtherError "SSL: UNEXPECTED_EOF"] ∅).
  - repeat constructor.
  - cbn. lia.
Defined.

Section FetchCursors.
Variable target : option string.

Lemma pages_cursors (rest done : list page) (st : dstate) :
  calls st = length done -> chained rest ->
  exists st',
    pages (serve (done ++ rest)) target (length rest) st =
      Some (Ret (all_deals st ++
                 flat_map (fun pg => filter_page target (results pg)) rest), st') /\
    calls_to "deals.get_page" (dtrace st') =
      calls_to "deals.get_page" (dtrace st) ++
      default "" (after st) :: map cursor (removelast rest) /\
    sleeps (dtrace st') = sleeps (dtrace st) /\
    calls st' = (calls st + length rest)%nat /\
    page_count st' = page_count st + Z.of_nat (length rest).
Proof.
  revert done st. induction rest as [|pg rest IH]; intros done st Hc Hch; [contradiction|].
  cbn [length]. rewrite pages_step. change (Z.to_nat max_retries) with 5%nat.
  rewrite (page_attempts_page target (serve (done ++ pg :: rest)) 4 0 _ pg);
    [| reflexivity | cbn [calls after]; rewrite Hc; apply serve_next].
  cbv zeta. cbn [all_deals after page_count calls dtrace].
  destruct rest as [|pg2 rest].
  - cbn [chained] in Hch. rewrite Hch. cbn [flat_map removelast map].
    rewrite app_nil_r. eexists. split; [reflexivity|].
    cbn [dtrace calls page_count length].
    rewrite !calls_to_app, !sleeps_app.
    cbn [calls_to sleeps flat_map String.eqb Ascii.eqb Bool.eqb app].
    rewrite !app_nil_r. repeat split; lia.
  - destruct Hch as [Hn Hch]. destruct (paging_next pg) as [a|] eqn:Hnext; [|congruence].
    match goal with
    | |- exists st', pages _ _ _ ?s = _ /\ _ =>
        destruct (IH (done ++ [pg]) s) as (st' & Hrun & Htr & Hsl & Hcalls & Hpc)
    end.
    + cbn [calls]. rewrite Hc, length_app. cbn [length]. lia.
    + exact Hch.
    + rewrite <- app_assoc in Hrun. cbn [app all_deals] in Hrun.
      exists st'. split; [rewrite Hrun; cbn [flat_map]; now rewrite <- app_assoc|].
      cbn [dtrace after calls page_count] in Htr, Hsl, Hcalls, Hpc.
      rewrite !calls_to_app in Htr. rewrite !sleeps_app in Hsl.
      cbn [calls_to sleeps flat_map String.eqb Ascii.eqb Bool.eqb app] in Htr, Hsl.
      rewrite ?app_nil_r in Htr. rewrite ?app_nil_r in Hsl.
      split.
      * rewrite Htr, <- app_assoc. cbn [app default].
        change (removelast (pg :: pg2 :: rest)) with (pg :: removelast (pg2 :: rest)).
        cbn [map]. unfold cursor at 2. now rewrite Hnext.
      * split; [exact Hsl|]. split; [cbn [length] in *; lia|].
        cbn [length] in *. lia.
Qed.

(** X22: on a listing whose pages are chained by cursors and whose calls
    all answer, the fetch asks for the first page without a cursor and
    for every next page with the cursor the page before it named, one
    call per page and without any wait, and returns the deals of all the
    pages, in order (those of the target pipeline when a target id is
    given). *)
Theorem fetch_all_deals_follows_cursors (page_list : list page) :
  chained page_list ->
  exists st,
    fetch_all_deals (serve page_list) target (length page_list) =
      Some (Ret (flat_map (fun pg => filter_page target (results pg)) page_list), st) /\
    calls_to "deals.get_page" (dtrace st) = "" :: map cursor (removelast page_list) /\
    sleeps (dtrace st) = [] /\
    calls st = length page_list /\
    page_count st = Z.of_nat (length page_list).
Proof.
  intros H. exact (pages_cursors page_list [] dstate0 eq_refl H).
Qed.

End FetchCursors.

Lemma fetch_all_deals_follows_cursors_witness :
  exists st,
    fetch_all_deals mixed_listing (Some "p1") 2 =
      Some (Ret [Sample.deal_in_evaluation; Sample.deal_won_back], st) /\
    calls_to "deals.get_page" (dtrace st) = [""; "2"] /\
    sleeps (dtrace st) = [] /\
    calls st = 2%nat /\
    page_count st = 2.
Proof.
  apply (fetch_all_deals_follows_cursors (Some "p1")
           [ {| results := [Sample.deal_in_evaluation; Sample.deal_elsewhere];
                paging_next := Some "2" |};
             {| results := [Sample.deal_elsewhere; Sample.deal_won_back];
                paging_next := None |} ]).
  split; [discriminate | reflexivity].
Defined.

Section StageFallback.

Lemma nodup_app_inv {A} (l k : list A) :
  List.NoDup (l ++ k) ->
  List.NoDup l /\ List.NoDup k /\ (forall x, In x l -> In x k -> False).
Proof.
  induction l as [|a l IH]; cbn [app]; intros H.
  - split; [constructor|]. split; [exact H | intros x []].
  - inversion H as [|? ? Hnotin Hnd]; subst.
    destruct (IH Hnd) as (Hl & Hk & Hdisj). split.
    + constructor; [|exact Hl]. intros Hin. apply Hnotin, in_or_app. now left.
    + split; [exact Hk|]. intros x [<-|Hx] Hxk.
      * apply Hnotin, in_or_app. now right.
      * exact (Hdisj x Hx Hxk).
Qed.

Lemma add_stages_stage (pid : string) (stages : list api_stage) (idx : nat)
    (st : pipelines_state) :
  List.NoDup (map s_id stages) ->
  (forall s, In s stages ->
     exists e, ps_stages (add_stages pid idx stages st) !! s_id s = Some e /\
               se_label e = s_label s /\ se_pipeline_id e = pid) /\
  (forall sid, ~ In sid (map s_id stages) ->
     ps_stages (add_stages pid idx stages st) !! sid = ps_stages st !! sid).
Proof.
  revert idx st. induction stages as [|s0 stages IH]; intros idx st Hnd.
  - split; [intros s [] | reflexivity].
  - cbn [map] in Hnd. inversion Hnd as [|? ? Hnotin Hnd']; subst.
    cbn [add_stages].
    destruct (IH (S idx) (add_stage pid idx s0 st) Hnd') as [Hin Hout]. split.
    + intros s [<-|Hs]; [|now apply Hin].
      rewrite (Hout _ Hnotin). cbn [add_stage ps_stages].
      rewrite lookup_insert_eq. eexists. now repeat split.
    + intros sid Hsid. cbn [map] in Hsid.
      rewrite Hout by (intros H; apply Hsid; now right).
      cbn [add_stage ps_stages]. apply lookup_insert_ne.
      intros Heq. apply Hsid. now left.
Qed.

Lemma add_pipeline_stage (pl : api_pipeline) (st : pipelines_state) :
  List.NoDup (map s_id (p_stages pl)) ->
  (forall s, In s (p_stages pl) ->
     exists e, ps_stages (add_pipeline pl st) !! s_id s = Some e /\
               se_label e = s_label s /\ se_pipeline_id e = p_id pl) /\
  (forall sid, ~ In sid (map s_id (p_stages pl)) ->
     ps_stages (add_pipeline pl st) !! sid = ps_stages st !! sid).
Proof.
  intros Hnd. unfold add_pipeline.
  match goal with
  | |- context [add_stages ?pid ?i ?ss ?s] =>
      destruct (add_stages_stage pid ss i s Hnd) as [Hin Hout]
  end.
  split; [exact Hin|]. intros sid Hsid. now rewrite Hout.
Qed.

Lemma add_pipelines_stage_other (results : list api_pipeline) (sid : string)
    (st : pipelines_state) :
  List.NoDup (map s_id (flat_map p_stages results)) ->
  ~ In sid (map s_id (flat_map p_stages results)) ->
  ps_stages (add_pipelines results st) !! sid = ps_stages st !! sid.
Proof.
  revert st. induction results as [|pl results IH]; intros st Hnd Hsid; [reflexivity|].
  cbn [flat_map] in Hnd, Hsid. rewrite map_app in Hnd, Hsid.
  unfold add_pipelines in *. cbn [fold_left].
  rewrite IH.
  - apply add_pipeline_stage.
    + exact (proj1 (nodup_app_inv _ _ Hnd)).
    + intros H. apply Hsid, in_or_app. now left.
  - exact (proj1 (proj2 (nodup_app_inv _ _ Hnd))).
  - intros H. apply Hsid, in_or_app. now right.
Qed.

Lemma add_pipelines_stage (results : list api_pipeline) (pl : api_pipeline)
    (s : api_stage) (st : pipelines_state) :
  List.NoDup (map s_id (flat_map p_stages results)) ->
  In pl results -> In s (p_stages pl) ->
  exists e, ps_stages (add_pipelines results st) !! s_id s = Some e /\
            se_label e = s_label s /\ se_pipeline_id e = p_id pl.
Proof.
  revert st. induction results as [|p0 results IH]; intros st Hnd Hin Hs; [destruct Hin|].
  cbn [flat_map] in Hnd. rewrite map_app in Hnd.
  apply nodup_app_inv in Hnd as (Hnd0 & Hndr & Hdisj).
  unfold add_pipelines in *. cbn [fold_left].
  destruct Hin as [->|Hin].
  - fold (add_pipelines results (add_pipeline pl st)).
    rewrite add_pipelines_stage_other.
    + now apply add_pipeline_stage.
    + exact Hndr.
    + intros H. apply (Hdisj (s_id s)); [|exact H]. now apply in_map.
  - now apply IH.
Qed.

(** X23: a deal whose pipeline id is not among the listed pipelines (or
    is empty) still gets its stage label, from the dictionary of all
    stages: when the stage ids of the listing are all distinct, the deal
    gets an empty pipeline label and the label of the listed stage that
    bears its stage id. *)
Theorem resolve_labels_stage_fallback (results : list api_pipeline) (pl : api_pipeline)
    (s : api_stage) (pipeline_id : string) :
  List.NoDup (map s_id (flat_map p_stages results)) ->
  In pl results -> In s (p_stages pl) ->
  ~ In pipeline_id (map p_id results) ->
  resolve_labels (fst (fst (fst (fetch_pipelines (Ret results)))))
                 (snd (fst (fst (fetch_pipelines (Ret results)))))
                 pipeline_id (s_id s) =
  ("", s_label s).
Proof.
  intros Hnd Hin Hs Hpid. unfold fetch_pipelines. cbn [fst snd].
  match goal with
  | |- context [add_pipelines results ?st] =>
      destruct (add_pipelines_stage results pl s st Hnd Hin Hs) as (e & Hget & Hl & _);
      pose proof (add_pipelines_other_entry results pipeline_id st Hpid) as Hnone
  end.
  cbn [ps_pipelines ODict.get] in Hnone.
  unfold resolve_labels. rewrite Hnone, Hget, Hl.
  now destruct (PyStr.truthy pipeline_id).
Qed.

End StageFallback.

Lemma resolve_labels_stage_fallback_witness :
  resolve_labels
    (fst (fst (fst (fetch_pipelines (Ret [Sample.sales_pipeline; Sample.other_pipeline])))))
    (snd (fst (fst (fetch_pipelines (Ret [Sample.sales_pipeline; Sample.other_pipeline])))))
    "" "s2" = ("", "Closed Won").
Proof.
  apply (resolve_labels_stage_fallback [Sample.sales_pipeline; Sample.other_pipeline]
           Sample.sales_pipeline {| s_id := "s2"; s_label := "Closed Won" |} "").
  - repeat constructor; cbn; intuition discriminate.
  - now left.
  - right. now left.
  - cbn. intuition discriminate.
Defined.
